(** * pytkdocs.loader: resolution of dotted paths, member selection and
      construction of the documentation tree.

    A shallow embedding of [src/pytkdocs/loader.py].  Live Python objects are
    opaque handles; everything the loader asks of the interpreter ([importlib],
    [inspect], [pkgutil], [re], attribute access) is gathered in the record
    [Runtime].  The loader's own mutable state (the [errors] list and the
    [lru_cache] of [filter_name_out]) is threaded explicitly. *)

From Stdlib Require Import String Ascii List Bool Arith Lia.
From stdpp Require Import base option list strings gmap.
Import ListNotations.
Local Open Scope string_scope.
Local Open Scope list_scope.

(** ** Python strings *)

Module PyStr.

(** [s.split(sep)] for a one-character separator: never the empty list. *)
Fixpoint split (sep : ascii) (s : string) : list string :=
  match s with
  | EmptyString => [EmptyString]
  | String c rest =>
      if Ascii.eqb c sep then EmptyString :: split sep rest
      else match split sep rest with
           | [] => [String c EmptyString]
           | h :: t => String c h :: t
           end
  end.

(** [sep.join(parts)]. *)
Fixpoint join (sep : string) (parts : list string) : string :=
  match parts with
  | [] => EmptyString
  | [x] => x
  | x :: rest => x +:+ sep +:+ join sep rest
  end.

(** [s.startswith(c)] for a one-character prefix. *)
Definition startswith (c : ascii) (s : string) : bool :=
  match s with
  | String c' _ => Ascii.eqb c' c
  | EmptyString => false
  end.

(** [s.lstrip(c)]: drops every leading occurrence of [c]. *)
Fixpoint lstrip (c : ascii) (s : string) : string :=
  match s with
  | String c' rest => if Ascii.eqb c' c then lstrip c rest else s
  | EmptyString => EmptyString
  end.

Definition dot : ascii := "."%char.
Definition bang : ascii := "!"%char.

End PyStr.

(** ** Python values, exceptions and documentation entities *)

(** A live Python object is an opaque handle; [is] is equality of handles. *)
Definition Obj := positive.

Inductive exn_class :=
  | ValueError | ImportError | TypeError | OSError
  | AttributeError | KeyError | IndexError | RecursionError.

Record exn := Exn { exn_type : exn_class; exn_msg : string }.

Inductive result (A : Type) : Type :=
  | Ok (a : A)
  | Raise (e : exn).
Arguments Ok {A} a.
Arguments Raise {A} e.

Definition exn_class_eqb (a b : exn_class) : bool :=
  match a, b with
  | ValueError, ValueError | ImportError, ImportError | TypeError, TypeError
  | OSError, OSError | AttributeError, AttributeError | KeyError, KeyError
  | IndexError, IndexError | RecursionError, RecursionError => true
  | _, _ => false
  end.

(** [except cls:] catches [e] exactly when [e] is of class [cls]. *)
Definition caught_by (classes : list exn_class) (e : exn) : bool :=
  existsb (exn_class_eqb (exn_type e)) classes.

(** [inspect.Signature]: the parameter names and the return annotation. *)
Record Signature := { parameters : list string; return_annotation : Obj }.

(** [Source(code, line)]: [code] is a text (module source) or a list of lines. *)
Inductive SourceCode :=
  | CodeText (text : string)
  | CodeLines (lines : list string).

Record Source := { code : SourceCode; line_start : nat }.

(** The per-attribute dictionaries of [pytkdocs.parsers.attributes], read by
    the loader at the keys ["docstring"] and ["annotation"] only.  The outer
    [option] is the presence of the key; [empty_dict] is [{}]. *)
Record AttrDict := {
  ad_docstring : option (option string);
  ad_annotation : option Obj }.

Definition empty_dict : AttrDict := {| ad_docstring := None; ad_annotation := None |}.

(** [d["docstring"]] and [d["annotation"]]: a missing key raises [KeyError]. *)
Definition getitem_docstring (d : AttrDict) : result (option string) :=
  match ad_docstring d with
  | Some v => Ok v
  | None => Raise (Exn KeyError "'docstring'")
  end.

Definition getitem_annotation (d : AttrDict) : result Obj :=
  match ad_annotation d with
  | Some v => Ok v
  | None => Raise (Exn KeyError "'annotation'")
  end.

(** [d.get("docstring", "")] and [d.get("annotation", None)]. *)
Definition get_docstring (d : AttrDict) : option string :=
  default (Some "") (ad_docstring d).

Definition get_annotation (d : AttrDict) : option Obj := ad_annotation d.

Inductive Category := Module | Class | Function | Method | Attribute.

(** The entities of [pytkdocs.objects], with the fields the loader sets. *)
Module Object.
#[local] Unset Elimination Schemes.
Inductive t := Make {
  category : Category;
  name : string;
  path : string;
  file_path : string;
  docstring : option string;
  properties : list string;
  signature : option Signature;
  source : option Source;
  attr_type : option Obj;
  children : list t;
  docstring_sections : option (list string) }.
#[local] Set Elimination Schemes.

Definition set_docstring (d : option string) (o : t) : t :=
  Make (category o) (name o) (path o) (file_path o) d (properties o)
       (signature o) (source o) (attr_type o) (children o) (docstring_sections o).

Definition set_properties (p : list string) (o : t) : t :=
  Make (category o) (name o) (path o) (file_path o) (docstring o) p
       (signature o) (source o) (attr_type o) (children o) (docstring_sections o).

Definition set_children (c : list t) (o : t) : t :=
  Make (category o) (name o) (path o) (file_path o) (docstring o) (properties o)
       (signature o) (source o) (attr_type o) c (docstring_sections o).

Definition set_sections (s : option (list string)) (o : t) : t :=
  Make (category o) (name o) (path o) (file_path o) (docstring o) (properties o)
       (signature o) (source o) (attr_type o) (children o) s.

(** Modelled from the spec: [add_child] of [pytkdocs.objects.Object], which is
    not among the sources.  [children] is an ordered sequence in discovery
    order and collisions are not deduplicated: the child is appended. *)
Definition add_child (child : t) (o : t) : t :=
  set_children (children o ++ [child]) o.

(** [child.properties.append(tag)]. *)
Definition append_property (tag : string) (o : t) : t :=
  set_properties (properties o ++ [tag]) o.
End Object.

(** ** The interpreter as seen by the loader *)

(** Every call that the loader makes outside this file.  A call that the
    loader guards with [try] somewhere returns a [result], so that the
    exception classes of each [except] clause can be told apart.  So do
    [importlib.import_module], which raises [ImportError] for a module that
    is not found, [TypeError] for a relative name and whatever the module
    raises while it runs, and [inspect.getabsfile], which raises [TypeError]
    for a module without file (a built-in module, a module made at run time).
    [getattr] fails with the exception of its contract, [AttributeError];
    [inspect.unwrap] is only called under [except Exception]. *)
Record Runtime := {
  (* importlib, and attribute access, where [None] is the exception named *)
  import_module : string -> result Obj;
  getattr : Obj -> string -> option Obj;         (* AttributeError *)
  obj_name : Obj -> string;                      (* __name__ *)
  obj_doc : Obj -> option string;                (* __doc__ *)
  obj_dict : Obj -> gmap string Obj;             (* __dict__ *)
  class_mro : Obj -> list Obj;                   (* __mro__ *)
  module_path : Obj -> option (list string);     (* __path__, AttributeError *)
  builtin_type : Obj;
  builtin_object : Obj;
  type_of : Obj -> Obj;
  (* inspect *)
  inspect_unwrap : Obj -> option Obj;            (* None: it raised *)
  inspect_getabsfile : Obj -> result string;
  inspect_getmodule : Obj -> option Obj;
  inspect_ismodule : Obj -> bool;
  inspect_isclass : Obj -> bool;
  inspect_isfunction : Obj -> bool;              (* isinstance(o, FunctionType) *)
  inspect_iscoroutinefunction : Obj -> bool;
  isinstance_property : Obj -> bool;
  isinstance_staticmethod : Obj -> bool;
  isinstance_classmethod : Obj -> bool;
  inspect_getsource : Obj -> result string;
  inspect_getsourcelines : Obj -> result (list string * nat);
  inspect_signature : Obj -> result Signature;
  inspect_getdoc : Obj -> option string;
  inspect_cleandoc : string -> string;
  inspect_getmembers : Obj -> list (string * Obj);
  (* files, packages, regular expressions *)
  read_lines : string -> result (list string);   (* Path(p).open().readlines() *)
  pkgutil_iter_modules : list string -> list string;
  re_search : string -> string -> bool;          (* re.compile(p).search(s) *)
  RE_SPECIAL_match : string -> bool;             (* pytkdocs.properties.RE_SPECIAL *)
  (* pytkdocs.parsers.attributes *)
  get_module_attributes : Obj -> gmap string AttrDict;
  get_class_attributes : Obj -> gmap string AttrDict;
  get_instance_attributes : Obj -> gmap string AttrDict;
  merge : gmap string AttrDict -> gmap string AttrDict -> gmap string AttrDict;
  (* pytkdocs.objects: Object.parse_docstring and Object.parse_all_docstrings *)
  parse_docstring : Object.t -> gmap string AttrDict -> Object.t;
  parse_all_docstrings : Object.t -> Object.t;
  (* properties, registries and their fields *)
  prop_fget : Obj -> Obj;
  prop_fset_is_None : Obj -> bool;
  dict_items : Obj -> list (string * Obj);
  field_required : Obj -> bool;
  field_info_description : Obj -> option string;
  field_type_ : Obj -> Obj;
  field_metadata_description : Obj -> option string;
  field_name : Obj -> string;
  field_type : Obj -> Obj }.

Global Instance result_ret : MRet result := fun _ a => Ok a.
Global Instance result_bind : MBind result := fun _ _ f r =>
  match r with
  | Ok a => f a
  | Raise e => Raise e
  end.

(** ** [ObjectNode]: a backward-linked chain of named objects *)

Module ObjectNode.
#[local] Unset Elimination Schemes.
Inductive t := Make { obj : Obj; name : string; parent : option t }.
#[local] Set Elimination Schemes.

(** [ObjectNode.__init__]: the object is unwrapped when unwrapping succeeds. *)
Definition init (R : Runtime) (o : Obj) (n : string) (p : option t) : t :=
  Make (default o (inspect_unwrap R o)) n p.

(** [parts] of [dotted_path]: own name first, then the names up the chain. *)
Fixpoint parts (self : t) : list string :=
  match self with
  | Make _ n None => [n]
  | Make _ n (Some current) => n :: parts current
  end.

Definition dotted_path (self : t) : string :=
  PyStr.join "." (rev (parts self)).

Fixpoint root (self : t) : t :=
  match self with
  | Make _ _ (Some p) => root p
  | Make _ _ None => self
  end.

(** [inspect.getabsfile(self.root.obj)], with the exception it may raise. *)
Definition file_path (R : Runtime) (self : t) : result string :=
  inspect_getabsfile R (obj (root self)).

Definition is_module (R : Runtime) (self : t) : bool := inspect_ismodule R (obj self).
Definition is_class (R : Runtime) (self : t) : bool := inspect_isclass R (obj self).
Definition is_function (R : Runtime) (self : t) : bool := inspect_isfunction R (obj self).
Definition is_coroutine_function (R : Runtime) (self : t) : bool :=
  inspect_iscoroutinefunction R (obj self).
Definition is_property (R : Runtime) (self : t) : bool := isinstance_property R (obj self).

Definition parent_is_class (R : Runtime) (self : t) : bool :=
  match parent self with
  | Some p => is_class R p
  | None => false
  end.

(** [type(lambda: 0)] is [types.FunctionType], the type that
    [inspect.isfunction] tests for. *)
Definition is_method (R : Runtime) (self : t) : bool :=
  parent_is_class R self && inspect_isfunction R (obj self).

(** [isinstance(self.parent.obj.__dict__.get(self.name, None), wrapper)]. *)
Definition declared_as (R : Runtime) (wrapper : Obj -> bool) (self : t) : bool :=
  match parent self with
  | None => false
  | Some p =>
      parent_is_class R self &&
      match obj_dict R (obj p) !! name self with
      | Some raw => wrapper raw
      | None => false
      end
  end.

Definition is_staticmethod (R : Runtime) (self : t) : bool :=
  declared_as R (isinstance_staticmethod R) self.

Definition is_classmethod (R : Runtime) (self : t) : bool :=
  declared_as R (isinstance_classmethod R) self.
End ObjectNode.

(** ** [get_object_tree] *)

(** The [while True] loop: import the longest importable prefix, moving the
    right-most segment to the front of [objects] after each [ImportError].
    Only [ImportError] is caught: any other exception of an import leaves the
    loop.  [n] bounds the number of iterations; the length of the segment list
    is enough, and popping from an empty list is Python's [IndexError]. *)
Fixpoint import_loop (R : Runtime) (n : nat) (obj_parent_modules objects : list string)
  : result (Obj * list string) :=
  match import_module R (PyStr.join "." obj_parent_modules) with
  | Ok parent_module => Ok (parent_module, objects)
  | Raise error =>
      if caught_by [ImportError] error then
        if Nat.eqb (List.length obj_parent_modules) 1 then
          Raise (Exn ImportError ("No module named '" +:+ hd "" obj_parent_modules +:+ "'"))
        else
          match n, last obj_parent_modules with
          | S n', Some popped =>
              import_loop R n' (removelast obj_parent_modules) (popped :: objects)
          | _, _ => Raise (Exn IndexError "pop from empty list")
          end
      else Raise error
  end.

(** The [for obj_name in objects] loop: one node per remaining segment.  The
    [child] attribute that the loop also sets is read nowhere. *)
Fixpoint attach (R : Runtime) (current_node : ObjectNode.t) (objects : list string)
  : result ObjectNode.t :=
  match objects with
  | [] => Ok current_node
  | obj_name :: rest =>
      match getattr R (ObjectNode.obj current_node) obj_name with
      | None => Raise (Exn AttributeError obj_name)
      | Some o => attach R (ObjectNode.init R o obj_name (Some current_node)) rest
      end
  end.

(** The final [while current_node.parent is not None] loop.  Assigning
    [current_node.parent] is seen from the leaf through the chain, so the
    chain is rebuilt from the node that changes down to the leaf. *)
Fixpoint real_parent (R : Runtime) (real_module : option Obj) (current_node : ObjectNode.t)
  : ObjectNode.t :=
  match current_node with
  | ObjectNode.Make _ _ None => current_node
  | ObjectNode.Make o n (Some p) =>
      let real_module :=
        match real_module with
        | None => inspect_getmodule R o
        | Some _ => real_module
        end in
      if inspect_ismodule R (ObjectNode.obj p) then
        match real_module with
        | Some m =>
            if decide (m = ObjectNode.obj p) then current_node
            else ObjectNode.Make o n (Some (ObjectNode.init R m (obj_name R m) None))
        | None => current_node
        end
      else ObjectNode.Make o n (Some (real_parent R real_module p))
  end.

Definition is_empty (s : string) : bool :=
  match s with
  | EmptyString => true
  | _ => false
  end.

Definition get_object_tree (R : Runtime) (path : string) : result ObjectNode.t :=
  if is_empty path then
    Raise (Exn ValueError ("path must be a valid Python path, not " +:+ path))
  else
    let obj_parent_modules := PyStr.split PyStr.dot path in
    '(parent_module, objects) ← import_loop R (List.length obj_parent_modules) obj_parent_modules [];
    leaf ← attach R (ObjectNode.init R parent_module (obj_name R parent_module) None) objects;
    Ok (real_parent R None leaf).

(** ** The [Loader] and its state *)

(** [self]: the compiled filters (each filter with the source of its regular
    expression, the filter without its leading exclamation marks), the
    recoverable errors, the inheritance flag, and the memo table that
    [lru_cache] keeps for [filter_name_out]. *)
Record Loader := {
  filters : list (string * string);
  errors : list string;
  select_inherited_members : bool;
  filter_cache : gmap string bool }.

(** [Loader.__init__] *)
Definition Loader_init (filters : option (list string)) (inherited_members : bool) : Loader :=
  let filters := default [] filters in
  {| filters := map (fun f => (f, PyStr.lstrip PyStr.bang f)) filters;
     errors := [];
     select_inherited_members := inherited_members;
     filter_cache := ∅ |}.

(** A method of the loader: it may change [self], and returns or raises. *)
Definition M (A : Type) : Type := Loader -> Loader * result A.

Global Instance M_ret : MRet M := fun _ a self => (self, Ok a).
Global Instance M_bind : MBind M := fun _ _ f m self =>
  match m self with
  | (self', Ok a) => f a self'
  | (self', Raise e) => (self', Raise e)
  end.

Definition raise {A} (e : exn) : M A := fun self => (self, Raise e).

Definition lift {A} (r : result A) : M A := fun self => (self, r).

(** [self.errors.append(msg)] *)
Definition append_error (msg : string) : M unit := fun self =>
  ({| filters := filters self;
      errors := errors self ++ [msg];
      select_inherited_members := select_inherited_members self;
      filter_cache := filter_cache self |}, Ok tt).

Definition get_self : M Loader := fun self => (self, Ok self).

(** [try: a = r / except classes as error: handler(error) / else: ok(a)] *)
Definition try_except {A B} (r : result A) (classes : list exn_class)
    (handler : exn -> M B) (ok : A -> M B) : M B :=
  match r with
  | Ok a => ok a
  | Raise error => if caught_by classes error then handler error else raise error
  end.

(** A [for] loop with an accumulator. *)
Fixpoint foldM {A B} (body : B -> A -> M B) (items : list A) (acc : B) : M B :=
  match items with
  | [] => mret acc
  | x :: rest => acc' ← body acc x; foldM body rest acc'
  end.

(** The [members] argument: [None], [True]/[False], or a set of names. *)
Inductive Members :=
  | MNone
  | MBool (b : bool)
  | MSet (names : gset string).

(** Truthiness of such a value. *)
Definition truthy (m : Members) : bool :=
  match m with
  | MNone => false
  | MBool b => b
  | MSet names => negb (bool_decide (names = ∅))
  end.

(** [select_members or set()] *)
Definition or_empty_set (select_members : Members) : Members :=
  if truthy select_members then select_members else MSet ∅.

(** ** Member selection *)

(** The body of [filter_name_out], before memoisation. *)
Definition filter_name_out_body (R : Runtime) (filters : list (string * string))
    (name : string) : bool :=
  match filters with
  | [] => false
  | _ =>
      let keep :=
        fold_left (fun keep '(fltr, regex) =>
          let is_matching := re_search R regex name in
          if is_matching then
            (if PyStr.startswith PyStr.bang fltr then negb is_matching else is_matching)
          else keep) filters true in
      negb keep
  end.

(** [filter_name_out] under [lru_cache(maxsize=None)]: a name already seen is
    answered from the table, a new one is computed and stored. *)
Definition filter_name_out (R : Runtime) (name : string) : M bool := fun self =>
  match filter_cache self !! name with
  | Some answer => (self, Ok answer)
  | None =>
      let answer := filter_name_out_body R (filters self) name in
      ({| filters := filters self;
          errors := errors self;
          select_inherited_members := select_inherited_members self;
          filter_cache := <[name := answer]> (filter_cache self) |}, Ok answer)
  end.

(** [select]: [name in names] when [names] is truthy, the filters otherwise.
    [name in True] is a [TypeError]. *)
Definition select (R : Runtime) (name : string) (names : Members) : M bool :=
  if truthy names then
    match names with
    | MSet s => mret (bool_decide (name ∈ s))
    | _ => raise (Exn TypeError "argument of type 'bool' is not iterable")
    end
  else
    out ← filter_name_out R name; mret (negb out).

(** ** Documentation of leaves *)

Definition new_object (c : Category) (name path file_path : string)
    (docstring : option string) (signature : option Signature)
    (source : option Source) (attr_type : option Obj) (properties : list string)
  : Object.t :=
  Object.Make c name path file_path docstring properties signature source attr_type [] None.

Definition source_of_lines (r : list string * nat) : Source :=
  {| code := CodeLines (fst r); line_start := snd r |}.

Definition get_function_documentation (R : Runtime) (node : ObjectNode.t) : M Object.t :=
  let function := ObjectNode.obj node in
  let path := ObjectNode.dotted_path node in
  signature ← try_except (inspect_signature R function) [TypeError]
    (fun error =>
       append_error ("Couldn't get signature for '" +:+ path +:+ "': " +:+ exn_msg error);;
       mret None)
    (fun s => mret (Some s));
  source ← try_except (inspect_getsourcelines R function) [OSError]
    (fun error =>
       append_error ("Couldn't read source for '" +:+ path +:+ "': " +:+ exn_msg error);;
       mret None)
    (fun s => mret (Some (source_of_lines s)));
  let properties := if ObjectNode.is_coroutine_function R node then ["async"] else [] in
  file_path ← lift (ObjectNode.file_path R node);
  mret (new_object Function (ObjectNode.name node) (ObjectNode.dotted_path node)
          file_path (inspect_getdoc R function) signature source None properties).

Definition get_property_documentation (R : Runtime) (node : ObjectNode.t) : M Object.t :=
  let prop := ObjectNode.obj node in
  let path := ObjectNode.dotted_path node in
  let properties := ["property"; if prop_fset_is_None R prop then "readonly" else "writable"] in
  attr_type ← try_except (inspect_signature R (prop_fget R prop)) [TypeError; ValueError]
    (fun error =>
       append_error ("Couldn't get signature for '" +:+ path +:+ "': " +:+ exn_msg error);;
       mret None)
    (fun signature => mret (Some (return_annotation signature)));
  source ← try_except (inspect_getsourcelines R (prop_fget R prop)) [OSError; TypeError]
    (fun error =>
       append_error ("Couldn't get source for '" +:+ path +:+ "': " +:+ exn_msg error);;
       mret None)
    (fun s => mret (Some (source_of_lines s)));
  file_path ← lift (ObjectNode.file_path R node);
  mret (new_object Attribute (ObjectNode.name node) path file_path
          (inspect_getdoc R (prop_fget R prop)) None source attr_type properties).

Definition get_pydantic_field_documentation (R : Runtime) (node : ObjectNode.t)
  : result Object.t :=
  let prop := ObjectNode.obj node in
  let path := ObjectNode.dotted_path node in
  let properties := "pydantic-field" :: (if field_required R prop then ["required"] else []) in
  file_path ← ObjectNode.file_path R node;
  Ok (new_object Attribute (ObjectNode.name node) path file_path
        (field_info_description R prop) None None (Some (field_type_ R prop)) properties).

Definition get_marshmallow_field_documentation (R : Runtime) (node : ObjectNode.t)
  : result Object.t :=
  let prop := ObjectNode.obj node in
  let path := ObjectNode.dotted_path node in
  let properties := "marshmallow-field" :: (if field_required R prop then ["required"] else []) in
  file_path ← ObjectNode.file_path R node;
  Ok (new_object Attribute (ObjectNode.name node) path file_path
        (field_metadata_description R prop) None None (Some (type_of R prop)) properties).

(** The [attribute_data is None] branch shared by the two attribute builders:
    the class scope when the parent is a class, the root module otherwise,
    and [{}] when the name is not in the map. *)
Definition default_attribute_data (R : Runtime) (node : ObjectNode.t) : AttrDict :=
  if ObjectNode.parent_is_class R node then
    match ObjectNode.parent node with
    | Some p => default empty_dict (get_class_attributes R (ObjectNode.obj p) !! ObjectNode.name node)
    | None => empty_dict
    end
  else
    default empty_dict
      (get_module_attributes R (ObjectNode.obj (ObjectNode.root node)) !! ObjectNode.name node).

Definition get_annotated_dataclass_field (R : Runtime) (node : ObjectNode.t)
    (attribute_data : option AttrDict) : result Object.t :=
  let attribute_data :=
    match attribute_data with
    | None => default_attribute_data R node
    | Some d => d
    end in
  file_path ← ObjectNode.file_path R node;
  docstring ← getitem_docstring attribute_data;
  annotation ← getitem_annotation attribute_data;
  Ok (new_object Attribute (ObjectNode.name node) (ObjectNode.dotted_path node)
        file_path docstring None None (Some annotation) ["dataclass-field"]).

Definition get_attribute_documentation (R : Runtime) (node : ObjectNode.t)
    (attribute_data : option AttrDict) : result Object.t :=
  let attribute_data :=
    match attribute_data with
    | None => default_attribute_data R node
    | Some d => d
    end in
  file_path ← ObjectNode.file_path R node;
  Ok (new_object Attribute (ObjectNode.name node) (ObjectNode.dotted_path node)
        file_path (get_docstring attribute_data) None None
        (get_annotation attribute_data) []).

Definition get_method_documentation (R : Runtime) (node : ObjectNode.t)
    (properties : option (list string)) : M Object.t :=
  let method := ObjectNode.obj node in
  let path := ObjectNode.dotted_path node in
  source ← match inspect_getsourcelines R method with
           | Ok s => mret (Some (source_of_lines s))
           | Raise error =>
               if caught_by [OSError] error then
                 append_error ("Couldn't read source for '" +:+ path +:+ "': " +:+ exn_msg error);;
                 mret None
               else if caught_by [TypeError] error then mret None
               else raise error
           end;
  let properties :=
    if ObjectNode.is_coroutine_function R node then
      match properties with
      | None => Some ["async"]
      | Some l => Some (l ++ ["async"])
      end
    else properties in
  file_path ← lift (ObjectNode.file_path R node);
  signature ← lift (inspect_signature R method);
  mret (new_object Method (ObjectNode.name node) path file_path
          (inspect_getdoc R method) (Some signature) source None (default [] properties)).

Definition get_classmethod_documentation (R : Runtime) (node : ObjectNode.t) : M Object.t :=
  get_method_documentation R node (Some ["classmethod"]).

Definition get_staticmethod_documentation (R : Runtime) (node : ObjectNode.t) : M Object.t :=
  get_method_documentation R node (Some ["staticmethod"]).

(** [class_.__mro__[1:]] *)
Definition mro_parents (R : Runtime) (class_ : Obj) : list Obj := tail (class_mro R class_).

(** The [for parent_class in parent_classes] loop: the first class on which
    the name resolves decides, by equality of the two docstrings. *)
Fixpoint inherited_docstring (R : Runtime) (parent_classes : list Obj) (name : string)
    (method : Object.t) : Object.t :=
  match parent_classes with
  | [] => method
  | parent_class :: rest =>
      match getattr R parent_class name with
      | None => inherited_docstring R rest name method
      | Some parent_method =>
          if decide (Object.docstring method = inspect_getdoc R parent_method)
          then Object.set_docstring (Some "") method
          else method
      end
  end.

Definition get_regular_method_documentation (R : Runtime) (node : ObjectNode.t) : M Object.t :=
  method ← get_method_documentation R node None;
  match ObjectNode.parent node with
  | Some p =>
      let class_ := ObjectNode.obj p in
      if RE_SPECIAL_match R (ObjectNode.name node) then
        mret (inherited_docstring R (mro_parents R class_) (ObjectNode.name node) method)
      else mret method
  | None => mret method
  end.

(** ** Python dictionaries that keep insertion order *)

(** [d[k] = v]: an existing key keeps its position. *)
Fixpoint dict_set (d : list (string * Obj)) (k : string) (v : Obj) : list (string * Obj) :=
  match d with
  | [] => [(k, v)]
  | (k', v') :: rest =>
      if String.eqb k k' then (k, v) :: rest else (k', v') :: dict_set rest k v
  end.

(** [dict(pairs)] *)
Definition py_dict (pairs : list (string * Obj)) : list (string * Obj) :=
  fold_left (fun d kv => dict_set d (fst kv) (snd kv)) pairs [].

Definition dict_get (d : list (string * Obj)) (k : string) : option Obj :=
  snd <$> find (fun kv => String.eqb (fst kv) k) d.

(** [d[k]], a [KeyError] when the key is missing. *)
Definition dict_getitem (d : list (string * Obj)) (k : string) : result Obj :=
  match dict_get d k with
  | Some v => Ok v
  | None => Raise (Exn KeyError k)
  end.

Definition contains (d : list (string * Obj)) (k : string) : bool :=
  bool_decide (is_Some (dict_get d k)).

(** ** Documentation of classes *)

(** [class_.__mro__[:-1]] and [class_.__mro__[1:-1]] *)
Definition mro_but_object (R : Runtime) (class_ : Obj) : list Obj := removelast (class_mro R class_).
Definition mro_strict_parents (R : Runtime) (class_ : Obj) : list Obj :=
  tail (removelast (class_mro R class_)).

(** The keys of [getattr(cls, registry, {})] for each [cls] of [classes],
    chained in order. *)
Definition registry_keys (R : Runtime) (registry : string) (classes : list Obj) : list string :=
  flat_map (fun cls =>
    match getattr R cls registry with
    | Some d => map fst (dict_items R d)
    | None => []
    end) classes.

(** [registry in direct_members or
     (self.select_inherited_members and registry in all_members)] *)
Definition exposes (self : Loader) (registry : string)
    (direct_members : gmap string Obj) (all_members : list (string * Obj)) : bool :=
  bool_decide (is_Some (direct_members !! registry))
  || (select_inherited_members self && contains all_members registry).

(** The condition under which one field of a registry is documented. *)
Definition field_selected (R : Runtime) (class_ : Obj) (registry field_name : string)
    (select_members : Members) : M bool :=
  selected ← select R field_name select_members;
  if selected : bool then
    self ← get_self;
    mret (select_inherited_members self
          || negb (bool_decide (field_name ∈ registry_keys R registry (mro_strict_parents R class_))))
  else mret false.

(** The attribute map of a class: its ancestors from the most basic one,
    then the attributes set in its own [__init__]. *)
Definition class_attributes_data (R : Runtime) (class_ : Obj) : M (gmap string AttrDict) :=
  let attributes_data :=
    fold_left (fun acc cls => merge R acc (get_class_attributes R cls))
              (rev (mro_but_object R class_)) ∅ in
  if bool_decide (is_Some (obj_dict R class_ !! "__init__")) then
    match getattr R class_ "__init__" with
    | None => raise (Exn AttributeError "__init__")
    | Some init =>
        let attributes_data := get_instance_attributes R init ∪ attributes_data in
        _ ← lift (inspect_signature R init);
        mret attributes_data
    end
  else mret attributes_data.

(** The first loop over [all_members]: the members to document, in order,
    and the names among them that are inherited. *)
Definition collect_members (R : Runtime) (class_ : Obj) (select_members : Members)
    (all_members : list (string * Obj)) : M (list (string * Obj) * list string) :=
  let direct_members := obj_dict R class_ in
  foldM (fun (acc : list (string * Obj) * list string) (kv : string * Obj) =>
    let '(members, inherited) := acc in
    let '(member_name, member) := kv in
    if bool_decide (member = builtin_type R) || bool_decide (member = builtin_object R)
    then mret acc
    else
      selected ← select R member_name select_members;
      if selected : bool then
        if bool_decide (is_Some (direct_members !! member_name)) then
          mret (dict_set members member_name member, inherited)
        else
          self ← get_self;
          if select_inherited_members self then
            mret (dict_set members member_name member, inherited ++ [member_name])
          else mret acc
      else mret acc)
    all_members ([], []).

(** The detection of pydantic, marshmallow and dataclass declarations, and
    the fields it adds to [root_object]. *)
Definition document_fields (R : Runtime) (node : ObjectNode.t) (select_members : Members)
    (all_members : list (string * Obj)) (root_object : Object.t) : M Object.t :=
  let class_ := ObjectNode.obj node in
  let direct_members := obj_dict R class_ in
  self ← get_self;
  if exposes self "__fields__" direct_members all_members then
    registry ← lift (dict_getitem all_members "__fields__");
    foldM (fun root_object '(field_name, model_field) =>
        wanted ← field_selected R class_ "__fields__" field_name select_members;
        if wanted : bool then
          let child_node := ObjectNode.init R model_field field_name (Some node) in
          child ← lift (get_pydantic_field_documentation R child_node);
          mret (Object.add_child child root_object)
        else mret root_object)
      (dict_items R registry) (Object.set_properties ["pydantic-model"] root_object)
  else if exposes self "_declared_fields" direct_members all_members then
    registry ← lift (dict_getitem all_members "_declared_fields");
    foldM (fun root_object '(field_name, model_field) =>
        wanted ← field_selected R class_ "_declared_fields" field_name select_members;
        if wanted : bool then
          let child_node := ObjectNode.init R model_field field_name (Some node) in
          child ← lift (get_marshmallow_field_documentation R child_node);
          mret (Object.add_child child root_object)
        else mret root_object)
      (dict_items R registry) (Object.set_properties ["marshmallow-model"] root_object)
  else if exposes self "__dataclass_fields__" direct_members all_members then
    registry ← lift (dict_getitem all_members "__dataclass_fields__");
    foldM (fun root_object field =>
        wanted ← field_selected R class_ "__dataclass_fields__" (field_name R field) select_members;
        if wanted : bool then
          let child_node := ObjectNode.init R (field_type R field) (field_name R field) (Some node) in
          child ← lift (get_annotated_dataclass_field R child_node None);
          mret (Object.add_child child root_object)
        else mret root_object)
      (map snd (dict_items R registry)) (Object.set_properties ["dataclass"] root_object)
  else mret root_object.

(** [depth] is the room left on the call stack: the recursion into nested
    classes has no other bound, and running out is a [RecursionError]. *)
Fixpoint get_class_documentation (R : Runtime) (depth : nat) (node : ObjectNode.t)
    (select_members : Members) {struct depth} : M Object.t :=
  match depth with
  | 0 => raise (Exn RecursionError "maximum recursion depth exceeded")
  | S depth =>
      let class_ := ObjectNode.obj node in
      let docstring := inspect_cleandoc R (default "" (obj_doc R class_)) in
      file_path ← lift (ObjectNode.file_path R node);
      let root_object :=
        new_object Class (ObjectNode.name node) (ObjectNode.dotted_path node)
          file_path (Some docstring) None None None [] in
      attributes_data ← class_attributes_data R class_;
      let root_object := parse_docstring R root_object attributes_data in
      match select_members with
      | MBool false => mret root_object
      | _ =>
          let select_members := or_empty_set select_members in
          let all_members := py_dict (inspect_getmembers R class_) in
          '(members, inherited) ← collect_members R class_ select_members all_members;
          root_object ← foldM (fun root_object '(member_name, member) =>
              let child_node := ObjectNode.init R member member_name (Some node) in
              let add child :=
                let child :=
                  if bool_decide (member_name ∈ inherited)
                  then Object.append_property "inherited" child else child in
                mret (Object.add_child child root_object) in
              if ObjectNode.is_class R child_node then
                child ← get_class_documentation R depth child_node MNone; add child
              else if ObjectNode.is_classmethod R child_node then
                child ← get_classmethod_documentation R child_node; add child
              else if ObjectNode.is_staticmethod R child_node then
                child ← get_staticmethod_documentation R child_node; add child
              else if ObjectNode.is_method R child_node then
                child ← get_regular_method_documentation R child_node; add child
              else if ObjectNode.is_property R child_node then
                child ← get_property_documentation R child_node; add child
              else
                match attributes_data !! member_name with
                | Some data =>
                    child ← lift (get_attribute_documentation R child_node (Some data));
                    add child
                | None => mret root_object
                end)
            members root_object;
          document_fields R node select_members all_members root_object
      end
  end.

(** ** Documentation of modules *)

(** [Path(node.file_path).open().readlines()]: the lines of the file of the
    root module, when it has a file and the file can be read. *)
Definition read_file (R : Runtime) (node : ObjectNode.t) : result (list string) :=
  file_path ← ObjectNode.file_path R node;
  read_lines R file_path.

(** The source of a module: [inspect.getsource], else the lines of its file;
    an error is recorded when the file cannot be read either. *)
Definition module_source (R : Runtime) (node : ObjectNode.t) : M (option Source) :=
  let module := ObjectNode.obj node in
  let path := ObjectNode.dotted_path node in
  try_except (inspect_getsource R module) [OSError]
    (fun error =>
       try_except (read_file R node) [OSError]
         (fun _ =>
            append_error ("Couldn't read source for '" +:+ path +:+ "': " +:+ exn_msg error);;
            mret None)
         (fun code =>
            match code with
            | [] => mret None
            | _ => mret (Some {| code := CodeLines code; line_start := 1 |})
            end))
    (fun text => mret (Some {| code := CodeText text; line_start := 1 |})).

Fixpoint get_module_documentation (R : Runtime) (depth : nat) (node : ObjectNode.t)
    (select_members : Members) {struct depth} : M Object.t :=
  match depth with
  | 0 => raise (Exn RecursionError "maximum recursion depth exceeded")
  | S depth =>
      let module := ObjectNode.obj node in
      let path := ObjectNode.dotted_path node in
      let name := default "" (last (PyStr.split PyStr.dot path)) in
      source ← module_source R node;
      file_path ← lift (ObjectNode.file_path R node);
      let root_object :=
        new_object Module name path file_path
          (inspect_getdoc R module) None source None [] in
      match select_members with
      | MBool false => mret root_object
      | _ =>
          let select_members := or_empty_set select_members in
          let attributes_data := get_module_attributes R module in
          let root_object := parse_docstring R root_object attributes_data in
          root_object ← foldM (fun root_object '(member_name, member) =>
              selected ← select R member_name select_members;
              if selected : bool then
                let child_node := ObjectNode.init R member member_name (Some node) in
                let defined_here :=
                  bool_decide (inspect_getmodule R member
                               = Some (ObjectNode.obj (ObjectNode.root node))) in
                if ObjectNode.is_class R child_node && defined_here then
                  child ← get_class_documentation R depth child_node MNone;
                  mret (Object.add_child child root_object)
                else if ObjectNode.is_function R child_node && defined_here then
                  child ← get_function_documentation R child_node;
                  mret (Object.add_child child root_object)
                else
                  match attributes_data !! member_name with
                  | Some data =>
                      child ← lift (get_attribute_documentation R child_node (Some data));
                      mret (Object.add_child child root_object)
                  | None => mret root_object
                  end
              else mret root_object)
            (inspect_getmembers R module) root_object;
          match module_path R module with
          | None => mret root_object
          | Some package_path =>
              foldM (fun root_object modname =>
                  selected ← select R modname select_members;
                  if selected : bool then
                    leaf ← lift (get_object_tree R (path +:+ "." +:+ modname));
                    child ← get_module_documentation R depth leaf MNone;
                    mret (Object.add_child child root_object)
                  else mret root_object)
                (pkgutil_iter_modules R package_path) root_object
          end
      end
  end.

(** ** The entry point *)

Definition get_object_documentation (R : Runtime) (depth : nat) (dotted_path : string)
    (members : Members) : M Object.t :=
  let members :=
    match members with
    | MBool true => MSet ∅
    | _ => members
    end in
  leaf ← lift (get_object_tree R dotted_path);
  root_object ←
    (if ObjectNode.is_module R leaf then get_module_documentation R depth leaf members
     else if ObjectNode.is_class R leaf then get_class_documentation R depth leaf members
     else if ObjectNode.is_staticmethod R leaf then get_staticmethod_documentation R leaf
     else if ObjectNode.is_classmethod R leaf then get_classmethod_documentation R leaf
     else if ObjectNode.is_method R leaf then get_regular_method_documentation R leaf
     else if ObjectNode.is_function R leaf then get_function_documentation R leaf
     else if ObjectNode.is_property R leaf then get_property_documentation R leaf
     else lift (get_attribute_documentation R leaf None));
  mret (parse_all_docstrings R root_object).

(** ** A small interpreter state to run the loader on

    Two packages and four modules.  [pkg/__init__.py] re-exports the class [C]
    of [pkg/mod.py]; [emptypkg/__init__.py] is an empty file; the module
    [lost] was imported from a file that is gone since; the module [broken]
    raises [ValueError] while it is imported; [builtins] is the built-in
    module, which has no file; and [app] defines the classes [Plain], which
    has no [__init__] of its own, [Named], whose [__init__] is documented, and
    [Widget(Plain, Named)], whose [__init__] repeats the docstring of
    [Named.__init__].  A relative name such as [.x] cannot be imported without
    a package: [import_module] raises [TypeError].  [pkg.mod] defines the classes
    [Base] and [C(Base)], both with a [__repr__] documented by the same text
    and an [__eq__] documented differently, the static method
    [C.smallest = staticmethod(max)], the dataclass [Point] (made at run
    time, so without source and without parsed attributes), the class [Both],
    which has a [__fields__] and a [_declared_fields] registry of one field
    each, and the function [helper], whose [__signature__] is not a
    signature. *)

Module Demo.

Definition pkg : Obj := 1%positive.
Definition pkg_mod : Obj := 2%positive.
Definition Base : Obj := 3%positive.
Definition C : Obj := 4%positive.
Definition C_repr : Obj := 5%positive.
Definition Base_repr : Obj := 6%positive.
Definition object_ : Obj := 7%positive.
Definition type_ : Obj := 8%positive.
Definition builtin_max : Obj := 9%positive.
Definition static_max : Obj := 10%positive.
Definition emptypkg : Obj := 11%positive.
Definition Point : Obj := 12%positive.
Definition Point_fields : Obj := 13%positive.
Definition Point_x : Obj := 14%positive.
Definition int_ : Obj := 15%positive.
Definition helper : Obj := 16%positive.
Definition C_eq : Obj := 17%positive.
Definition Base_eq : Obj := 18%positive.
Definition object_repr : Obj := 19%positive.
Definition Both : Obj := 20%positive.
Definition Both_fields : Obj := 21%positive.
Definition Both_declared : Obj := 22%positive.
Definition Both_a : Obj := 23%positive.
Definition Both_b : Obj := 24%positive.
Definition lost : Obj := 25%positive.
Definition builtins : Obj := 26%positive.
Definition app : Obj := 27%positive.
Definition Plain : Obj := 28%positive.
Definition Named : Obj := 29%positive.
Definition Widget : Obj := 30%positive.
Definition Named_init : Obj := 31%positive.
Definition Widget_init : Obj := 32%positive.
Definition object_init : Obj := 33%positive.

Definition assoc {A} (table : list (string * A)) (key : string) : option A :=
  snd <$> find (fun kv => String.eqb (fst kv) key) table.

Definition at_obj {A} (table : list (Obj * A)) (dflt : A) (o : Obj) : A :=
  default dflt (snd <$> find (fun kv => Pos.eqb (fst kv) o) table).

Definition among (os : list Obj) (o : Obj) : bool := existsb (Pos.eqb o) os.

(** Patterns of the form [^literal$], with either anchor optional. *)
Fixpoint is_prefix (p s : string) : bool :=
  match p, s with
  | EmptyString, _ => true
  | String a p', String b s' => Ascii.eqb a b && is_prefix p' s'
  | _, _ => false
  end.

Fixpoint occurs (p s : string) : bool :=
  is_prefix p s ||
  match s with
  | EmptyString => false
  | String _ s' => occurs p s'
  end.

Fixpoint occurs_at_end (p s : string) : bool :=
  String.eqb p s ||
  match s with
  | EmptyString => false
  | String _ s' => occurs_at_end p s'
  end.

Fixpoint drop_dollar (p : string) : string * bool :=
  match p with
  | EmptyString => (EmptyString, false)
  | String "$" EmptyString => (EmptyString, true)
  | String a p' => let '(q, anchored) := drop_dollar p' in (String a q, anchored)
  end.

Definition search (pattern subject : string) : bool :=
  match pattern with
  | String "^" body =>
      let '(literal, to_end) := drop_dollar body in
      if to_end then String.eqb literal subject else is_prefix literal subject
  | _ =>
      let '(literal, to_end) := drop_dollar pattern in
      if to_end then occurs_at_end literal subject else occurs literal subject
  end.

(** Names that start and end with two underscores. *)
Definition special (name : string) : bool :=
  is_prefix "__" name && occurs_at_end "__" name.

Definition attributes : list (Obj * list (string * Obj)) :=
  [ (pkg, [("mod", pkg_mod); ("C", C)]);
    (pkg_mod, [("Base", Base); ("Both", Both); ("C", C); ("Point", Point);
               ("helper", helper)]);
    (Both, [("__fields__", Both_fields); ("_declared_fields", Both_declared)]);
    (Base, [("__eq__", Base_eq); ("__repr__", Base_repr)]);
    (C, [("__eq__", C_eq); ("__repr__", C_repr); ("smallest", builtin_max)]);
    (Point, [("__dataclass_fields__", Point_fields); ("__repr__", object_repr)]);
    (object_, [("__init__", object_init); ("__repr__", object_repr)]);
    (app, [("Named", Named); ("Plain", Plain); ("Widget", Widget)]);
    (Plain, [("__init__", object_init)]);
    (Named, [("__init__", Named_init)]);
    (Widget, [("__init__", Widget_init)]) ].

Definition declared : list (Obj * list (string * Obj)) :=
  [ (Base, [("__eq__", Base_eq); ("__repr__", Base_repr)]);
    (C, [("__eq__", C_eq); ("__repr__", C_repr); ("smallest", static_max)]);
    (Point, [("__dataclass_fields__", Point_fields)]);
    (Both, [("__fields__", Both_fields); ("_declared_fields", Both_declared)]);
    (Named, [("__init__", Named_init)]);
    (Widget, [("__init__", Widget_init)]) ].

Definition no_source {A} : result A := Raise (Exn OSError "could not get source code").

(** [importlib.import_module]: a relative name and the empty name are
    refused, the module [broken] raises while it runs, and a name that is not
    in [sys.modules] nor on the path is not found. *)
Definition import_ (name : string) : result Obj :=
  if PyStr.startswith PyStr.dot name then
    Raise (Exn TypeError
             ("the 'package' argument is required to perform a relative import for '"
              +:+ name +:+ "'"))
  else if String.eqb name "" then Raise (Exn ValueError "Empty module name")
  else if String.eqb name "broken" then Raise (Exn ValueError "bad configuration")
  else
    match assoc [("pkg", pkg); ("pkg.mod", pkg_mod); ("emptypkg", emptypkg);
                 ("lost", lost); ("builtins", builtins); ("app", app)] name with
    | Some module => Ok module
    | None => Raise (Exn ImportError ("No module named '" +:+ name +:+ "'"))
    end.

Definition no_file : result string :=
  Raise (Exn TypeError "module, class, method, function, traceback, frame, or code object was expected").

Definition runtime : Runtime := {|
  import_module := import_;
  getattr := fun o => assoc (at_obj attributes [] o);
  obj_name := at_obj [(pkg, "pkg"); (pkg_mod, "pkg.mod"); (emptypkg, "emptypkg");
                      (lost, "lost"); (builtins, "builtins"); (app, "app");
                      (Base, "Base"); (C, "C"); (Point, "Point"); (helper, "helper");
                      (Both, "Both"); (Plain, "Plain"); (Named, "Named");
                      (Widget, "Widget")] "";
  obj_doc := at_obj [(C, Some "A class.")] None;
  obj_dict := fun o => list_to_map (at_obj declared [] o);
  class_mro := at_obj [(Base, [Base; object_]); (C, [C; Base; object_]);
                       (Point, [Point; object_]); (Both, [Both; object_]);
                       (Plain, [Plain; object_]); (Named, [Named; object_]);
                       (Widget, [Widget; Plain; Named; object_])] [];
  module_path := at_obj [(pkg, Some ["/src/pkg"]); (emptypkg, Some ["/src/emptypkg"])] None;
  builtin_type := type_;
  builtin_object := object_;
  type_of := fun _ => type_;
  inspect_unwrap := fun o => Some o;
  inspect_getabsfile :=
    at_obj [(pkg, Ok "/src/pkg/__init__.py"); (pkg_mod, Ok "/src/pkg/mod.py");
            (emptypkg, Ok "/src/emptypkg/__init__.py"); (lost, Ok "/src/lost.py");
            (app, Ok "/src/app.py");
            (builtins, Raise (Exn TypeError "<module 'builtins' (built-in)> is a built-in module"))]
           no_file;
  inspect_getmodule := at_obj [(pkg, Some pkg); (pkg_mod, Some pkg_mod);
                               (emptypkg, Some emptypkg); (lost, Some lost);
                               (Base, Some pkg_mod);
                               (C, Some pkg_mod); (Point, Some pkg_mod);
                               (helper, Some pkg_mod); (C_repr, Some pkg_mod);
                               (Base_repr, Some pkg_mod); (C_eq, Some pkg_mod);
                               (Base_eq, Some pkg_mod); (Both, Some pkg_mod);
                               (builtins, Some builtins); (builtin_max, Some builtins);
                               (app, Some app); (Plain, Some app); (Named, Some app);
                               (Widget, Some app); (Named_init, Some app);
                               (Widget_init, Some app)] None;
  inspect_ismodule := among [pkg; pkg_mod; emptypkg; lost; builtins; app];
  inspect_isclass := among [Base; C; Point; Both; int_; object_; type_; Plain; Named; Widget];
  inspect_isfunction := among [C_repr; Base_repr; C_eq; Base_eq; helper; Named_init;
                               Widget_init];
  inspect_iscoroutinefunction := fun _ => false;
  isinstance_property := fun _ => false;
  isinstance_staticmethod := among [static_max];
  isinstance_classmethod := fun _ => false;
  inspect_getsource :=
    at_obj [(pkg, Ok "from .mod import C"); (pkg_mod, Ok "class Base: ...")] no_source;
  inspect_getsourcelines :=
    at_obj [(builtin_max, Raise (Exn TypeError "not a module, class, method or function"));
            (C_repr, Ok (["def __repr__(self): ..."], 9));
            (C_eq, Ok (["def __eq__(self, other): ..."], 12));
            (Named_init, Ok (["def __init__(self, name): ..."], 6));
            (Widget_init, Ok (["def __init__(self, name): ..."], 11))] no_source;
  inspect_signature :=
    at_obj [(builtin_max, Raise (Exn ValueError "no signature found for builtin"));
            (helper, Raise (Exn TypeError "unexpected object in __signature__ attribute"))]
           (Ok {| parameters := ["self"]; return_annotation := object_ |});
  inspect_getdoc :=
    at_obj [(C_repr, Some "Return repr(self)."); (Base_repr, Some "Return repr(self).");
            (object_repr, Some "Return repr(self)."); (C_eq, Some "Compare two C.");
            (Base_eq, Some "Return self==value."); (helper, Some "Help.");
            (Named_init, Some "Set the name."); (Widget_init, Some "Set the name.");
            (object_init,
             Some "Initialize self.  See help(type(self)) for accurate signature.")] None;
  inspect_cleandoc := fun s => s;
  inspect_getmembers := fun o => at_obj attributes [] o;
  read_lines :=
    fun file => default (Raise (Exn OSError "No such file or directory"))
      (assoc [("/src/emptypkg/__init__.py", Ok [])] file);
  pkgutil_iter_modules := fun p => match p with ["/src/pkg"] => ["mod"] | _ => [] end;
  re_search := search;
  RE_SPECIAL_match := special;
  get_module_attributes := fun _ => ∅;
  get_class_attributes := fun _ => ∅;
  get_instance_attributes := fun _ => ∅;
  merge := fun base extra => extra ∪ base;
  parse_docstring := fun o _ => o;
  parse_all_docstrings := fun o => o;
  prop_fget := fun o => o;
  prop_fset_is_None := fun _ => true;
  dict_items := at_obj [(Point_fields, [("x", Point_x)]); (Both_fields, [("a", Both_a)]);
                        (Both_declared, [("b", Both_b)])] [];
  field_required := among [Both_a];
  field_info_description := at_obj [(Both_a, Some "The field a.")] None;
  field_type_ := fun _ => object_;
  field_metadata_description := fun _ => None;
  field_name := at_obj [(Point_x, "x")] "";
  field_type := at_obj [(Point_x, int_)] object_ |}.

End Demo.

(** ** Invariants of the loader's state *)

(** The memo table holds nothing but answers of [filter_name_out]'s body for
    the loader's own filters. *)
Definition cache_sound (R : Runtime) (self : Loader) : Prop :=
  forall name answer,
    filter_cache self !! name = Some answer ->
    answer = filter_name_out_body R (filters self) name.

(** One filter's effect on [keep], for a given name. *)
Definition filter_step (R : Runtime) (name : string) (keep : bool) (f : string * string) : bool :=
  let '(fltr, regex) := f in
  let is_matching := re_search R regex name in
  if is_matching then
    (if PyStr.startswith PyStr.bang fltr then negb is_matching else is_matching)
  else keep.

(** What a method may do to the loader: the filters and the inheritance flag
    stay, errors are only appended, and a sound memo table stays sound. *)
Definition evolves (R : Runtime) (self self' : Loader) : Prop :=
  filters self' = filters self
  /\ select_inherited_members self' = select_inherited_members self
  /\ (exists more, errors self' = errors self ++ more)
  /\ (cache_sound R self -> cache_sound R self').

Definition steady {A} (R : Runtime) (m : M A) : Prop :=
  forall self self' r, m self = (self', r) -> evolves R self self'.

(** The structured declaration that a class is documented with, as a pair
    of the tag of the class and the tag of its fields: pydantic first, then
    marshmallow, then dataclasses. *)
Definition convention (R : Runtime) (self : Loader) (class_ : Obj)
    (all_members : list (string * Obj)) : option (string * string) :=
  let direct_members := obj_dict R class_ in
  if exposes self "__fields__" direct_members all_members
  then Some ("pydantic-model", "pydantic-field")
  else if exposes self "_declared_fields" direct_members all_members
  then Some ("marshmallow-model", "marshmallow-field")
  else if exposes self "__dataclass_fields__" direct_members all_members
  then Some ("dataclass", "dataclass-field")
  else None.

(** An attribute entity whose first property is [tag]. *)
Definition field_of (tag : string) (o : Object.t) : Prop :=
  Object.category o = Attribute /\ head (Object.properties o) = Some tag.

(** What the loops over a registry keep: the tag of the class, and children
    that are those of [root] followed by fields of one kind. *)
Definition tagged (model field : string) (root o : Object.t) : Prop :=
  Object.properties o = [model]
  /\ exists fields,
       Object.children o = Object.children root ++ fields /\ Forall (field_of field) fields.

(** A chain all of whose objects are defined in the module [m], or in no
    module that [inspect.getmodule] knows, and whose first module above the
    leaf is [m]: the chain of an object reached where it is defined. *)
Fixpoint reached_in (R : Runtime) (m : Obj) (node : ObjectNode.t) : Prop :=
  match node with
  | ObjectNode.Make _ _ None => True
  | ObjectNode.Make o _ (Some p) =>
      (inspect_getmodule R o = None \/ inspect_getmodule R o = Some m)
      /\ (if inspect_ismodule R (ObjectNode.obj p)
          then ObjectNode.obj p = m
          else reached_in R m p)
  end.

(** The tags of the fields of the three conventions. *)
Definition is_field_tag (tag : string) : bool :=
  bool_decide (tag ∈ ["pydantic-field"; "marshmallow-field"; "dataclass-field"]).

(** An entity whose first property is not the tag of a field. *)
Definition not_field (o : Object.t) : Prop :=
  forall tag, head (Object.properties o) = Some tag -> is_field_tag tag = false.

(** The properties of a class documented with the convention [conv]. *)
Definition class_tag (conv : option (string * string)) : list string :=
  match conv with
  | Some (model, _) => [model]
  | None => []
  end.

(** A child that, if its first property is the tag of a field, is a field of
    the convention [conv]. *)
Definition field_of_convention (conv : option (string * string)) (child : Object.t) : Prop :=
  forall tag, head (Object.properties child) = Some tag -> is_field_tag tag = true ->
              exists model, conv = Some (model, tag).

(** The docstring parser leaves the properties and the children alone. *)
Definition parser_keeps_shape (R : Runtime) : Prop :=
  forall o attributes,
    Object.properties (parse_docstring R o attributes) = Object.properties o
    /\ Object.children (parse_docstring R o attributes) = Object.children o.

(** What [collect_members] keeps at every turn: the inheritance flag, one
    entry per name, entries taken from the members and other than [type] and
    [object], inherited names that are collected and not declared by the
    class, and collected names that are declared or inherited. *)
Definition collected (R : Runtime) (class_ : Obj) (all_members : list (string * Obj))
    (flag : bool) (self : Loader) (acc : list (string * Obj) * list string) : Prop :=
  select_inherited_members self = flag
  /\ NoDup (map fst acc.1)
  /\ (forall k v, (k, v) ∈ acc.1 ->
        (k, v) ∈ all_members /\ v <> builtin_type R /\ v <> builtin_object R)
  /\ (forall k, k ∈ acc.2 ->
        k ∈ map fst acc.1 /\ obj_dict R class_ !! k = None /\ flag = true)
  /\ (forall k, k ∈ map fst acc.1 -> is_Some (obj_dict R class_ !! k) \/ k ∈ acc.2).

(** The docstring parser leaves the name, the path and the children alone. *)
Definition parser_keeps_paths (R : Runtime) : Prop :=
  forall o attributes,
    Object.name (parse_docstring R o attributes) = Object.name o
    /\ Object.path (parse_docstring R o attributes) = Object.path o
    /\ Object.children (parse_docstring R o attributes) = Object.children o.

(** An entity that has the dotted path and the name of a node. *)
Definition placed (node : ObjectNode.t) (o : Object.t) : Prop :=
  Object.path o = ObjectNode.dotted_path node /\ Object.name o = ObjectNode.name node.

(** An entity each of whose children has for path the entity's path, a dot
    and the child's name. *)
Definition children_below (o : Object.t) : Prop :=
  Forall (fun child => Object.path child = Object.path o +:+ "." +:+ Object.name child)
         (Object.children o).

(** An import that fails with [ImportError], the exception that the import
    loop catches. *)
Definition not_found (R : Runtime) (name : string) : Prop :=
  exists e, import_module R name = Raise e /\ exn_type e = ImportError.

(** The first ancestor of a class, in the order of [__mro__], that defines a
    name: the first class after the class itself that has the name in its own
    [__dict__]. *)
Definition first_defining_ancestor (R : Runtime) (class_ : Obj) (name : string) : option Obj :=
  find (fun cls => bool_decide (is_Some (obj_dict R cls !! name))) (mro_parents R class_).

(** The registry of each convention, with the tags of [convention]. *)
Definition registries : list (string * (string * string)) :=
  [ ("__fields__", ("pydantic-model", "pydantic-field"));
    ("_declared_fields", ("marshmallow-model", "marshmallow-field"));
    ("__dataclass_fields__", ("dataclass", "dataclass-field")) ].

(** A field that passes the selection: its name is not a key of the registry
    of an ancestor when inherited members are left out, and it is one of the
    explicit names when there are some. *)
Definition field_passes (R : Runtime) (self : Loader) (class_ : Obj) (registry : string)
    (select_members : Members) (field : Object.t) : Prop :=
  (select_inherited_members self = false ->
   Object.name field ∉ registry_keys R registry (mro_strict_parents R class_))
  /\ (forall names : gset string,
        select_members = MSet names -> names <> ∅ -> Object.name field ∈ names).

(** Where a child of a module entity comes from: a member of the module,
    documented under its name below the module, that is defined in the root
    module of the node or is one of the module's declared attributes; or a
    submodule that [pkgutil] lists for the package, resolved from its dotted
    path. *)
Definition module_child (R : Runtime) (node : ObjectNode.t) (child : Object.t) : Prop :=
  (exists member_name member,
     (member_name, member) ∈ inspect_getmembers R (ObjectNode.obj node)
     /\ Object.name child = member_name
     /\ Object.path child = ObjectNode.dotted_path node +:+ "." +:+ member_name
     /\ (inspect_getmodule R member = Some (ObjectNode.obj (ObjectNode.root node))
         \/ is_Some (get_module_attributes R (ObjectNode.obj node) !! member_name)))
  \/ (exists package_path modname leaf,
        module_path R (ObjectNode.obj node) = Some package_path
        /\ modname ∈ pkgutil_iter_modules R package_path
        /\ get_object_tree R (ObjectNode.dotted_path node +:+ "." +:+ modname) = Ok leaf
        /\ Object.path child = ObjectNode.dotted_path leaf).

(** * Properties *)

(** ** Strings *)

Section StringFacts.

Lemma split_nonempty sep s : PyStr.split sep s <> [].
Proof.
  destruct s as [|c rest]; simpl; [discriminate|].
  destruct (Ascii.eqb c sep); [discriminate|].
  destruct (PyStr.split sep rest); discriminate.
Qed.

Lemma append_cons x (a b : string) : String x a +:+ b = String x (a +:+ b).
Proof. reflexivity. Qed.

Lemma append_nil_l (a : string) : EmptyString +:+ a = a.
Proof. reflexivity. Qed.

Lemma append_assoc (a b c : string) : (a +:+ b) +:+ c = a +:+ (b +:+ c).
Proof.
  induction a as [|x a IH]; [reflexivity|].
  now rewrite !append_cons, IH.
Qed.

Lemma append_nil_r (a : string) : a +:+ EmptyString = a.
Proof.
  induction a as [|x a IH]; [reflexivity|].
  now rewrite append_cons, IH.
Qed.

Lemma join_cons sep x y rest :
  PyStr.join sep (x :: y :: rest) = x +:+ sep +:+ PyStr.join sep (y :: rest).
Proof. reflexivity. Qed.

(** Joining the pieces of a split with the separator gives the string back. *)
Lemma join_split sep s : PyStr.join (String sep EmptyString) (PyStr.split sep s) = s.
Proof.
  induction s as [|c rest IH]; [reflexivity|].
  simpl PyStr.split. destruct (Ascii.eqb_spec c sep) as [->|Hne].
  - pose proof (split_nonempty sep rest) as Hn.
    destruct (PyStr.split sep rest) as [|h t] eqn:E; [congruence|].
    rewrite join_cons, IH. reflexivity.
  - pose proof (split_nonempty sep rest) as Hn.
    destruct (PyStr.split sep rest) as [|h t] eqn:E; [congruence|].
    destruct t as [|h' t'].
    + simpl in IH. simpl. now rewrite IH.
    + rewrite join_cons in *. now rewrite append_cons, IH.
Qed.

(** A joined prefix followed by more parts joins like the flat list. *)
Lemma join_join_app sep (a b : list string) :
  a <> [] -> PyStr.join sep (PyStr.join sep a :: b) = PyStr.join sep (a ++ b).
Proof.
  induction a as [|x a IH]; [congruence|]. intros _.
  destruct a as [|y a].
  - reflexivity.
  - change ((x :: y :: a) ++ b) with (x :: (y :: a) ++ b).
    assert (Hne : y :: a <> []) by discriminate.
    specialize (IH Hne).
    destruct b as [|z b].
    + rewrite app_nil_r. reflexivity.
    + change ((y :: a) ++ z :: b) with (y :: (a ++ z :: b)) in *.
      rewrite (join_cons sep x y (a ++ z :: b)), <- IH.
      rewrite !join_cons. now rewrite !append_assoc.
Qed.

End StringFacts.

(** ** The resolver *)

Section Resolver.
Context (R : Runtime).

Lemma parts_init o n node :
  ObjectNode.parts (ObjectNode.init R o n (Some node)) = n :: ObjectNode.parts node.
Proof. reflexivity. Qed.

Lemma root_init o n node :
  ObjectNode.root (ObjectNode.init R o n (Some node)) = ObjectNode.root node.
Proof. reflexivity. Qed.

(** The chain built under a node lists the pending names above that node's. *)
Lemma attach_parts objects : forall node leaf,
  attach R node objects = Ok leaf ->
  ObjectNode.parts leaf = rev objects ++ ObjectNode.parts node
  /\ ObjectNode.root leaf = ObjectNode.root node.
Proof.
  induction objects as [|obj_name rest IH]; intros node leaf H; simpl in H.
  - inversion H; subst. split; reflexivity.
  - destruct (getattr R (ObjectNode.obj node) obj_name) as [o|]; [|discriminate].
    apply IH in H as [Hp Hr]. rewrite Hp, Hr, parts_init, root_init. split; [|reflexivity].
    simpl. now rewrite <- app_assoc.
Qed.

Lemma attach_raises objects : forall node e,
  attach R node objects = Raise e -> exn_type e = AttributeError.
Proof.
  induction objects as [|obj_name rest IH]; intros node e H; simpl in H; [discriminate|].
  destruct (getattr R (ObjectNode.obj node) obj_name) as [o|].
  - eapply IH, H.
  - now inversion H.
Qed.

Lemma last_removelast (l : list string) x :
  last l = Some x -> l = removelast l ++ [x].
Proof.
  intros H. apply last_Some in H as [l' ->]. now rewrite removelast_last.
Qed.

Lemma caught_by_ImportError e :
  caught_by [ImportError] e = true <-> exn_type e = ImportError.
Proof. unfold caught_by. simpl. destruct (exn_type e); simpl; split; congruence. Qed.

Lemma prefix_of_both (a b : list string) : a `prefix_of` b -> b `prefix_of` a -> a = b.
Proof.
  intros [k1 E1] [k2 E2]. rewrite E1 in E2. rewrite <- app_assoc in E2.
  rewrite <- (app_nil_r a) in E2 at 1. apply app_inv_head in E2.
  symmetry in E2. apply app_eq_nil in E2 as [-> _]. now rewrite app_nil_r in E1.
Qed.

Lemma prefix_of_removelast (longer mods : list string) :
  longer `prefix_of` mods -> longer <> mods -> longer `prefix_of` removelast mods.
Proof.
  intros [k Hk] Hne. destruct (last k) as [z|] eqn:Hz.
  - apply last_removelast in Hz. exists (removelast k).
    remember (removelast k) as k'. rewrite Hk, Hz, app_assoc. now rewrite removelast_last.
  - apply last_None in Hz. subst k. rewrite app_nil_r in Hk. congruence.
Qed.

(** One turn of the import loop after an [ImportError], when more than one
    segment is left. *)
Lemma import_loop_pop n mods objects :
  mods <> [] -> List.length mods <= S n ->
  not_found R (PyStr.join "." mods) -> List.length mods <> 1 ->
  exists popped,
    last mods = Some popped /\ removelast mods <> []
    /\ List.length (removelast mods) <= n
    /\ import_loop R (S n) mods objects = import_loop R n (removelast mods) (popped :: objects).
Proof.
  intros Hne Hlen (e & Himp & He) H1. cbn [import_loop]. rewrite Himp.
  rewrite (proj2 (caught_by_ImportError e) He).
  destruct (Nat.eqb_spec (List.length mods) 1) as [|_]; [congruence|].
  destruct (last mods) as [popped|] eqn:Hlast; [|apply last_None in Hlast; congruence].
  exists popped. pose proof (last_removelast _ _ Hlast) as Hsplit.
  assert (Hlen' : List.length mods = S (List.length (removelast mods))).
  { rewrite Hsplit at 1. rewrite length_app. simpl. lia. }
  repeat split; [|lia].
  intros E. rewrite E in Hlen'. simpl in Hlen'. lia.
Qed.

(** What the import loop returns: the module of a non-empty prefix of the
    segments, with the other segments pending in order; or the [ImportError]
    for the first segment, when the import of every non-empty prefix raised
    [ImportError]; or the exception of another class that an import raised. *)
Lemma import_loop_spec n : forall mods objects,
  mods <> [] -> List.length mods <= n ->
  match import_loop R n mods objects with
  | Ok (parent_module, pending) =>
      exists prefix popped,
        mods = prefix ++ popped /\ prefix <> [] /\ pending = popped ++ objects
        /\ import_module R (PyStr.join "." prefix) = Ok parent_module
  | Raise e =>
      (e = Exn ImportError ("No module named '" +:+ hd "" mods +:+ "'")
       /\ forall prefix, prefix <> [] -> prefix `prefix_of` mods ->
            not_found R (PyStr.join "." prefix))
      \/ (exn_type e <> ImportError
          /\ exists prefix, prefix <> [] /\ prefix `prefix_of` mods
               /\ import_module R (PyStr.join "." prefix) = Raise e)
  end.
Proof.
  induction n as [|n IH]; intros mods objects Hne Hlen.
  - destruct mods; [congruence | simpl in Hlen; lia].
  - destruct (import_module R (PyStr.join "." mods)) as [m|error] eqn:Himp.
    + cbn [import_loop]. rewrite Himp. exists mods, []. rewrite app_nil_r. auto.
    + destruct (caught_by [ImportError] error) eqn:Ec.
      2:{ cbn [import_loop]. rewrite Himp, Ec. right. split.
          - intros E. apply caught_by_ImportError in E. congruence.
          - exists mods. auto. }
      apply caught_by_ImportError in Ec.
      assert (Hnf : not_found R (PyStr.join "." mods)) by (exists error; auto).
      destruct (Nat.eqb_spec (List.length mods) 1) as [H1|H1].
      * cbn [import_loop]. rewrite Himp, (proj2 (caught_by_ImportError error) Ec).
        rewrite (proj2 (Nat.eqb_eq _ _) H1). left.
        split; [reflexivity|]. intros prefix Hp [k Hk].
        destruct mods as [|a [|b mods]]; simpl in H1; try lia.
        destruct prefix as [|p prefix]; [congruence|].
        destruct prefix; [|discriminate]. inversion Hk; subst. exact Hnf.
      * destruct (import_loop_pop n mods objects Hne Hlen Hnf H1)
          as (popped & Hlast & Hne' & Hlen' & ->).
        pose proof (last_removelast _ _ Hlast) as Hsplit.
        specialize (IH (removelast mods) (popped :: objects) Hne' Hlen').
        destruct (import_loop R n (removelast mods) (popped :: objects)) as [[m pending]|e].
        -- destruct IH as (prefix & pp & E1 & E2 & E3 & E4).
           exists prefix, (pp ++ [popped]). repeat split; auto.
           ++ rewrite Hsplit at 1. rewrite E1 at 1. now rewrite <- app_assoc.
           ++ rewrite E3. now rewrite <- app_assoc.
        -- destruct IH as [[-> Hall] | (Ht & prefix & Hp & Hpre & Hraise)].
           ++ left. split.
              ** do 3 f_equal. destruct (removelast mods) as [|a l] eqn:E; [congruence|].
                 rewrite Hsplit. reflexivity.
              ** intros prefix Hp Hpre.
                 destruct (decide (prefix = mods)) as [->|Hk']; [exact Hnf|].
                 apply Hall; [exact Hp|]. now apply prefix_of_removelast.
           ++ right. split; [exact Ht|]. exists prefix. repeat split; auto.
              destruct Hpre as [k Hk]. exists (k ++ [popped]).
              rewrite Hsplit at 1. rewrite Hk at 1. now rewrite <- app_assoc.
Qed.

(** The import loop stops at the longest prefix that can be imported: the
    import of every longer prefix raised [ImportError]. *)
Lemma import_loop_longest n : forall mods objects parent_module pending,
  mods <> [] -> List.length mods <= n ->
  import_loop R n mods objects = Ok (parent_module, pending) ->
  exists prefix popped,
    mods = prefix ++ popped /\ prefix <> [] /\ pending = popped ++ objects
    /\ import_module R (PyStr.join "." prefix) = Ok parent_module
    /\ (popped = [] <-> exists m, import_module R (PyStr.join "." mods) = Ok m)
    /\ forall longer, prefix `prefix_of` longer -> longer `prefix_of` mods ->
         longer <> prefix -> not_found R (PyStr.join "." longer).
Proof.
  induction n as [|n IH]; intros mods objects m pending Hne Hlen H.
  - destruct mods; [congruence | simpl in Hlen; lia].
  - destruct (import_module R (PyStr.join "." mods)) as [m'|error] eqn:Himp.
    + cbn [import_loop] in H. rewrite Himp in H.
      inversion H; subst. exists mods, []. rewrite app_nil_r.
      repeat split; eauto.
      intros longer H1 H2 H3. exfalso. apply H3. symmetry. now apply prefix_of_both.
    + destruct (caught_by [ImportError] error) eqn:Ec.
      2:{ cbn [import_loop] in H. rewrite Himp, Ec in H. discriminate. }
      apply caught_by_ImportError in Ec.
      assert (Hnf : not_found R (PyStr.join "." mods)) by (exists error; auto).
      destruct (Nat.eqb_spec (List.length mods) 1) as [H1|H1].
      { cbn [import_loop] in H.
        rewrite Himp, (proj2 (caught_by_ImportError error) Ec) in H.
        rewrite (proj2 (Nat.eqb_eq _ _) H1) in H. discriminate. }
      destruct (import_loop_pop n mods objects Hne Hlen Hnf H1)
        as (popped & Hlast & Hne' & Hlen' & Hstep).
      rewrite Hstep in H.
      pose proof (last_removelast _ _ Hlast) as Hsplit.
      destruct (IH (removelast mods) (popped :: objects) m pending Hne' Hlen' H)
        as (prefix & pp & E1 & E2 & E3 & E4 & _ & E5).
      exists prefix, (pp ++ [popped]). repeat split; auto.
      * rewrite Hsplit at 1. rewrite E1 at 1. now rewrite <- app_assoc.
      * rewrite E3. now rewrite <- app_assoc.
      * intros E. destruct pp; discriminate.
      * intros [m' Hm']. congruence.
      * intros longer Hp1 Hp2 Hp3.
        destruct (decide (longer = mods)) as [->|Hl]; [exact Hnf|].
        apply E5; auto. now apply prefix_of_removelast.
Qed.

(** An exception other than [ImportError], raised by the import of the
    longest prefix whose import does not raise [ImportError], leaves the
    loop. *)
Lemma import_loop_other n : forall mods objects prefix e,
  List.length mods <= n -> prefix <> [] -> prefix `prefix_of` mods ->
  (forall longer, prefix `prefix_of` longer -> longer `prefix_of` mods ->
     longer <> prefix -> not_found R (PyStr.join "." longer)) ->
  import_module R (PyStr.join "." prefix) = Raise e -> exn_type e <> ImportError ->
  import_loop R n mods objects = Raise e.
Proof.
  induction n as [|n IH]; intros mods objects prefix e Hlen Hp Hpre Hlonger Hraise Ht.
  - destruct Hpre as [k ->]. destruct prefix; [congruence | simpl in Hlen; lia].
  - destruct (decide (mods = prefix)) as [->|Hdiff].
    + cbn [import_loop]. rewrite Hraise.
      destruct (caught_by [ImportError] e) eqn:Ec; [|reflexivity].
      apply caught_by_ImportError in Ec. congruence.
    + assert (Hne : mods <> []).
      { destruct Hpre as [k ->]. destruct prefix; [congruence | discriminate]. }
      assert (Hnf : not_found R (PyStr.join "." mods)).
      { apply Hlonger; [exact Hpre | now exists [] ; rewrite app_nil_r | exact Hdiff]. }
      assert (H1 : List.length mods <> 1).
      { destruct Hpre as [k ->]. rewrite length_app.
        destruct prefix as [|a prefix]; [congruence|].
        destruct k as [|b k]; [rewrite app_nil_r in Hdiff; congruence|]. simpl. lia. }
      destruct (import_loop_pop n mods objects Hne Hlen Hnf H1)
        as (popped & Hlast & Hne' & Hlen' & ->).
      apply (IH _ _ prefix); auto.
      * apply prefix_of_removelast; [exact Hpre | congruence].
      * intros longer H2 H3 H4. apply Hlonger; auto.
        destruct H3 as [k Hk]. exists (k ++ [popped]).
        rewrite (last_removelast _ _ Hlast) at 1. rewrite Hk at 1. now rewrite <- app_assoc.
Qed.

Lemma is_empty_spec s : is_empty s = true <-> s = "".
Proof. destruct s; simpl; split; congruence. Qed.

End Resolver.

Section ResolverClaims.
Context (R : Runtime).

(** The two steps of [get_object_tree] on a non-empty path. *)
Lemma get_object_tree_unfold path :
  path <> "" ->
  get_object_tree R path =
    match import_loop R (List.length (PyStr.split PyStr.dot path)) (PyStr.split PyStr.dot path) [] with
    | Ok (parent_module, objects) =>
        match attach R (ObjectNode.init R parent_module (obj_name R parent_module) None) objects with
        | Ok leaf => Ok (real_parent R None leaf)
        | Raise e => Raise e
        end
    | Raise e => Raise e
    end.
Proof.
  intros Hne. unfold get_object_tree.
  destruct (is_empty path) eqn:E; [apply is_empty_spec in E; congruence|].
  destruct (import_loop R _ _ _) as [[m objects]|e]; [|reflexivity].
  cbn. destruct (attach R _ objects); reflexivity.
Qed.

(** C5, as the code has it.  [get_object_tree] raises [ValueError] on the
    empty path.  On a non-empty path, when the import of every non-empty
    prefix of the segments raises [ImportError], it raises the [ImportError]
    naming the first segment; and when the import of a prefix raises an
    exception of another class, after [ImportError] for every longer prefix,
    it raises that exception, whatever its class.  In each case the result is
    an exception, not a node. *)
Theorem get_object_tree_errors path :
  (path = "" -> exists msg, get_object_tree R path = Raise (Exn ValueError msg))
  /\ (path <> "" ->
      (forall prefix, prefix <> [] -> prefix `prefix_of` PyStr.split PyStr.dot path ->
         not_found R (PyStr.join "." prefix)) ->
      get_object_tree R path =
        Raise (Exn ImportError
                 ("No module named '" +:+ hd "" (PyStr.split PyStr.dot path) +:+ "'")))
  /\ (forall prefix e,
        path <> "" -> prefix <> [] -> prefix `prefix_of` PyStr.split PyStr.dot path ->
        (forall longer, prefix `prefix_of` longer ->
           longer `prefix_of` PyStr.split PyStr.dot path -> longer <> prefix ->
           not_found R (PyStr.join "." longer)) ->
        import_module R (PyStr.join "." prefix) = Raise e -> exn_type e <> ImportError ->
        get_object_tree R path = Raise e).
Proof.
  pose proof (import_loop_spec R (List.length (PyStr.split PyStr.dot path))
                (PyStr.split PyStr.dot path) [] (split_nonempty _ _) (le_n _)) as Hloop.
  split; [|split].
  - intros ->. eexists. reflexivity.
  - intros Hne Hall. rewrite (get_object_tree_unfold _ Hne).
    destruct (import_loop R _ _ _) as [[m objects]|e].
    + destruct Hloop as (prefix & popped & E1 & E2 & _ & E4).
      destruct (Hall prefix E2) as (e & He & _); [now exists popped | congruence].
    + destruct Hloop as [[-> _] | (Ht & prefix & Hp & Hpre & Hraise)]; [reflexivity|].
      destruct (Hall prefix Hp Hpre) as (e' & He' & Ht'). congruence.
  - intros prefix e Hne Hp Hpre Hlonger Hraise Ht.
    rewrite (get_object_tree_unfold _ Hne).
    now rewrite (import_loop_other R _ _ [] prefix e (le_n _) Hp Hpre Hlonger Hraise Ht).
Qed.

(** The correction for re-exports changes nothing in the chain of an object
    reached where it is defined. *)
Lemma real_parent_reached_in m : forall node real_module,
  real_module = None \/ real_module = Some m ->
  reached_in R m node -> real_parent R real_module node = node.
Proof.
  fix IH 1. intros [o n [p|]] real_module Hreal Hin; [|reflexivity].
  cbn [real_parent]. destruct Hin as [Hmod Hup].
  set (real := match real_module with
               | Some _ => real_module
               | None => inspect_getmodule R o
               end).
  assert (Hreal' : real = None \/ real = Some m).
  { unfold real. destruct Hreal as [->| ->]; [exact Hmod | now right]. }
  destruct (inspect_ismodule R (ObjectNode.obj p)).
  - destruct Hreal' as [->| ->]; [reflexivity|]. now rewrite decide_True.
  - now rewrite (IH p real Hreal' Hup).
Qed.

(** Whenever [get_object_tree] returns a leaf, a non-empty prefix of the
    segments was imported as a module, the other segments were resolved below
    it, and the leaf is that chain after the correction for re-exports. *)
Lemma get_object_tree_inv path leaf :
  get_object_tree R path = Ok leaf ->
  exists prefix objects parent_module leaf0,
    PyStr.split PyStr.dot path = prefix ++ objects /\ prefix <> []
    /\ import_module R (PyStr.join "." prefix) = Ok parent_module
    /\ import_loop R (List.length (PyStr.split PyStr.dot path)) (PyStr.split PyStr.dot path) []
       = Ok (parent_module, objects)
    /\ attach R (ObjectNode.init R parent_module (obj_name R parent_module) None) objects
       = Ok leaf0
    /\ leaf = real_parent R None leaf0.
Proof.
  intros H.
  assert (Hne : path <> "").
  { intros ->. discriminate. }
  rewrite (get_object_tree_unfold _ Hne) in H.
  pose proof (import_loop_spec R (List.length (PyStr.split PyStr.dot path))
                (PyStr.split PyStr.dot path) [] (split_nonempty _ _) (le_n _)) as Hloop.
  destruct (import_loop R _ _ _) as [[m objects]|e]; [|discriminate].
  destruct Hloop as (prefix & popped & E1 & E2 & E3 & E4).
  rewrite app_nil_r in E3; subst objects.
  destruct (attach R _ popped) as [leaf0|e] eqn:Ha; [|discriminate].
  inversion H; subst leaf; clear H.
  exists prefix, popped, m, leaf0. repeat split; assumption.
Qed.

(** C4, as the code has it.  Take a non-empty path whose segments are
    [prefix ++ objects], where the import loop stops at the module of [prefix]
    and the segments [objects] resolve below it to [leaf].  If the correction
    for re-exported objects leaves that chain as built and the module's
    [__name__] is the prefix it was imported under, then [get_object_tree]
    returns [leaf], the leaf's dotted path is the input path, and the root is
    named after the whole imported prefix, joined by dots. *)
Theorem get_object_tree_dotted_path path prefix objects parent_module leaf :
  path <> "" ->
  PyStr.split PyStr.dot path = prefix ++ objects ->
  import_loop R (List.length (PyStr.split PyStr.dot path)) (PyStr.split PyStr.dot path) []
    = Ok (parent_module, objects) ->
  attach R (ObjectNode.init R parent_module (obj_name R parent_module) None) objects
    = Ok leaf ->
  real_parent R None leaf = leaf ->
  obj_name R parent_module = PyStr.join "." prefix ->
  get_object_tree R path = Ok leaf
  /\ ObjectNode.dotted_path leaf = path
  /\ ObjectNode.name (ObjectNode.root leaf) = PyStr.join "." prefix.
Proof.
  intros Hne Hsplit Hloop Ha Hreal Hname.
  pose proof (import_loop_spec R (List.length (PyStr.split PyStr.dot path))
                (PyStr.split PyStr.dot path) [] (split_nonempty _ _) (le_n _)) as Hspec.
  rewrite Hloop in Hspec. destruct Hspec as (prefix' & popped & E1 & E2 & E3 & E4).
  rewrite app_nil_r in E3; subst popped.
  assert (prefix' = prefix) as ->.
  { rewrite Hsplit in E1. now apply app_inv_tail in E1. }
  destruct (attach_parts R _ _ _ Ha) as [Hparts Hroot].
  split; [|split].
  - rewrite (get_object_tree_unfold _ Hne), Hloop, Ha. now rewrite Hreal.
  - unfold ObjectNode.dotted_path. rewrite Hparts.
    change (ObjectNode.parts (ObjectNode.init R parent_module (obj_name R parent_module) None))
      with [obj_name R parent_module].
    rewrite rev_app_distr, rev_involutive.
    change (rev [obj_name R parent_module] ++ objects)
      with (obj_name R parent_module :: objects).
    rewrite Hname, (join_join_app "." prefix objects E2), <- Hsplit.
    apply (join_split PyStr.dot).
  - rewrite Hroot. exact Hname.
Qed.

End ResolverClaims.

(** C5 on the demo interpreter: the empty path is refused, nothing called
    [nope] can be imported, and the [TypeError] of the relative import [.x]
    leaves the resolver. *)
Lemma get_object_tree_errors_witness :
  (exists msg, get_object_tree Demo.runtime "" = Raise (Exn ValueError msg))
  /\ get_object_tree Demo.runtime "nope.thing"
     = Raise (Exn ImportError "No module named 'nope'")
  /\ get_object_tree Demo.runtime ".x"
     = Raise (Exn TypeError
                "the 'package' argument is required to perform a relative import for '.x'").
Proof.
  split; [|split].
  - exact (proj1 (get_object_tree_errors Demo.runtime "") eq_refl).
  - apply (proj1 (proj2 (get_object_tree_errors Demo.runtime "nope.thing"))).
    + discriminate.
    + intros prefix Hne [k Hk]. vm_compute in Hk.
      destruct prefix as [|a [|b [|c prefix]]]; try congruence;
        inversion Hk; subst; eexists; split; reflexivity.
  - apply (proj2 (proj2 (get_object_tree_errors Demo.runtime ".x")) [""; "x"]).
    + discriminate.
    + discriminate.
    + now exists [].
    + intros longer H1 H2 H3. exfalso. apply H3. symmetry.
      exact (prefix_of_both _ _ H1 H2).
    + reflexivity.
    + discriminate.
Defined.

(** C5 as stated fails on the demo interpreter.  The path [broken] is not
    empty, and the resolver raises [ValueError]: the module raises it while it
    is imported.  And no prefix of the path [.x] can be imported, yet the
    resolver raises [TypeError], not [ImportError]. *)
Lemma get_object_tree_errors_counterexample :
  ("broken" <> ""
   /\ get_object_tree Demo.runtime "broken" = Raise (Exn ValueError "bad configuration"))
  /\ (import_module Demo.runtime ".x"
      = Raise (Exn TypeError
                 "the 'package' argument is required to perform a relative import for '.x'")
      /\ import_module Demo.runtime "" = Raise (Exn ValueError "Empty module name")
      /\ get_object_tree Demo.runtime ".x"
         = Raise (Exn TypeError
                    "the 'package' argument is required to perform a relative import for '.x'")).
Proof. split; [split; [discriminate | reflexivity] | repeat split]. Qed.

(** C4 on the demo interpreter: [pkg.mod.C] is reached through the module
    that defines it, and the root is the module [pkg.mod]. *)
Lemma get_object_tree_dotted_path_witness :
  let leaf :=
    ObjectNode.Make Demo.C "C" (Some (ObjectNode.Make Demo.pkg_mod "pkg.mod" None)) in
  get_object_tree Demo.runtime "pkg.mod.C" = Ok leaf
  /\ ObjectNode.dotted_path leaf = "pkg.mod.C"
  /\ ObjectNode.name (ObjectNode.root leaf) = "pkg.mod".
Proof.
  apply (get_object_tree_dotted_path Demo.runtime "pkg.mod.C" ["pkg"; "mod"] ["C"]
           Demo.pkg_mod);
    [discriminate | reflexivity | reflexivity | reflexivity | reflexivity | reflexivity].
Defined.

(** C4 as stated fails twice on the demo interpreter.  The root reached for
    [pkg.mod.C] is named [pkg.mod], not [pkg], the first segment; and the leaf
    reached for [pkg.C], a class that [pkg] re-exports from [pkg.mod], has the
    dotted path [pkg.mod.C], not the input path. *)
Lemma get_object_tree_dotted_path_counterexample :
  (exists leaf, get_object_tree Demo.runtime "pkg.mod.C" = Ok leaf
     /\ head (PyStr.split PyStr.dot "pkg.mod.C") = Some "pkg"
     /\ ObjectNode.name (ObjectNode.root leaf) = "pkg.mod"
     /\ ObjectNode.name (ObjectNode.root leaf) <> "pkg")
  /\ (exists leaf, get_object_tree Demo.runtime "pkg.C" = Ok leaf
     /\ ObjectNode.dotted_path leaf = "pkg.mod.C"
     /\ ObjectNode.dotted_path leaf <> "pkg.C").
Proof.
  split; eexists; (split; [reflexivity|]); vm_compute; repeat split; discriminate.
Qed.

(** ** Member selection *)

Section Selection.
Context (R : Runtime).

Lemma filter_name_out_body_fold fs name :
  filter_name_out_body R fs name =
    match fs with
    | [] => false
    | _ => negb (fold_left (filter_step R name) fs true)
    end.
Proof.
  destruct fs; reflexivity.
Qed.

(** Filters that do not match leave [keep] alone. *)
Lemma fold_no_match name fs : forall keep,
  (forall fltr regex, (fltr, regex) ∈ fs -> re_search R regex name = false) ->
  fold_left (filter_step R name) fs keep = keep.
Proof.
  induction fs as [|[fltr regex] fs IH]; intros keep H; [reflexivity|].
  simpl. rewrite (H fltr regex) by constructor.
  apply IH. intros f r Hin. apply (H f r). now constructor.
Qed.

(** The last matching filter decides, whatever came before. *)
Lemma fold_last_match name before fltr regex after keep :
  re_search R regex name = true ->
  (forall f r, (f, r) ∈ after -> re_search R r name = false) ->
  fold_left (filter_step R name) (before ++ (fltr, regex) :: after) keep
  = negb (PyStr.startswith PyStr.bang fltr).
Proof.
  intros Hm Hafter. rewrite fold_left_app. simpl. rewrite Hm.
  rewrite fold_no_match by assumption.
  destruct (PyStr.startswith PyStr.bang fltr); reflexivity.
Qed.

Lemma cache_sound_init fs inherited : cache_sound R (Loader_init fs inherited).
Proof. intros name answer H. simpl in H. rewrite lookup_empty in H. discriminate. Qed.

(** With a sound table, [filter_name_out] answers as its body does, and the
    table stays sound. *)
Lemma filter_name_out_sound name self :
  cache_sound R self ->
  exists self',
    filter_name_out R name self = (self', Ok (filter_name_out_body R (filters self) name))
    /\ filters self' = filters self
    /\ errors self' = errors self
    /\ select_inherited_members self' = select_inherited_members self
    /\ cache_sound R self'.
Proof.
  intros Hs. unfold filter_name_out.
  destruct (filter_cache self !! name) as [answer|] eqn:E.
  - exists self. rewrite (Hs _ _ E). auto.
  - eexists. split; [reflexivity|]. repeat split.
    intros n a. simpl. rewrite lookup_insert. case_decide.
    + intros [= <-]. now subst.
    + apply Hs.
Qed.

Lemma select_falsy name names self :
  cache_sound R self -> truthy names = false ->
  snd (select R name names self)
  = Ok (negb (filter_name_out_body R (filters self) name)).
Proof.
  intros Hs Ht. unfold select. rewrite Ht.
  destruct (filter_name_out_sound name self Hs) as (self' & E & _).
  unfold mbind, M_bind. rewrite E. reflexivity.
Qed.

Lemma truthy_empty_set : truthy (MSet ∅) = false.
Proof. unfold truthy. now rewrite bool_decide_eq_true_2. Qed.

(** C9.  With a non-empty set of names, [select] is membership in the set:
    whatever the filters, the interpreter and the memo table, and the loader
    is left as it was.  Otherwise a name is kept when the loader has no
    filter, and when no filter of the loader matches it. *)
Theorem select_explicit_names name self :
  (forall names : gset string, names <> ∅ ->
     select R name (MSet names) self = (self, Ok (bool_decide (name ∈ names))))
  /\ (forall names, cache_sound R self -> truthy names = false ->
        filters self = [] -> snd (select R name names self) = Ok true)
  /\ (forall names, cache_sound R self -> truthy names = false ->
        (forall fltr regex, (fltr, regex) ∈ filters self -> re_search R regex name = false) ->
        snd (select R name names self) = Ok true).
Proof.
  split; [|split].
  - intros names Hne. unfold select, truthy.
    rewrite (bool_decide_eq_false_2 _ Hne). reflexivity.
  - intros names Hs Ht Hf. rewrite (select_falsy _ _ _ Hs Ht), Hf. reflexivity.
  - intros names Hs Ht Hno. rewrite (select_falsy _ _ _ Hs Ht), filter_name_out_body_fold.
    destruct (filters self) as [|f fs] eqn:E; [reflexivity|].
    now rewrite fold_no_match.
Qed.

(** C1, as the code has it.  Without explicit names, the last filter that
    matches a name decides: the name is excluded when that filter is written
    with a leading exclamation mark and kept when it is not.  So the filters
    [!^_] exclude the names that [^_] matches, and the filters [!^_] then
    [^__init__$] exclude those names unless [^__init__$] matches them. *)
Theorem select_filter_chain name names self :
  cache_sound R self -> truthy names = false ->
  (forall before fltr regex after,
      filters self = before ++ (fltr, regex) :: after ->
      re_search R regex name = true ->
      (forall f r, (f, r) ∈ after -> re_search R r name = false) ->
      snd (select R name names self) = Ok (negb (PyStr.startswith PyStr.bang fltr)))
  /\ (filters self = filters (Loader_init (Some ["!^_"]) false) ->
      snd (select R name names self) = Ok (negb (re_search R "^_" name)))
  /\ (filters self = filters (Loader_init (Some ["!^_"; "^__init__$"]) false) ->
      snd (select R name names self)
      = Ok (re_search R "^__init__$" name || negb (re_search R "^_" name))).
Proof.
  intros Hs Ht. pose proof (select_falsy name names self Hs Ht) as Hsel.
  rewrite filter_name_out_body_fold in Hsel. split; [|split].
  - intros before fltr regex after Hf Hm Hafter. rewrite Hsel, Hf.
    rewrite fold_last_match by assumption.
    destruct before; simpl; now rewrite negb_involutive.
  - intros Hf. rewrite Hsel, Hf. simpl.
    destruct (re_search R "^_" name); reflexivity.
  - intros Hf. rewrite Hsel, Hf. simpl.
    destruct (re_search R "^_" name), (re_search R "^__init__$" name); reflexivity.
Qed.

End Selection.

(** C9 on the demo interpreter: membership with explicit names, and a name
    that the only filter does not match. *)
Lemma select_explicit_names_witness :
  select Demo.runtime "_x" (MSet {["_x"; "y"]}) (Loader_init (Some ["!^_"]) false)
    = (Loader_init (Some ["!^_"]) false, Ok true)
  /\ snd (select Demo.runtime "x" MNone (Loader_init None false)) = Ok true
  /\ snd (select Demo.runtime "x" MNone (Loader_init (Some ["!^_"]) false)) = Ok true.
Proof.
  pose proof (select_explicit_names Demo.runtime) as H. split; [|split].
  - assert (Hne : ({["_x"; "y"]} : gset string) <> ∅).
    { intros E. apply (f_equal (fun s : gset string => bool_decide ("y" ∈ s))) in E.
      vm_compute in E. discriminate. }
    exact (proj1 (H "_x" (Loader_init (Some ["!^_"]) false)) {["_x"; "y"]} Hne).
  - apply (proj1 (proj2 (H "x" (Loader_init None false))) MNone);
      [apply cache_sound_init | reflexivity | reflexivity].
  - apply (proj2 (proj2 (H "x" (Loader_init (Some ["!^_"]) false))) MNone);
      [apply cache_sound_init | reflexivity |].
    intros fltr regex Hin. apply list_elem_of_singleton in Hin. now inversion Hin.
Defined.

(** C1 on the demo interpreter: [_private] is excluded by [!^_], and
    [__init__] is kept when [^__init__$] follows. *)
Lemma select_filter_chain_witness :
  let one := Loader_init (Some ["!^_"]) false in
  let two := Loader_init (Some ["!^_"; "^__init__$"]) false in
  snd (select Demo.runtime "_private" (MSet ∅) one) = Ok false
  /\ snd (select Demo.runtime "__init__" MNone two) = Ok true
  /\ snd (select Demo.runtime "_private" MNone one)
     = Ok (negb (re_search Demo.runtime "^_" "_private"))
  /\ snd (select Demo.runtime "__eq__" MNone two)
     = Ok (re_search Demo.runtime "^__init__$" "__eq__"
           || negb (re_search Demo.runtime "^_" "__eq__")).
Proof.
  intros one two. split; [|split; [|split]].
  - apply (proj1 (select_filter_chain Demo.runtime "_private" (MSet ∅) one
                    (cache_sound_init _ _ _) truthy_empty_set)
             [] "!^_" "^_" []); [reflexivity | reflexivity |].
    intros f r Hin. inversion Hin.
  - apply (proj1 (select_filter_chain Demo.runtime "__init__" MNone two
                    (cache_sound_init _ _ _) eq_refl)
             [("!^_", "^_")] "^__init__$" "^__init__$" []); [reflexivity | reflexivity |].
    intros f r Hin. inversion Hin.
  - exact (proj1 (proj2 (select_filter_chain Demo.runtime "_private" MNone one
                           (cache_sound_init _ _ _) eq_refl)) eq_refl).
  - exact (proj2 (proj2 (select_filter_chain Demo.runtime "__eq__" MNone two
                           (cache_sound_init _ _ _) eq_refl)) eq_refl).
Defined.

(** C1 as stated fails on the demo interpreter.  The filter [^_], written
    without an exclamation mark, matches [_private], and [_private] is kept;
    with [^_] followed by [!^__init__$], the name [__init__] is excluded. *)
Lemma select_filter_chain_counterexample :
  re_search Demo.runtime "^_" "_private" = true
  /\ snd (select Demo.runtime "_private" (MSet ∅) (Loader_init (Some ["^_"]) false)) = Ok true
  /\ snd (select Demo.runtime "__init__" (MSet ∅)
            (Loader_init (Some ["^_"; "!^__init__$"]) false)) = Ok false.
Proof. repeat split; reflexivity. Qed.

(** ** The loader's state through a build *)

Section Steady.
Context (R : Runtime).

Lemma evolves_refl self : evolves R self self.
Proof. repeat split; auto. exists []. now rewrite app_nil_r. Qed.

Lemma evolves_trans a b c : evolves R a b -> evolves R b c -> evolves R a c.
Proof.
  intros (F1 & I1 & [m1 E1] & C1) (F2 & I2 & [m2 E2] & C2). repeat split.
  - congruence.
  - congruence.
  - exists (m1 ++ m2). rewrite E2, E1. now rewrite app_assoc.
  - auto.
Qed.

Lemma steady_ret {A} (a : A) : steady R (mret a).
Proof. intros self self' r [= <- _]. apply evolves_refl. Qed.

Lemma steady_raise {A} e : steady R (raise e : M A).
Proof. intros self self' r [= <- _]. apply evolves_refl. Qed.

Lemma steady_lift {A} (x : result A) : steady R (lift x).
Proof. intros self self' r [= <- _]. apply evolves_refl. Qed.

Lemma steady_get_self : steady R get_self.
Proof. intros self self' r [= <- _]. apply evolves_refl. Qed.

Lemma steady_append_error msg : steady R (append_error msg).
Proof.
  intros self self' r [= <- _]. repeat split; simpl; eauto.
Qed.

Lemma steady_bind {A B} (m : M A) (f : A -> M B) :
  steady R m -> (forall a, steady R (f a)) -> steady R (m ≫= f).
Proof.
  intros Hm Hf self self' r. unfold mbind, M_bind.
  destruct (m self) as [self1 [a|e]] eqn:E.
  - intros H. eapply evolves_trans; [eapply Hm, E | eapply Hf, H].
  - intros [= <- _]. eapply Hm, E.
Qed.

Lemma steady_try_except {A B} (x : result A) classes (handler : exn -> M B) (ok : A -> M B) :
  (forall e, steady R (handler e)) -> (forall a, steady R (ok a)) ->
  steady R (try_except x classes handler ok).
Proof.
  intros Hh Hok. unfold try_except. destruct x as [a|e]; [apply Hok|].
  destruct (caught_by classes e); [apply Hh | apply steady_raise].
Qed.

Lemma steady_foldM {A B} (body : B -> A -> M B) items :
  (forall acc x, steady R (body acc x)) -> forall acc, steady R (foldM body items acc).
Proof.
  intros Hb. induction items as [|x items IH]; intros acc; simpl.
  - apply steady_ret.
  - apply steady_bind; [apply Hb | apply IH].
Qed.

Lemma steady_filter_name_out name : steady R (filter_name_out R name).
Proof.
  intros self self' r H. unfold filter_name_out in H.
  destruct (filter_cache self !! name) as [answer|] eqn:E.
  - inversion H; subst. apply evolves_refl.
  - inversion H; subst; clear H. repeat split; simpl.
    + exists []. now rewrite app_nil_r.
    + intros Hs n a. simpl. rewrite lookup_insert. case_decide.
      * intros [= <-]. now subst.
      * apply Hs.
Qed.

Lemma steady_select name names : steady R (select R name names).
Proof.
  unfold select. destruct (truthy names).
  - destruct names; first [apply steady_ret | apply steady_raise].
  - apply steady_bind; [apply steady_filter_name_out | intros; apply steady_ret].
Qed.

End Steady.

(** Breaks a method down to the steps above. *)
Ltac steady_step :=
  match goal with
  | |- forall _, _ => intro
  | |- steady _ (mret _) => apply steady_ret
  | |- steady _ (raise _) => apply steady_raise
  | |- steady _ (lift _) => apply steady_lift
  | |- steady _ get_self => apply steady_get_self
  | |- steady _ (append_error _) => apply steady_append_error
  | |- steady _ (select _ _ _) => apply steady_select
  | |- steady _ (try_except _ _ _ _) => apply steady_try_except
  | |- steady _ (foldM _ _ _) => apply steady_foldM
  | |- steady _ (mbind _ _) => apply steady_bind
  | |- steady _ (match ?x with _ => _ end) => destruct x
  | |- steady _ (let _ := _ in _) => cbv zeta
  | |- steady _ ((fun _ => _) _) => cbv beta
  end.

Ltac steady := repeat steady_step.

Section SteadyBuilders.
Context (R : Runtime).

Lemma steady_function node : steady R (get_function_documentation R node).
Proof. unfold get_function_documentation. steady. Qed.

Lemma steady_property node : steady R (get_property_documentation R node).
Proof. unfold get_property_documentation. steady. Qed.

Lemma steady_method node properties : steady R (get_method_documentation R node properties).
Proof. unfold get_method_documentation. steady. Qed.

Lemma steady_regular_method node : steady R (get_regular_method_documentation R node).
Proof.
  unfold get_regular_method_documentation.
  apply steady_bind; [apply steady_method | steady].
Qed.

Lemma steady_field_selected class_ registry field_name select_members :
  steady R (field_selected R class_ registry field_name select_members).
Proof. unfold field_selected. steady. Qed.

Lemma steady_class_attributes_data class_ : steady R (class_attributes_data R class_).
Proof. unfold class_attributes_data. steady. Qed.

Lemma steady_collect_members class_ select_members all_members :
  steady R (collect_members R class_ select_members all_members).
Proof. unfold collect_members. steady. Qed.

Lemma steady_document_fields node select_members all_members root_object :
  steady R (document_fields R node select_members all_members root_object).
Proof.
  unfold document_fields.
  repeat first [ apply steady_field_selected | steady_step ].
Qed.

Lemma steady_class depth : forall node select_members,
  steady R (get_class_documentation R depth node select_members).
Proof.
  induction depth as [|depth IH]; intros node select_members; cbn [get_class_documentation].
  - apply steady_raise.
  - repeat first
      [ apply IH | apply steady_class_attributes_data | apply steady_collect_members
      | apply steady_document_fields | apply steady_method | apply steady_regular_method
      | apply steady_property | steady_step ].
Qed.

Lemma steady_module_source node : steady R (module_source R node).
Proof. unfold module_source. steady. Qed.

Lemma steady_module depth : forall node select_members,
  steady R (get_module_documentation R depth node select_members).
Proof.
  induction depth as [|depth IH]; intros node select_members; cbn [get_module_documentation].
  - apply steady_raise.
  - repeat first
      [ apply IH | apply steady_module_source | apply steady_class
      | apply steady_function | steady_step ].
Qed.

(** Throughout a build the filters are left alone, the errors recorded so
    far are kept, and the memo table answers as [filter_name_out] would. *)
Lemma steady_object_documentation depth dotted_path members :
  steady R (get_object_documentation R depth dotted_path members).
Proof.
  unfold get_object_documentation, get_classmethod_documentation,
    get_staticmethod_documentation.
  repeat first
    [ apply steady_module | apply steady_class | apply steady_method
    | apply steady_regular_method | apply steady_function | apply steady_property
    | steady_step ].
Qed.

End SteadyBuilders.

(** ** Functions, methods and attributes *)

(** Case analysis on every step of a method that is known to have returned. *)
Ltac returned H :=
  unfold mbind, M_bind, mret, M_ret, lift, raise in H;
  repeat (match type of H with
          | context [match ?x with _ => _ end] => destruct x eqn:?
          | context [if ?b then _ else _] => destruct b eqn:?
          end; simpl in H);
  try discriminate; inversion H; subst; clear H.

Section Leaves.
Context (R : Runtime).

(** A method entity carries the signature that [inspect.signature] gave. *)
Lemma get_method_documentation_ok node properties self self' method :
  get_method_documentation R node properties self = (self', Ok method) ->
  exists signature,
    inspect_signature R (ObjectNode.obj node) = Ok signature
    /\ Object.signature method = Some signature
    /\ Object.docstring method = inspect_getdoc R (ObjectNode.obj node)
    /\ Object.category method = Method
    /\ Object.path method = ObjectNode.dotted_path node
    /\ Object.properties method
       = default []
           (if ObjectNode.is_coroutine_function R node then
              match properties with
              | None => Some ["async"]
              | Some l => Some (l ++ ["async"])
              end
            else properties).
Proof.
  unfold get_method_documentation, append_error. intros H.
  destruct (inspect_signature R (ObjectNode.obj node)) as [signature|e] eqn:Es.
  - exists signature. split; [reflexivity|].
    destruct (ObjectNode.is_coroutine_function R node);
      returned H; repeat split.
  - exfalso. returned H.
Qed.

(** A method with a signature, in a module that has a file, is documented,
    whether its source lines are found, missing ([OSError]) or not to be had
    ([TypeError]). *)
Lemma get_method_documentation_returns node properties self signature file :
  inspect_signature R (ObjectNode.obj node) = Ok signature ->
  ObjectNode.file_path R node = Ok file ->
  (forall e, inspect_getsourcelines R (ObjectNode.obj node) = Raise e ->
             exn_type e = OSError \/ exn_type e = TypeError) ->
  exists self' method, get_method_documentation R node properties self = (self', Ok method).
Proof.
  intros Hs Hf Hsrc.
  unfold get_method_documentation, mbind, M_bind, lift, mret, M_ret, append_error, caught_by.
  rewrite Hs, Hf.
  destruct (inspect_getsourcelines R (ObjectNode.obj node)) as [s|e]; [eauto|].
  destruct (Hsrc e eq_refl) as [-> | ->]; simpl; eauto.
Qed.

(** When [inspect.signature] raises on a method, no entity is built: the
    exception leaves [get_method_documentation]. *)
Lemma get_method_documentation_no_signature node properties self e :
  inspect_signature R (ObjectNode.obj node) = Raise e ->
  forall self' method,
    get_method_documentation R node properties self <> (self', Ok method).
Proof.
  intros Hs self' method H. apply get_method_documentation_ok in H as (s & E & _).
  congruence.
Qed.

(** When [inspect.signature] raises a [TypeError] on a function whose source
    lines are found or missing with an [OSError], in a module that has a
    file, the entity is built without signature and the error, which names
    the dotted path, is recorded. *)
Lemma get_function_documentation_TypeError node self e file :
  inspect_signature R (ObjectNode.obj node) = Raise e ->
  exn_type e = TypeError ->
  ObjectNode.file_path R node = Ok file ->
  (forall e', inspect_getsourcelines R (ObjectNode.obj node) = Raise e' ->
              exn_type e' = OSError) ->
  exists self' function more,
    get_function_documentation R node self = (self', Ok function)
    /\ Object.category function = Function
    /\ Object.path function = ObjectNode.dotted_path node
    /\ Object.signature function = None
    /\ errors self' =
       errors self
       ++ ("Couldn't get signature for '" +:+ ObjectNode.dotted_path node +:+ "': "
           +:+ exn_msg e) :: more.
Proof.
  intros Hs Ht Hf Hsrc.
  unfold get_function_documentation, try_except, mbind, M_bind, mret, M_ret, append_error, lift.
  rewrite Hs, Hf. unfold caught_by. rewrite Ht. simpl.
  destruct (inspect_getsourcelines R (ObjectNode.obj node)) as [s|e'].
  - eexists _, _, []. repeat split.
  - rewrite (Hsrc e' eq_refl). simpl.
    eexists _, _, [_]. repeat split. simpl. now rewrite <- app_assoc.
Qed.

(** Any other exception of [inspect.signature] leaves
    [get_function_documentation]. *)
Lemma get_function_documentation_other_error node self e :
  inspect_signature R (ObjectNode.obj node) = Raise e ->
  exn_type e <> TypeError ->
  get_function_documentation R node self = (self, Raise e).
Proof.
  intros Hs Ht.
  unfold get_function_documentation, try_except, mbind, M_bind.
  rewrite Hs. unfold caught_by. simpl.
  destruct (exn_type e); try congruence; reflexivity.
Qed.

(** The first class of the chain on which the name resolves decides. *)
Lemma inherited_docstring_first skipped parent_class rest name method parent_method :
  (forall c, c ∈ skipped -> getattr R c name = None) ->
  getattr R parent_class name = Some parent_method ->
  inherited_docstring R (skipped ++ parent_class :: rest) name method
  = if decide (Object.docstring method = inspect_getdoc R parent_method)
    then Object.set_docstring (Some "") method
    else method.
Proof.
  intros Hskip Hget. induction skipped as [|c skipped IH]; simpl.
  - now rewrite Hget.
  - rewrite (Hskip c) by constructor. apply IH.
    intros c' Hin. apply Hskip. now constructor.
Qed.

(** C6, as the code has it.  Take a method whose name matches [RE_SPECIAL]
    and for which [get_method_documentation] gives [method], and the first
    class after its own in the resolution order on which the name resolves as
    an attribute, defined there or inherited.  The docstring of
    [method] is the one [inspect.getdoc] gives for the method; if it equals
    the docstring of that class's method, the entity returned is [method] with
    the docstring [""]; if it differs, the entity returned is [method]
    itself. *)
Theorem special_method_docstring node p self self' method
    skipped parent_class rest parent_method :
  get_method_documentation R node None self = (self', Ok method) ->
  ObjectNode.parent node = Some p ->
  RE_SPECIAL_match R (ObjectNode.name node) = true ->
  mro_parents R (ObjectNode.obj p) = skipped ++ parent_class :: rest ->
  (forall c, c ∈ skipped -> getattr R c (ObjectNode.name node) = None) ->
  getattr R parent_class (ObjectNode.name node) = Some parent_method ->
  Object.docstring method = inspect_getdoc R (ObjectNode.obj node)
  /\ (inspect_getdoc R (ObjectNode.obj node) = inspect_getdoc R parent_method ->
      get_regular_method_documentation R node self
      = (self', Ok (Object.set_docstring (Some "") method))
      /\ Object.docstring (Object.set_docstring (Some "") method) = Some "")
  /\ (inspect_getdoc R (ObjectNode.obj node) <> inspect_getdoc R parent_method ->
      get_regular_method_documentation R node self = (self', Ok method)).
Proof.
  intros Hm Hp Hs Hmro Hskip Hget.
  destruct (get_method_documentation_ok _ _ _ _ _ Hm) as (sig & _ & _ & Hdoc & _).
  assert (Hrun : get_regular_method_documentation R node self
                 = (self', Ok (if decide (Object.docstring method
                                          = inspect_getdoc R parent_method)
                               then Object.set_docstring (Some "") method
                               else method))).
  { unfold get_regular_method_documentation, mbind, M_bind.
    rewrite Hm, Hp, Hs, Hmro.
    now rewrite (inherited_docstring_first _ _ _ _ _ _ Hskip Hget). }
  split; [exact Hdoc|]. rewrite Hdoc in Hrun. split; intros Hcmp.
  - split; [|reflexivity]. rewrite Hrun. now rewrite decide_True.
  - rewrite Hrun. now rewrite decide_False.
Qed.

(** A name that the attribute map of its scope does not hold falls back on
    the empty dictionary. *)
Lemma default_attribute_data_absent node :
  (forall p, ObjectNode.parent node = Some p -> ObjectNode.is_class R p = true ->
     get_class_attributes R (ObjectNode.obj p) !! ObjectNode.name node = None) ->
  (ObjectNode.parent_is_class R node = false ->
     get_module_attributes R (ObjectNode.obj (ObjectNode.root node)) !! ObjectNode.name node
     = None) ->
  default_attribute_data R node = empty_dict.
Proof.
  intros Hc Hm. unfold default_attribute_data.
  destruct (ObjectNode.parent_is_class R node) eqn:E.
  - unfold ObjectNode.parent_is_class in E.
    destruct (ObjectNode.parent node) as [p|] eqn:Ep; [|reflexivity].
    now rewrite (Hc p eq_refl E).
  - now rewrite Hm.
Qed.

(** On the empty dictionary [get_attribute_documentation] builds the
    attribute with the docstring [""] and no type, in a module that has a
    file. *)
Lemma get_attribute_documentation_absent node file :
  ObjectNode.file_path R node = Ok file ->
  default_attribute_data R node = empty_dict ->
  exists attribute,
    get_attribute_documentation R node None = Ok attribute
    /\ Object.docstring attribute = Some ""
    /\ Object.attr_type attribute = None
    /\ Object.category attribute = Attribute.
Proof.
  intros Hf H. unfold get_attribute_documentation. rewrite H, Hf.
  eexists. split; [reflexivity|]. repeat split.
Qed.

(** On the empty dictionary [get_annotated_dataclass_field] builds nothing:
    reading the key [docstring] is a [KeyError]. *)
Lemma get_annotated_dataclass_field_absent node file :
  ObjectNode.file_path R node = Ok file ->
  default_attribute_data R node = empty_dict ->
  get_annotated_dataclass_field R node None = Raise (Exn KeyError "'docstring'").
Proof. intros Hf H. unfold get_annotated_dataclass_field. rewrite H, Hf. reflexivity. Qed.

End Leaves.

(** C6 on the demo interpreter: [C.__repr__] repeats the docstring of
    [Base.__repr__] and loses it; [C.__eq__] has its own and keeps it. *)
Lemma special_method_docstring_witness :
  let in_C name o :=
    ObjectNode.Make o name
      (Some (ObjectNode.Make Demo.C "C" (Some (ObjectNode.Make Demo.pkg_mod "pkg.mod" None)))) in
  let self := Loader_init None false in
  (exists method,
     get_regular_method_documentation Demo.runtime (in_C "__repr__" Demo.C_repr) self
     = (self, Ok method) /\ Object.docstring method = Some "")
  /\ (exists method,
     get_regular_method_documentation Demo.runtime (in_C "__eq__" Demo.C_eq) self
     = (self, Ok method) /\ Object.docstring method = Some "Compare two C.").
Proof.
  intros in_C self. split.
  - destruct (special_method_docstring Demo.runtime (in_C "__repr__" Demo.C_repr)
                (ObjectNode.Make Demo.C "C" (Some (ObjectNode.Make Demo.pkg_mod "pkg.mod" None)))
                self self _ [] Demo.Base [Demo.object_] Demo.Base_repr
                eq_refl eq_refl eq_refl eq_refl) as (_ & Hsame & _).
    + intros c Hin. inversion Hin.
    + reflexivity.
    + eexists. exact (Hsame eq_refl).
  - destruct (special_method_docstring Demo.runtime (in_C "__eq__" Demo.C_eq)
                (ObjectNode.Make Demo.C "C" (Some (ObjectNode.Make Demo.pkg_mod "pkg.mod" None)))
                self self _ [] Demo.Base [Demo.object_] Demo.Base_eq
                eq_refl eq_refl eq_refl eq_refl) as (_ & _ & Hdiff).
    + intros c Hin. inversion Hin.
    + reflexivity.
    + eexists. split; [apply Hdiff; discriminate | reflexivity].
Defined.

(** C6 as stated fails on the demo interpreter.  [Widget(Plain, Named)]
    defines [__init__] with the docstring of [Named.__init__], and [Plain]
    defines none: the first ancestor of [Widget] that defines [__init__] is
    [Named], and the two docstrings are identical.  But the name resolves on
    [Plain] first, to [object.__init__], whose docstring is another: the
    docstring of [Widget.__init__] is kept. *)
Lemma special_method_docstring_counterexample :
  let self := Loader_init None false in
  RE_SPECIAL_match Demo.runtime "__init__" = true
  /\ mro_parents Demo.runtime Demo.Widget = [Demo.Plain; Demo.Named; Demo.object_]
  /\ obj_dict Demo.runtime Demo.Plain !! "__init__" = None
  /\ first_defining_ancestor Demo.runtime Demo.Widget "__init__" = Some Demo.Named
  /\ obj_dict Demo.runtime Demo.Named !! "__init__" = Some Demo.Named_init
  /\ inspect_getdoc Demo.runtime Demo.Widget_init = inspect_getdoc Demo.runtime Demo.Named_init
  /\ getattr Demo.runtime Demo.Plain "__init__" = Some Demo.object_init
  /\ inspect_getdoc Demo.runtime Demo.object_init
     = Some "Initialize self.  See help(type(self)) for accurate signature."
  /\ exists self' method,
       get_object_documentation Demo.runtime 5 "app.Widget.__init__" MNone self
       = (self', Ok method)
       /\ Object.category method = Method
       /\ Object.docstring method = Some "Set the name."
       /\ Object.docstring method <> Some "".
Proof.
  repeat (split; [vm_compute; reflexivity|]).
  eexists _, _. split; [vm_compute; reflexivity|].
  repeat split. discriminate.
Qed.

(** C2 at a failing input.  [C.smallest] is [staticmethod(max)], and
    [inspect.signature(max)] raises: documenting the method as the loader
    reaches it below [C], and so documenting [C], raises the same exception.
    No entity is returned and no error is recorded.  From its own path the
    method is not documented either: [max] belongs to [builtins], the chain
    is rooted there, and the failure comes earlier, from the file path of a
    built-in module. *)
Theorem method_without_signature_aborts :
  let self := Loader_init None false in
  let smallest :=
    ObjectNode.Make Demo.builtin_max "smallest"
      (Some (ObjectNode.Make Demo.C "C" (Some (ObjectNode.Make Demo.pkg_mod "pkg.mod" None)))) in
  inspect_signature Demo.runtime Demo.builtin_max
    = Raise (Exn ValueError "no signature found for builtin")
  /\ get_staticmethod_documentation Demo.runtime smallest self
     = (self, Raise (Exn ValueError "no signature found for builtin"))
  /\ snd (get_object_documentation Demo.runtime 5 "pkg.mod.C" MNone self)
     = Raise (Exn ValueError "no signature found for builtin")
  /\ errors (fst (get_object_documentation Demo.runtime 5 "pkg.mod.C" MNone self)) = []
  /\ get_object_documentation Demo.runtime 5 "pkg.mod.C.smallest" MNone self
     = (self, Raise (Exn TypeError "<module 'builtins' (built-in)> is a built-in module")).
Proof. vm_compute. repeat split. Qed.

(** C3 at a failing input.  [Point] is a dataclass whose field [x] is not in
    the attribute map of the class: documenting the field, and so the class,
    raises [KeyError].  No attribute is emitted.  On the same node
    [get_attribute_documentation] returns the attribute with the docstring
    [""] and no type. *)
Theorem dataclass_field_without_data_aborts :
  let self := Loader_init None false in
  let field :=
    ObjectNode.Make Demo.int_ "x"
      (Some (ObjectNode.Make Demo.Point "Point"
               (Some (ObjectNode.Make Demo.pkg_mod "pkg.mod" None)))) in
  get_class_attributes Demo.runtime Demo.Point !! "x" = None
  /\ get_annotated_dataclass_field Demo.runtime field None
     = Raise (Exn KeyError "'docstring'")
  /\ snd (get_object_documentation Demo.runtime 5 "pkg.mod.Point" MNone self)
     = Raise (Exn KeyError "'docstring'")
  /\ exists attribute,
       get_attribute_documentation Demo.runtime field None = Ok attribute
       /\ Object.docstring attribute = Some ""
       /\ Object.attr_type attribute = None.
Proof. vm_compute. repeat split. eexists. repeat split. Qed.

(** ** Loops, modules and classes *)

Section Loops.
Context (R : Runtime).

(** What every returning turn of a loop keeps, the whole loop keeps. *)
Lemma foldM_inv {A B} (I : B -> Prop) (body : B -> A -> M B) items :
  (forall acc x self self' out, I acc -> body acc x self = (self', Ok out) -> I out) ->
  forall acc self self' out,
    I acc -> foldM body items acc self = (self', Ok out) -> I out.
Proof.
  intros Hbody. induction items as [|x items IH]; intros acc self self' out Hacc H; simpl in H.
  - inversion H; now subst.
  - unfold mbind, M_bind in H.
    destruct (body acc x self) as [self1 [acc1|e]] eqn:E; [|discriminate].
    eapply IH; [|exact H]. eapply Hbody; eauto.
Qed.

Lemma source_add_child child o : Object.source (Object.add_child child o) = Object.source o.
Proof. reflexivity. Qed.

(** The source of a module entity is the one [module_source] found, and the
    loader after [module_source] evolves into the final one. *)
Lemma get_module_documentation_source depth node select_members self self' m :
  (forall o attributes, Object.source (parse_docstring R o attributes) = Object.source o) ->
  get_module_documentation R depth node select_members self = (self', Ok m) ->
  exists self1,
    module_source R node self = (self1, Ok (Object.source m)) /\ evolves R self1 self'.
Proof.
  intros Hparse H. destruct depth as [|depth]; [discriminate|].
  cbn [get_module_documentation] in H.
  unfold mbind at 1, M_bind at 1 in H.
  destruct (module_source R node self) as [self1 [src|e]] eqn:Es; [|discriminate].
  exists self1.
  match type of H with
  | ?k self1 = _ =>
      assert (Hk : steady R k)
        by (repeat first
              [ apply steady_module | apply steady_class | apply steady_function
              | steady_step ])
  end.
  split; [|exact (Hk _ _ _ H)]. clear Hk Es. f_equal. f_equal.
  unfold mbind at 1, M_bind at 1, lift at 1 in H.
  destruct (ObjectNode.file_path R node) as [file|e]; [|discriminate].
  assert (Hbody1 : forall (attributes_data : gmap string AttrDict) names acc x s s' out,
    Object.source acc = src ->
    (let '(member_name, member) := x in
     selected ← select R member_name names;
     if selected : bool then
       let child_node := ObjectNode.init R member member_name (Some node) in
       let defined_here :=
         bool_decide (inspect_getmodule R member
                      = Some (ObjectNode.obj (ObjectNode.root node))) in
       if ObjectNode.is_class R child_node && defined_here then
         child ← get_class_documentation R depth child_node MNone;
         mret (Object.add_child child acc)
       else if ObjectNode.is_function R child_node && defined_here then
         child ← get_function_documentation R child_node;
         mret (Object.add_child child acc)
       else
         match attributes_data !! member_name with
         | Some data =>
             child ← lift (get_attribute_documentation R child_node (Some data));
             mret (Object.add_child child acc)
         | None => mret acc
         end
     else mret acc) s = (s', Ok out) ->
    Object.source out = src).
  { intros attributes_data names acc [member_name member] s s' out Hacc Hb.
    revert Hacc. returned Hb; intros Hacc; exact Hacc. }
  assert (Hbody2 : forall names acc modname s s' out,
    Object.source acc = src ->
    (selected ← select R modname names;
     if selected : bool then
       leaf ← lift (get_object_tree R (ObjectNode.dotted_path node +:+ "." +:+ modname));
       child ← get_module_documentation R depth leaf MNone;
       mret (Object.add_child child acc)
     else mret acc) s = (s', Ok out) ->
    Object.source out = src).
  { intros names acc modname s s' out Hacc Hb.
    revert Hacc. returned Hb; intros Hacc; exact Hacc. }
  destruct select_members as [|[|]|names];
    try (inversion H; reflexivity);
    unfold mbind at 1, M_bind at 1 in H;
    match type of H with
    | context [foldM ?body ?items ?acc self1] =>
        destruct (foldM body items acc self1) as [self2 [root2|e]] eqn:Ef; [|discriminate];
        apply (foldM_inv (fun o => Object.source o = src)) in Ef;
        [| intros; eapply Hbody1; eauto | apply Hparse ]
    end;
    (destruct (module_path R (ObjectNode.obj node)) as [package_path|];
     [ apply (foldM_inv (fun o => Object.source o = src)) in H;
       [ now symmetry | intros; eapply Hbody2; eauto | exact Ef ]
     | inversion H; subst; now symmetry ]).
Qed.

End Loops.

Section ModuleSource.
Context (R : Runtime).

(** [module_source], case by case. *)
Lemma module_source_cases node self :
  module_source R node self =
    match inspect_getsource R (ObjectNode.obj node) with
    | Ok text => (self, Ok (Some {| code := CodeText text; line_start := 1 |}))
    | Raise error =>
        if caught_by [OSError] error then
          match read_file R node with
          | Ok [] => (self, Ok None)
          | Ok (line :: lines) =>
              (self, Ok (Some {| code := CodeLines (line :: lines); line_start := 1 |}))
          | Raise error' =>
              if caught_by [OSError] error' then
                (fst (append_error ("Couldn't read source for '"
                                    +:+ ObjectNode.dotted_path node
                                    +:+ "': " +:+ exn_msg error) self), Ok None)
              else (self, Raise error')
          end
        else (self, Raise error)
    end.
Proof.
  unfold module_source, try_except.
  destruct (inspect_getsource R (ObjectNode.obj node)) as [text|error]; [reflexivity|].
  destruct (caught_by [OSError] error); [|reflexivity].
  destruct (read_file R node) as [[|line lines]|error'];
    try reflexivity.
  destruct (caught_by [OSError] error'); reflexivity.
Qed.

Lemma caught_by_OSError e : caught_by [OSError] e = true <-> exn_type e = OSError.
Proof. unfold caught_by. simpl. destruct (exn_type e); simpl; split; congruence. Qed.

(** C8, as the code has it.  If [inspect.getsource] raises [OSError] and
    reading the module's file raises [OSError] too, the source is absent and
    one error naming the dotted path is recorded.  If the file is read and has
    no line, the source is absent and nothing is recorded.  And a module
    entity without source comes from one of these two cases: its error is
    among the loader's errors, or its file was read and had no line. *)
Theorem module_source_absent node :
  let msg error :=
    "Couldn't read source for '" +:+ ObjectNode.dotted_path node +:+ "': " +:+ exn_msg error in
  (forall self error error',
      inspect_getsource R (ObjectNode.obj node) = Raise error -> exn_type error = OSError ->
      read_file R node = Raise error' -> exn_type error' = OSError ->
      exists self', module_source R node self = (self', Ok None)
                    /\ errors self' = errors self ++ [msg error])
  /\ (forall self error,
      inspect_getsource R (ObjectNode.obj node) = Raise error -> exn_type error = OSError ->
      read_file R node = Ok [] ->
      module_source R node self = (self, Ok None))
  /\ (forall depth select_members self self' m,
      (forall o attributes, Object.source (parse_docstring R o attributes) = Object.source o) ->
      get_module_documentation R depth node select_members self = (self', Ok m) ->
      Object.source m = None ->
      exists error,
        inspect_getsource R (ObjectNode.obj node) = Raise error /\ exn_type error = OSError
        /\ ((exists error', read_file R node = Raise error'
                            /\ exn_type error' = OSError /\ msg error ∈ errors self')
            \/ read_file R node = Ok [])).
Proof.
  intros msg. split; [|split].
  - intros self error error' Hg He Hr He'. rewrite module_source_cases, Hg, Hr.
    rewrite (proj2 (caught_by_OSError error) He), (proj2 (caught_by_OSError error') He').
    eexists. split; reflexivity.
  - intros self error Hg He Hr. rewrite module_source_cases, Hg, Hr.
    now rewrite (proj2 (caught_by_OSError error) He).
  - intros depth select_members self self' m Hparse Hdoc Hnone.
    destruct (get_module_documentation_source R _ _ _ _ _ _ Hparse Hdoc)
      as (self1 & Hsrc & (_ & _ & [more Hmore] & _)).
    rewrite Hnone, module_source_cases in Hsrc.
    destruct (inspect_getsource R (ObjectNode.obj node)) as [text|error]; [discriminate|].
    exists error. split; [reflexivity|].
    destruct (caught_by [OSError] error) eqn:Ec; [|discriminate].
    split; [now apply caught_by_OSError|].
    destruct (read_file R node) as [[|line lines]|error'].
    + now right.
    + discriminate.
    + left. exists error'. split; [reflexivity|].
      destruct (caught_by [OSError] error') eqn:Ec'; [|discriminate].
      split; [now apply caught_by_OSError|].
      inversion Hsrc; subst self1. rewrite Hmore. simpl.
      rewrite !elem_of_app. left. right. constructor.
Qed.

End ModuleSource.

(** C8 on the demo interpreter.  The source of [lost] cannot be had from
    [inspect.getsource] nor from its file: the module is documented without
    source and the error is recorded.  The source of [emptypkg] cannot be had
    from [inspect.getsource] and its file is read as no line at all: the
    module is documented without source. *)
Lemma module_source_absent_witness :
  let self := Loader_init None false in
  let lost := ObjectNode.Make Demo.lost "lost" None in
  let emptypkg := ObjectNode.Make Demo.emptypkg "emptypkg" None in
  (exists self', module_source Demo.runtime lost self = (self', Ok None)
     /\ errors self' = ["Couldn't read source for 'lost': could not get source code"])
  /\ module_source Demo.runtime emptypkg self = (self, Ok None)
  /\ (exists error',
        read_lines Demo.runtime "/src/lost.py" = Raise error'
        /\ "Couldn't read source for 'lost': could not get source code"
           ∈ errors (fst (get_module_documentation Demo.runtime 2 lost MNone self)))
  /\ read_lines Demo.runtime "/src/emptypkg/__init__.py" = Ok [].
Proof.
  intros self lost emptypkg.
  destruct (module_source_absent Demo.runtime lost) as (Hboth & _ & Hlost).
  destruct (module_source_absent Demo.runtime emptypkg) as (_ & Hempty & Hall).
  split; [|split; [|split]].
  - exact (Hboth self _ _ eq_refl eq_refl eq_refl eq_refl).
  - exact (Hempty self _ eq_refl eq_refl eq_refl).
  - destruct (Hlost 2 MNone self _ _ ltac:(reflexivity) eq_refl eq_refl)
      as (error & Hg & _ & [(error' & Hr & _ & Hin) | Hr]).
    + inversion Hg; subst error. exists error'. split; [exact Hr | exact Hin].
    + discriminate Hr.
  - destruct (Hall 1 (MBool false) self self _ ltac:(reflexivity) eq_refl eq_refl)
      as (error & _ & _ & [(error' & Hr & _) | Hr]).
    + discriminate Hr.
    + exact Hr.
Defined.

(** C8 as stated fails on the demo interpreter.  Neither [inspect.getsource]
    nor the file gives any source text for [emptypkg]; the module entity is
    emitted without source, and no error is recorded. *)
Lemma module_source_absent_counterexample :
  exists self' m,
    get_object_documentation Demo.runtime 5 "emptypkg" (MBool false) (Loader_init None false)
      = (self', Ok m)
    /\ Object.category m = Module
    /\ Object.source m = None
    /\ inspect_getsource Demo.runtime Demo.emptypkg
       = Raise (Exn OSError "could not get source code")
    /\ read_lines Demo.runtime (Object.file_path m) = Ok []
    /\ errors self' = [].
Proof. eexists _, _. split; [reflexivity|]. repeat split. Qed.

Section Conventions.
Context (R : Runtime).

Lemma pydantic_field_tag node child :
  get_pydantic_field_documentation R node = Ok child -> field_of "pydantic-field" child.
Proof.
  unfold get_pydantic_field_documentation, mbind, result_bind. intros H.
  destruct (ObjectNode.file_path R node); [|discriminate].
  inversion H; subst. split; reflexivity.
Qed.

Lemma marshmallow_field_tag node child :
  get_marshmallow_field_documentation R node = Ok child -> field_of "marshmallow-field" child.
Proof.
  unfold get_marshmallow_field_documentation, mbind, result_bind. intros H.
  destruct (ObjectNode.file_path R node); [|discriminate].
  inversion H; subst. split; reflexivity.
Qed.

Lemma dataclass_field_tag node data child :
  get_annotated_dataclass_field R node data = Ok child -> field_of "dataclass-field" child.
Proof.
  unfold get_annotated_dataclass_field, mbind, result_bind. intros H.
  destruct (ObjectNode.file_path R node); [|discriminate].
  destruct (getitem_docstring _); [|discriminate].
  destruct (getitem_annotation _); [|discriminate].
  inversion H; subst. split; reflexivity.
Qed.

Lemma tagged_start model field root :
  tagged model field root (Object.set_properties [model] root).
Proof. split; [reflexivity|]. exists []. split; [now rewrite app_nil_r | constructor]. Qed.

Lemma tagged_add_child model field root o child :
  tagged model field root o -> field_of field child ->
  tagged model field root (Object.add_child child o).
Proof.
  intros [Hp (fields & Hc & Hf)] Hchild. split; [exact Hp|].
  exists (fields ++ [child]). split.
  - simpl. rewrite Hc. now rewrite <- app_assoc.
  - apply Forall_app. split; [exact Hf | now constructor].
Qed.

(** The detection of structured declarations, on its own: the class gets the
    tag of the first convention it exposes and fields of that convention
    only; a class exposing none is returned as it was. *)
Lemma document_fields_convention node select_members all_members root self self' c :
  document_fields R node select_members all_members root self = (self', Ok c) ->
  match convention R self (ObjectNode.obj node) all_members with
  | Some (model, field) =>
      Object.properties c = [model]
      /\ exists fields,
           Object.children c = Object.children root ++ fields
           /\ Forall (field_of field) fields
  | None => c = root
  end.
Proof.
  intros H. unfold document_fields in H.
  unfold mbind at 1, M_bind at 1, get_self at 1 in H. cbv beta iota in H.
  unfold convention.
  destruct (exposes self "__fields__" _ all_members);
    [|destruct (exposes self "_declared_fields" _ all_members);
      [|destruct (exposes self "__dataclass_fields__" _ all_members)]].
  4:{ now inversion H. }
  all: unfold mbind at 1, M_bind at 1, lift at 1 in H;
    match type of H with
    | context [dict_getitem ?d ?k] =>
        destruct (dict_getitem d k) as [registry|e]; [|discriminate]
    end;
    match goal with
    | |- Object.properties _ = [?model] /\ (exists fields, _ /\ Forall (field_of ?field) _) =>
        apply (foldM_inv (tagged model field root)) in H;
        [ exact H | | apply tagged_start ]
    end.
  - intros acc [field_name model_field] s s' out Hacc Hb. revert Hacc.
    returned Hb; intros Hacc; [apply tagged_add_child|]; eauto using pydantic_field_tag.
  - intros acc [field_name model_field] s s' out Hacc Hb. revert Hacc.
    returned Hb; intros Hacc; [apply tagged_add_child|]; eauto using marshmallow_field_tag.
  - intros acc field s s' out Hacc Hb. revert Hacc.
    returned Hb; intros Hacc; [apply tagged_add_child|]; eauto using dataclass_field_tag.
Qed.

(** [select] returns, unless the names are the value [True]. *)
Lemma select_returns name names self :
  names <> MBool true -> exists self' answer, select R name names self = (self', Ok answer).
Proof.
  intros Hn. unfold select. destruct (truthy names) eqn:Ht.
  - destruct names as [|[|]|s]; try discriminate; try congruence. eauto.
  - unfold mbind, M_bind, filter_name_out.
    destruct (filter_cache self !! name); eauto.
Qed.

Lemma foldM_returns {A B} (body : B -> A -> M B) items :
  (forall acc x self, exists self' out, body acc x self = (self', Ok out)) ->
  forall acc self, exists self' out, foldM body items acc self = (self', Ok out).
Proof.
  intros Hb. induction items as [|x items IH]; intros acc self; simpl.
  - eauto.
  - unfold mbind, M_bind. destruct (Hb acc x self) as (s1 & acc1 & ->). apply IH.
Qed.

Lemma field_selected_returns class_ registry field_name names self :
  names <> MBool true ->
  exists self' answer,
    field_selected R class_ registry field_name names self = (self', Ok answer).
Proof.
  intros Hn. unfold field_selected, mbind, M_bind.
  destruct (select_returns field_name names self Hn) as (s1 & [|] & ->); eauto.
Qed.

(** The documentation of pydantic and marshmallow fields always returns, in
    a module that has a file, when the registry is among the members and the
    names are not [True]. *)
Lemma document_fields_returns node select_members all_members root self model field file :
  select_members <> MBool true ->
  ObjectNode.file_path R node = Ok file ->
  convention R self (ObjectNode.obj node) all_members = Some (model, field) ->
  field <> "dataclass-field" ->
  (forall registry, contains all_members registry = true) ->
  exists self' c,
    document_fields R node select_members all_members root self = (self', Ok c).
Proof.
  intros Hn Hfile Hconv Hfield Hreg. unfold convention in Hconv. unfold document_fields.
  unfold mbind at 1, M_bind at 1, get_self at 1. cbv beta iota.
  assert (Hget : forall k, exists registry, dict_getitem all_members k = Ok registry).
  { intros k. specialize (Hreg k). unfold contains in Hreg. apply bool_decide_eq_true in Hreg.
    destruct Hreg as [v Hv]. exists v. unfold dict_getitem. now rewrite Hv. }
  assert (Hchild : forall o n, ObjectNode.file_path R (ObjectNode.init R o n (Some node)) = Ok file)
    by (intros; exact Hfile).
  destruct (exposes self "__fields__" _ all_members);
    [|destruct (exposes self "_declared_fields" _ all_members);
      [|destruct (exposes self "__dataclass_fields__" _ all_members)]];
    try (inversion Hconv; congruence).
  - destruct (Hget "__fields__") as [registry Hr].
    unfold mbind at 1, M_bind at 1, lift at 1. rewrite Hr.
    apply foldM_returns. intros acc [field_name model_field] s.
    unfold mbind, M_bind, lift, get_pydantic_field_documentation, result_bind.
    destruct (field_selected_returns (ObjectNode.obj node) "__fields__" field_name
                select_members s Hn) as (s1 & [|] & ->); [|eauto].
    rewrite Hchild. eauto.
  - destruct (Hget "_declared_fields") as [registry Hr].
    unfold mbind at 1, M_bind at 1, lift at 1. rewrite Hr.
    apply foldM_returns. intros acc [field_name model_field] s.
    unfold mbind, M_bind, lift, get_marshmallow_field_documentation, result_bind.
    destruct (field_selected_returns (ObjectNode.obj node) "_declared_fields" field_name
                select_members s Hn) as (s1 & [|] & ->); [|eauto].
    rewrite Hchild. eauto.
Qed.

Lemma convention_flag self1 self2 class_ all_members :
  select_inherited_members self1 = select_inherited_members self2 ->
  convention R self1 class_ all_members = convention R self2 class_ all_members.
Proof. intros H. unfold convention, exposes. now rewrite H. Qed.

Lemma class_tag_not_field self class_ all_members o :
  Object.properties o = class_tag (convention R self class_ all_members) -> not_field o.
Proof.
  intros Hp tag Ht. rewrite Hp in Ht. unfold convention in Ht.
  repeat match type of Ht with
         | context [if ?b then _ else _] => destruct b
         end; simpl in Ht; inversion Ht; reflexivity.
Qed.

Lemma not_field_inherited o : not_field o -> not_field (Object.append_property "inherited" o).
Proof.
  intros H tag. simpl. destruct (Object.properties o) as [|t l] eqn:E; simpl.
  - intros [= <-]. reflexivity.
  - intros [= <-]. apply H. now rewrite E.
Qed.

Lemma inherited_docstring_properties parent_classes name method :
  Object.properties (inherited_docstring R parent_classes name method)
  = Object.properties method.
Proof.
  induction parent_classes as [|parent_class rest IH]; simpl; [reflexivity|].
  destruct (getattr R parent_class name); [|exact IH].
  destruct (decide _); reflexivity.
Qed.

Lemma method_not_field node properties self self' method :
  properties = None \/ properties = Some ["classmethod"] \/ properties = Some ["staticmethod"] ->
  get_method_documentation R node properties self = (self', Ok method) ->
  not_field method.
Proof.
  intros Hp H. apply get_method_documentation_ok in H as (sig & _ & _ & _ & _ & _ & Hprops).
  intros tag Ht. rewrite Hprops in Ht.
  destruct (ObjectNode.is_coroutine_function R node);
    destruct Hp as [->|[->| ->]]; simpl in Ht; inversion Ht; reflexivity.
Qed.

Lemma regular_method_not_field node self self' method :
  get_regular_method_documentation R node self = (self', Ok method) -> not_field method.
Proof.
  unfold get_regular_method_documentation, mbind, M_bind, mret, M_ret. intros H.
  destruct (get_method_documentation R node None self) as [s1 [m|e]] eqn:Em; [|discriminate].
  apply method_not_field in Em; [|now left].
  destruct (ObjectNode.parent node) as [p|]; [|now inversion H; subst].
  destruct (RE_SPECIAL_match R (ObjectNode.name node)); inversion H; subst; [|exact Em].
  intros tag. rewrite inherited_docstring_properties. apply Em.
Qed.

Lemma property_not_field node self self' attribute :
  get_property_documentation R node self = (self', Ok attribute) -> not_field attribute.
Proof.
  unfold get_property_documentation, try_except, append_error. intros H.
  returned H; intros tag [= <-]; reflexivity.
Qed.

Lemma attribute_not_field node data attribute :
  get_attribute_documentation R node data = Ok attribute -> not_field attribute.
Proof.
  unfold get_attribute_documentation, mbind, result_bind. intros H.
  destruct (ObjectNode.file_path R node); [|discriminate].
  inversion H; subst. intros tag Ht. discriminate Ht.
Qed.

Lemma not_field_of_convention conv o : not_field o -> field_of_convention conv o.
Proof. intros H tag Ht Hf. rewrite (H tag Ht) in Hf. discriminate. Qed.

(** What the loop over the members of a class keeps: no property on the
    class, and no child that looks like a field. *)
Lemma members_loop_shape o child :
  (Object.properties o = [] /\ Forall not_field (Object.children o)) ->
  not_field child ->
  Object.properties (Object.add_child child o) = []
  /\ Forall not_field (Object.children (Object.add_child child o)).
Proof.
  intros [Hp Hc] Hchild. split; [exact Hp|]. simpl.
  apply Forall_app. split; [exact Hc | now constructor].
Qed.

(** The shape of a class entity: the tag of its convention, if any, and no
    field of another convention among its children. *)
Lemma get_class_documentation_shape :
  parser_keeps_shape R ->
  forall depth node select_members self self' c,
    select_members <> MBool false ->
    get_class_documentation R depth node select_members self = (self', Ok c) ->
    let conv :=
      convention R self (ObjectNode.obj node)
        (py_dict (inspect_getmembers R (ObjectNode.obj node))) in
    Object.properties c = class_tag conv
    /\ Forall (field_of_convention conv) (Object.children c).
Proof.
  intros Hparse. induction depth as [|depth IH];
    intros node select_members self self' c Hsel H; [discriminate|].
  pose proof (steady_class R _ _ _ _ _ _ H) as (_ & Hflag & _).
  cbn [get_class_documentation] in H.
  unfold mbind at 1, M_bind at 1, lift at 1 in H.
  destruct (ObjectNode.file_path R node) as [file|e]; [|discriminate].
  unfold mbind at 1, M_bind at 1 in H.
  destruct (class_attributes_data R (ObjectNode.obj node) self) as [s1 [attrs|e]];
    [|discriminate].
  assert (Hbody : forall inherited acc x s s' out,
    (Object.properties acc = [] /\ Forall not_field (Object.children acc)) ->
    (let '(member_name, member) := x in
     let child_node := ObjectNode.init R member member_name (Some node) in
     let add child :=
       let child :=
         if bool_decide (member_name ∈ (inherited : list string))
         then Object.append_property "inherited" child else child in
       mret (Object.add_child child acc) in
     if ObjectNode.is_class R child_node then
       child ← get_class_documentation R depth child_node MNone; add child
     else if ObjectNode.is_classmethod R child_node then
       child ← get_classmethod_documentation R child_node; add child
     else if ObjectNode.is_staticmethod R child_node then
       child ← get_staticmethod_documentation R child_node; add child
     else if ObjectNode.is_method R child_node then
       child ← get_regular_method_documentation R child_node; add child
     else if ObjectNode.is_property R child_node then
       child ← get_property_documentation R child_node; add child
     else
       match (attrs : gmap string AttrDict) !! member_name with
       | Some data =>
           child ← lift (get_attribute_documentation R child_node (Some data)); add child
       | None => mret acc
       end) s = (s', Ok out) ->
    Object.properties out = [] /\ Forall not_field (Object.children out)).
  { clear H. intros inherited acc [member_name member] s s' out Hacc Hb.
    revert Hacc. returned Hb; intros Hacc; try exact Hacc;
      apply members_loop_shape; try exact Hacc; try apply not_field_inherited;
      match goal with
      | E : get_attribute_documentation R _ _ = Ok ?child |- not_field ?child =>
          exact (attribute_not_field _ _ _ E)
      | E : get_class_documentation R depth ?n MNone ?s = (_, Ok ?child) |- not_field ?child =>
          destruct (IH n MNone s _ child ltac:(discriminate) E) as [Hp _];
          exact (class_tag_not_field _ _ _ _ Hp)
      | E : get_classmethod_documentation R _ _ = (_, Ok ?child) |- not_field ?child =>
          apply (method_not_field _ _ _ _ _ (or_intror (or_introl eq_refl)) E)
      | E : get_staticmethod_documentation R _ _ = (_, Ok ?child) |- not_field ?child =>
          apply (method_not_field _ _ _ _ _ (or_intror (or_intror eq_refl)) E)
      | E : get_regular_method_documentation R _ _ = (_, Ok ?child) |- not_field ?child =>
          apply (regular_method_not_field _ _ _ _ E)
      | E : get_property_documentation R _ _ = (_, Ok ?child) |- not_field ?child =>
          apply (property_not_field _ _ _ _ E)
      end. }
  destruct select_members as [|[|]|names]; try congruence;
    unfold mbind at 1, M_bind at 1 in H;
    destruct (collect_members R _ _ _ s1) as [s2 [[members inherited]|e]]; try discriminate;
    unfold mbind at 1, M_bind at 1 in H;
    match type of H with
    | context [foldM ?body members ?acc s2] =>
        destruct (foldM body members acc s2) as [s3 [root|e]] eqn:Ef; [|discriminate];
        apply (foldM_inv (fun o => Object.properties o = []
                                   /\ Forall not_field (Object.children o))) in Ef;
        [ | intros ? ? ? ? ? Hacc Hb; exact (Hbody inherited _ _ _ _ _ Hacc Hb)
          | destruct (Hparse (new_object Class (ObjectNode.name node)
                                (ObjectNode.dotted_path node) file
                                (Some (inspect_cleandoc R
                                         (default "" (obj_doc R (ObjectNode.obj node)))))
                                None None None []) attrs) as [-> ->];
            split; [reflexivity | constructor] ]
    end;
    destruct Ef as [Hroot Hchildren];
    pose proof (steady_document_fields R _ _ _ _ _ _ _ H) as (_ & Hflag3 & _);
    apply document_fields_convention in H;
    rewrite (convention_flag s3 self) in H by congruence;
    (destruct (convention R self _ _) as [[model field]|];
     [ destruct H as (Hp & fields & Hc & Hf); split; [exact Hp|];
       rewrite Hc; apply Forall_app; split;
       [ eapply Forall_impl; [exact Hchildren | intros; now apply not_field_of_convention]
       | eapply Forall_impl; [exact Hf|];
         intros child [_ Hhead] tag Ht _; rewrite Hhead in Ht; inversion Ht; subst; eauto ]
     | subst c; split; [exact Hroot|];
       eapply Forall_impl; [exact Hchildren | intros; now apply not_field_of_convention] ]).
Qed.

(** C7.  A class is documented by one convention at most, the first of
    pydantic, marshmallow and dataclass that it exposes.  The detection step,
    when it returns, sets the properties of the class to that convention's
    tag alone and adds attributes carrying that convention's field tag; a
    class exposing none is returned as it was.  So every class entity built
    with its members has the properties of that one convention, or none, and
    each child whose first property is a field tag is a field of that
    convention. *)
Theorem structured_declaration_exclusive :
  (forall node select_members all_members root self self' c,
     document_fields R node select_members all_members root self = (self', Ok c) ->
     match convention R self (ObjectNode.obj node) all_members with
     | Some (model, field) =>
         Object.properties c = [model]
         /\ exists fields,
              Object.children c = Object.children root ++ fields
              /\ Forall (field_of field) fields
     | None => c = root
     end)
  /\ (parser_keeps_shape R ->
      forall depth node select_members self self' c,
        select_members <> MBool false ->
        get_class_documentation R depth node select_members self = (self', Ok c) ->
        let conv :=
          convention R self (ObjectNode.obj node)
            (py_dict (inspect_getmembers R (ObjectNode.obj node))) in
        Object.properties c = class_tag conv
        /\ Forall (field_of_convention conv) (Object.children c)).
Proof.
  split.
  - intros node select_members all_members root self self' c H.
    exact (document_fields_convention _ _ _ _ _ _ _ H).
  - exact get_class_documentation_shape.
Qed.

(** The detection is the last step of [get_class_documentation]. *)
Lemma get_class_documentation_fields depth node select_members self self' c :
  select_members <> MBool false ->
  get_class_documentation R (S depth) node select_members self = (self', Ok c) ->
  exists root self1,
    document_fields R node (or_empty_set select_members)
      (py_dict (inspect_getmembers R (ObjectNode.obj node))) root self1 = (self', Ok c).
Proof.
  intros Hsel H. cbn [get_class_documentation] in H.
  unfold mbind at 1, M_bind at 1, lift at 1 in H.
  destruct (ObjectNode.file_path R node) as [file|e]; [|discriminate].
  unfold mbind at 1, M_bind at 1 in H.
  destruct (class_attributes_data R (ObjectNode.obj node) self) as [s1 [attrs|e]];
    [|discriminate].
  destruct select_members as [|[|]|names]; try congruence;
    unfold mbind at 1, M_bind at 1 in H;
    destruct (collect_members R _ _ _ s1) as [s2 [[members inherited]|e]]; try discriminate;
    unfold mbind at 1, M_bind at 1 in H;
    match type of H with
    | context [foldM ?body members ?acc s2] =>
        destruct (foldM body members acc s2) as [s3 [root|e]]; [|discriminate]
    end; eauto.
Qed.

End Conventions.

(** C7 on the demo interpreter: [Both] exposes the pydantic and the
    marshmallow registry and is documented as a pydantic model, with the one
    pydantic field. *)
Lemma structured_declaration_exclusive_witness :
  let self := Loader_init None false in
  let node := ObjectNode.Make Demo.Both "Both" (Some (ObjectNode.Make Demo.pkg_mod "pkg.mod" None)) in
  let all_members := py_dict (inspect_getmembers Demo.runtime Demo.Both) in
  let root := new_object Class "Both" "pkg.mod.Both" "/src/pkg/mod.py" (Some "") None None None [] in
  exposes self "__fields__" (obj_dict Demo.runtime Demo.Both) all_members = true
  /\ exposes self "_declared_fields" (obj_dict Demo.runtime Demo.Both) all_members = true
  /\ (exists self' c,
        document_fields Demo.runtime node (MSet ∅) all_members root self = (self', Ok c)
        /\ Object.properties c = ["pydantic-model"]
        /\ exists fields, Object.children c = Object.children root ++ fields
                          /\ Forall (field_of "pydantic-field") fields)
  /\ (exists self' c,
        get_class_documentation Demo.runtime 2 node MNone self = (self', Ok c)
        /\ Object.properties c = ["pydantic-model"]
        /\ Forall (field_of_convention (Some ("pydantic-model", "pydantic-field")))
                  (Object.children c)).
Proof.
  intros self node all_members root.
  destruct (structured_declaration_exclusive Demo.runtime) as [Hstep Hclass].
  split; [reflexivity|]. split; [reflexivity|]. split.
  - eexists _, _. split; [vm_compute; reflexivity|].
    exact (Hstep node (MSet ∅) all_members root self _ _ eq_refl).
  - eexists _, _. split; [vm_compute; reflexivity|].
    refine (Hclass _ 2 node MNone self _ _ _ eq_refl); [|discriminate].
    intros o attributes. split; reflexivity.
Defined.

(** ** The [members] argument *)

Section MembersArgument.
Context (R : Runtime).

Lemma or_empty_set_empty : or_empty_set (MSet ∅) = MSet ∅.
Proof. unfold or_empty_set. destruct (truthy (MSet ∅)); reflexivity. Qed.

Lemma or_empty_set_None : or_empty_set MNone = MSet ∅.
Proof. reflexivity. Qed.

Lemma get_module_documentation_empty_set depth node :
  get_module_documentation R depth node (MSet ∅) = get_module_documentation R depth node MNone.
Proof.
  destruct depth as [|depth]; [reflexivity|]. cbn [get_module_documentation].
  cbv zeta. now rewrite or_empty_set_empty, or_empty_set_None.
Qed.

Lemma get_class_documentation_empty_set depth node :
  get_class_documentation R depth node (MSet ∅) = get_class_documentation R depth node MNone.
Proof.
  destruct depth as [|depth]; [reflexivity|]. cbn [get_class_documentation].
  cbv zeta. now rewrite or_empty_set_empty, or_empty_set_None.
Qed.

(** C10.  [get_object_documentation] with [members=True] is
    [get_object_documentation] with [members=None]: the same result, the same
    errors, the same memo table, for every path, interpreter and loader.
    [True] becomes the empty set, which [select] treats as no set, so the
    members of the root go through the filters. *)
Theorem members_True_is_None depth dotted_path self :
  get_object_documentation R depth dotted_path (MBool true) self
  = get_object_documentation R depth dotted_path MNone self.
Proof.
  unfold get_object_documentation, mbind at 1 3, M_bind at 1 3, lift.
  destruct (get_object_tree R dotted_path) as [leaf|e]; [|reflexivity].
  now rewrite get_module_documentation_empty_set, get_class_documentation_empty_set.
Qed.

(** With [members=True] the root's members are selected by the filters. *)
Lemma select_after_True name self :
  cache_sound R self ->
  snd (select R name (or_empty_set (MSet ∅)) self)
  = Ok (negb (filter_name_out_body R (filters self) name)).
Proof.
  intros Hs. rewrite or_empty_set_empty. apply select_falsy; [exact Hs|].
  apply truthy_empty_set.
Qed.

End MembersArgument.

(** * More of the loader *)

(** ** Chains of nodes *)

Section Chains.
Context (R : Runtime).

Lemma node_ind (P : ObjectNode.t -> Prop) :
  (forall o n, P (ObjectNode.Make o n None)) ->
  (forall o n p, P p -> P (ObjectNode.Make o n (Some p))) ->
  forall node, P node.
Proof.
  intros Hroot Hstep. fix IH 1. intros [o n [p|]]; [apply Hstep, IH | apply Hroot].
Qed.

Lemma parts_nonempty node : ObjectNode.parts node <> [].
Proof. destruct node as [o n [p|]]; discriminate. Qed.

Lemma join_snoc sep (l : list string) x :
  l <> [] -> PyStr.join sep (l ++ [x]) = PyStr.join sep l +:+ sep +:+ x.
Proof.
  induction l as [|a l IH]; [congruence|]. intros _.
  destruct l as [|b l]; [reflexivity|].
  change ((a :: b :: l) ++ [x]) with (a :: b :: (l ++ [x])).
  rewrite !join_cons. change (b :: l ++ [x]) with ((b :: l) ++ [x]).
  rewrite IH by discriminate. now rewrite !append_assoc.
Qed.

(** X1.  The dotted path of a node with a parent is the dotted path of the
    parent, a dot, and the node's own name; the dotted path of a node without
    parent is its name. *)
Theorem dotted_path_child o n :
  ObjectNode.dotted_path (ObjectNode.init R o n None) = n
  /\ forall p,
       ObjectNode.dotted_path (ObjectNode.init R o n (Some p))
       = ObjectNode.dotted_path p +:+ "." +:+ n.
Proof.
  split; [reflexivity|]. intros p. unfold ObjectNode.dotted_path.
  rewrite parts_init. simpl rev. apply join_snoc.
  intros E. apply (f_equal (@rev string)) in E. rewrite rev_involutive in E.
  now apply parts_nonempty in E.
Qed.

Lemma dotted_path_Make o n p :
  ObjectNode.dotted_path (ObjectNode.Make o n (Some p))
  = ObjectNode.dotted_path p +:+ "." +:+ n.
Proof.
  unfold ObjectNode.dotted_path. simpl rev. apply join_snoc.
  intros E. apply (f_equal (@rev string)) in E. rewrite rev_involutive in E.
  now apply parts_nonempty in E.
Qed.

(** X2.  The root of a chain has no parent and is its own root; the dotted
    path of every node of the chain begins with the root's name; and a node
    has the root and the file path of its parent. *)
Theorem root_of_chain node :
  ObjectNode.parent (ObjectNode.root node) = None
  /\ ObjectNode.root (ObjectNode.root node) = ObjectNode.root node
  /\ (exists rest,
        ObjectNode.dotted_path node = ObjectNode.name (ObjectNode.root node) +:+ rest)
  /\ (forall p, ObjectNode.parent node = Some p ->
        ObjectNode.root node = ObjectNode.root p
        /\ ObjectNode.file_path R node = ObjectNode.file_path R p).
Proof.
  split; [|split; [|split]].
  - induction node as [o n|o n p IH] using node_ind; [reflexivity | exact IH].
  - induction node as [o n|o n p IH] using node_ind; [reflexivity | exact IH].
  - induction node as [o n|o n p [rest IH]] using node_ind.
    + exists "". simpl. now rewrite append_nil_r.
    + exists (rest +:+ "." +:+ n). rewrite dotted_path_Make, IH.
      simpl ObjectNode.root. now rewrite append_assoc.
  - intros p Hp. destruct node as [o n [q|]]; simpl in Hp; [|discriminate].
    inversion Hp; subst. split; reflexivity.
Qed.

End Chains.

(** X2 on the demo interpreter: [C] below [pkg.mod]. *)
Lemma root_of_chain_witness :
  let module := ObjectNode.Make Demo.pkg_mod "pkg.mod" None in
  let node := ObjectNode.Make Demo.C "C" (Some module) in
  ObjectNode.root node = ObjectNode.root module
  /\ ObjectNode.file_path Demo.runtime node = ObjectNode.file_path Demo.runtime module.
Proof.
  intros module node.
  exact (proj2 (proj2 (proj2 (root_of_chain Demo.runtime node))) module eq_refl).
Defined.

(** ** More on the resolver *)

Section ResolverExtras.
Context (R : Runtime).

Lemma real_parent_leaf real_module node :
  ObjectNode.obj (real_parent R real_module node) = ObjectNode.obj node
  /\ ObjectNode.name (real_parent R real_module node) = ObjectNode.name node.
Proof.
  destruct node as [o n [p|]]; [|split; reflexivity]. cbn [real_parent].
  destruct (inspect_ismodule R (ObjectNode.obj p)); [|split; reflexivity].
  destruct (match real_module with Some _ => real_module | None => inspect_getmodule R o end)
    as [m|]; [|split; reflexivity].
  destruct (decide (m = ObjectNode.obj p)); split; reflexivity.
Qed.

Lemma real_parent_parts_length node : forall real_module,
  List.length (ObjectNode.parts (real_parent R real_module node))
  <= List.length (ObjectNode.parts node).
Proof.
  induction node as [o n|o n p IH] using node_ind; intros real_module; [reflexivity|].
  cbn [real_parent].
  destruct (inspect_ismodule R (ObjectNode.obj p)).
  - destruct (match real_module with Some _ => real_module | None => inspect_getmodule R o end)
      as [m|]; [|reflexivity].
    destruct (decide (m = ObjectNode.obj p)); [reflexivity|].
    destruct p as [po pn [pp|]]; simpl; lia.
  - simpl. specialize (IH (match real_module with
                           | Some _ => real_module
                           | None => inspect_getmodule R o
                           end)). lia.
Qed.

(** X6.  The correction for re-exported objects keeps the object and the name
    of the node it is applied to, never lengthens the chain, and applied a
    second time changes nothing more. *)
Theorem real_parent_idempotent node : forall real_module,
  real_parent R real_module (real_parent R real_module node)
  = real_parent R real_module node
  /\ ObjectNode.obj (real_parent R real_module node) = ObjectNode.obj node
  /\ ObjectNode.name (real_parent R real_module node) = ObjectNode.name node
  /\ List.length (ObjectNode.parts (real_parent R real_module node))
     <= List.length (ObjectNode.parts node).
Proof.
  intros real_module. split; [|split; [apply real_parent_leaf|split;
    [apply real_parent_leaf | apply real_parent_parts_length]]].
  revert real_module.
  induction node as [o n|o n p IH] using node_ind; intros real_module; [reflexivity|].
  cbn [real_parent].
  set (real := match real_module with Some _ => real_module | None => inspect_getmodule R o end).
  destruct (inspect_ismodule R (ObjectNode.obj p)) eqn:Em.
  - destruct real as [m|] eqn:Er.
    + destruct (decide (m = ObjectNode.obj p)) as [Eq|Ne].
      * cbn [real_parent]. fold real. rewrite Er, Em. now rewrite decide_True.
      * cbn [real_parent]. fold real. rewrite Er.
        destruct (inspect_ismodule R
                    (ObjectNode.obj (ObjectNode.init R m (obj_name R m) None)));
          [|reflexivity].
        destruct (decide (m = ObjectNode.obj (ObjectNode.init R m (obj_name R m) None)));
          reflexivity.
    + cbn [real_parent]. fold real. now rewrite Er, Em.
  - cbn [real_parent]. fold real.
    rewrite (proj1 (real_parent_leaf real p)), Em. now rewrite IH.
Qed.

Lemma attach_leaf_name objects : forall node leaf,
  attach R node objects = Ok leaf -> objects <> [] ->
  Some (ObjectNode.name leaf) = last objects /\ ObjectNode.parent leaf <> None.
Proof.
  induction objects as [|x rest IH]; intros node leaf H Hne; [congruence|].
  simpl in H. destruct (getattr R (ObjectNode.obj node) x) as [o|]; [|discriminate].
  destruct rest as [|y rest].
  - simpl in H. inversion H; subst. split; [reflexivity | discriminate].
  - apply IH in H; [|discriminate]. exact H.
Qed.

Lemma join_split_dot path : PyStr.join "." (PyStr.split PyStr.dot path) = path.
Proof. apply (join_split PyStr.dot). Qed.

(** X3.  [get_object_tree] imports the longest prefix of the segments that
    can be imported: the module it starts from is the import of a non-empty
    prefix, the import of every longer prefix of the path raised
    [ImportError], and the chain it returns has at most one node more than
    there are segments left. *)
Theorem get_object_tree_longest_prefix path leaf :
  get_object_tree R path = Ok leaf ->
  exists prefix objects parent_module,
    PyStr.split PyStr.dot path = prefix ++ objects /\ prefix <> []
    /\ import_module R (PyStr.join "." prefix) = Ok parent_module
    /\ (forall longer,
          prefix `prefix_of` longer -> longer `prefix_of` PyStr.split PyStr.dot path ->
          longer <> prefix -> not_found R (PyStr.join "." longer))
    /\ List.length (ObjectNode.parts leaf) <= S (List.length objects).
Proof.
  intros H.
  assert (Hne : path <> "") by (intros ->; discriminate).
  rewrite (get_object_tree_unfold R _ Hne) in H.
  destruct (import_loop R _ _ _) as [[m objects]|e] eqn:Hloop; [|discriminate].
  apply import_loop_longest in Hloop; [|apply split_nonempty|lia].
  destruct Hloop as (prefix & popped & E1 & E2 & E3 & E4 & _ & E5).
  rewrite app_nil_r in E3; subst objects.
  destruct (attach R _ popped) as [leaf0|e] eqn:Ha; [|discriminate].
  inversion H; subst leaf.
  exists prefix, popped, m. repeat split; auto.
  etransitivity; [apply real_parent_parts_length|].
  destruct (attach_parts R _ _ _ Ha) as [-> _].
  rewrite length_app, length_rev. simpl. lia.
Qed.

(** X4.  When the whole path can be imported, the leaf is the node of that
    module alone, named by the module's [__name__]; otherwise the leaf has a
    parent and is named by the last segment of the path. *)
Theorem get_object_tree_leaf path leaf :
  get_object_tree R path = Ok leaf ->
  match import_module R path with
  | Ok parent_module =>
      leaf = ObjectNode.init R parent_module (obj_name R parent_module) None
  | Raise _ =>
      Some (ObjectNode.name leaf) = last (PyStr.split PyStr.dot path)
      /\ ObjectNode.parent leaf <> None
  end.
Proof.
  intros H.
  assert (Hne : path <> "") by (intros ->; discriminate).
  rewrite (get_object_tree_unfold R _ Hne) in H.
  destruct (import_loop R _ _ _) as [[m objects]|e] eqn:Hloop; [|discriminate].
  apply import_loop_longest in Hloop; [|apply split_nonempty|lia].
  destruct Hloop as (prefix & popped & E1 & E2 & E3 & E4 & Hwhole & _).
  rewrite app_nil_r in E3; subst objects. rewrite join_split_dot in Hwhole.
  destruct (attach R _ popped) as [leaf0|e] eqn:Ha; [|discriminate].
  inversion H; subst leaf; clear H.
  destruct (import_module R path) as [m'|e'] eqn:Himp.
  - assert (popped = []) as -> by (apply Hwhole; eauto).
    rewrite app_nil_r in E1. rewrite <- E1, join_split_dot, Himp in E4.
    inversion E4; subst. simpl in Ha. inversion Ha; subst. reflexivity.
  - assert (Hp : popped <> []).
    { intros E. apply Hwhole in E as [m' Hm']. congruence. }
    destruct (attach_leaf_name _ _ _ Ha Hp) as [Hname Hparent].
    destruct (real_parent_leaf None leaf0) as [_ ->]. split.
    + rewrite Hname, E1, last_app. now rewrite <- Hname.
    + destruct leaf0 as [o n [p|]]; [|now simpl in Hparent]. cbn [real_parent].
      destruct (inspect_ismodule R _); [|discriminate].
      destruct (inspect_getmodule R o); [|discriminate].
      destruct (decide _); discriminate.
Qed.

End ResolverExtras.

(** X3 on the demo interpreter: for [pkg.mod.C] the module is [pkg.mod]. *)
Lemma get_object_tree_longest_prefix_witness :
  exists prefix objects parent_module,
    PyStr.split PyStr.dot "pkg.mod.C" = prefix ++ objects /\ prefix <> []
    /\ import_module Demo.runtime (PyStr.join "." prefix) = Ok parent_module
    /\ (forall longer,
          prefix `prefix_of` longer -> longer `prefix_of` PyStr.split PyStr.dot "pkg.mod.C" ->
          longer <> prefix -> not_found Demo.runtime (PyStr.join "." longer))
    /\ List.length (ObjectNode.parts
                      (ObjectNode.Make Demo.C "C"
                         (Some (ObjectNode.Make Demo.pkg_mod "pkg.mod" None))))
       <= S (List.length objects).
Proof.
  exact (get_object_tree_longest_prefix Demo.runtime "pkg.mod.C" _ eq_refl).
Defined.

(** X4 on the demo interpreter: the leaf of [pkg.mod.C] is named [C], and the
    leaf of [pkg.mod] is the module's own node. *)
Lemma get_object_tree_leaf_witness :
  (Some "C" = last (PyStr.split PyStr.dot "pkg.mod.C")
   /\ ObjectNode.parent (ObjectNode.Make Demo.C "C"
                           (Some (ObjectNode.Make Demo.pkg_mod "pkg.mod" None))) <> None)
  /\ ObjectNode.Make Demo.pkg_mod "pkg.mod" None
     = ObjectNode.init Demo.runtime Demo.pkg_mod (obj_name Demo.runtime Demo.pkg_mod) None.
Proof.
  split.
  - exact (get_object_tree_leaf Demo.runtime "pkg.mod.C" _ eq_refl).
  - exact (get_object_tree_leaf Demo.runtime "pkg.mod" _ eq_refl).
Defined.

(** ** More on selection *)

Section SelectionExtras.
Context (R : Runtime).

(** X7.  Whatever [get_object_documentation] does and however it ends, it
    leaves the filters and the inheritance flag as they were, it only appends
    to the errors recorded before, and it keeps a sound memo table sound: so
    [select] without explicit names answers after the build as it did
    before. *)
Theorem build_keeps_loader depth dotted_path members self self' r :
  get_object_documentation R depth dotted_path members self = (self', r) ->
  filters self' = filters self
  /\ select_inherited_members self' = select_inherited_members self
  /\ (exists more, errors self' = errors self ++ more)
  /\ (cache_sound R self ->
      cache_sound R self'
      /\ forall name names, truthy names = false ->
           snd (select R name names self') = snd (select R name names self)).
Proof.
  intros H. destruct (steady_object_documentation R _ _ _ _ _ _ H) as (Hf & Hi & He & Hc).
  repeat split; auto. intros name names Ht.
  rewrite !select_falsy by auto. now rewrite Hf.
Qed.

Lemma lstrip_bang g : PyStr.lstrip PyStr.bang (String "!" g) = PyStr.lstrip PyStr.bang g.
Proof. reflexivity. Qed.

Lemma fold_left_swap_one {A B} (f : A -> B -> A) l1 a b l2 acc :
  (forall k, f k a = f k b) ->
  fold_left f (l1 ++ a :: l2) acc = fold_left f (l1 ++ b :: l2) acc.
Proof. intros H. rewrite !fold_left_app. simpl. now rewrite H. Qed.

(** X9.  Exclamation marks do not cancel: a filter written with two of them
    excludes what the filter written with one excludes.  All the leading
    marks are stripped from the pattern, and the filter negates as soon as it
    begins with one. *)
Theorem double_bang_excludes before g after inherited name names :
  truthy names = false ->
  snd (select R name names
         (Loader_init (Some (before ++ String "!" (String "!" g) :: after)) inherited))
  = snd (select R name names
           (Loader_init (Some (before ++ String "!" g :: after)) inherited)).
Proof.
  intros Ht. rewrite !select_falsy by (auto using cache_sound_init). f_equal. f_equal.
  rewrite !filter_name_out_body_fold. unfold Loader_init. cbn [filters default from_option].
  unfold id. rewrite !map_app, !map_cons.
  set (compiled := map (fun f => (f, PyStr.lstrip PyStr.bang f)) before).
  assert (Hstep : forall keep,
            filter_step R name keep
              (String "!" (String "!" g), PyStr.lstrip PyStr.bang (String "!" (String "!" g)))
            = filter_step R name keep
                (String "!" g, PyStr.lstrip PyStr.bang (String "!" g)))
    by reflexivity.
  pose proof (fold_left_swap_one (filter_step R name) compiled _ _
                (map (fun f => (f, PyStr.lstrip PyStr.bang f)) after) true Hstep) as Hfold.
  destruct compiled as [|c compiled]; cbn [app] in *; now rewrite Hfold.
Qed.

End SelectionExtras.

(** X7 on the demo interpreter: documenting [helper] adds two errors. *)
Lemma build_keeps_loader_witness :
  let self := Loader_init (Some ["!^_"]) false in
  let self' := (get_object_documentation Demo.runtime 5 "pkg.mod.helper" MNone self).1 in
  filters self' = filters self
  /\ select_inherited_members self' = select_inherited_members self
  /\ (exists more, errors self' = errors self ++ more)
  /\ (cache_sound Demo.runtime self ->
      cache_sound Demo.runtime self'
      /\ forall name names, truthy names = false ->
           snd (select Demo.runtime name names self')
           = snd (select Demo.runtime name names self)).
Proof.
  intros self self'.
  apply (build_keeps_loader Demo.runtime 5 "pkg.mod.helper" MNone self self'
           (get_object_documentation Demo.runtime 5 "pkg.mod.helper" MNone self).2).
  subst self'. now destruct (get_object_documentation _ _ _ _ _).
Defined.

(** X9 on the demo interpreter: [!!^_] excludes [_private], as [!^_] does. *)
Lemma double_bang_excludes_witness :
  snd (select Demo.runtime "_private" MNone (Loader_init (Some ["!!^_"]) false))
  = snd (select Demo.runtime "_private" MNone (Loader_init (Some ["!^_"]) false))
  /\ snd (select Demo.runtime "_private" MNone (Loader_init (Some ["!!^_"]) false)) = Ok false.
Proof.
  split; [|reflexivity].
  exact (double_bang_excludes Demo.runtime [] "^_" [] false "_private" MNone eq_refl).
Defined.

(** ** More on functions, properties and methods *)

Section LeavesExtras.
Context (R : Runtime).

(** X10.  For a function on which [inspect.signature] raises nothing but
    [TypeError] and [inspect.getsourcelines] nothing but [OSError],
    [get_function_documentation] records one error for each of the two that
    failed, the signature's before the source's, and then reads the file path
    of the root module.  If that raises, the exception leaves the method and
    the errors stay recorded.  Otherwise a Function entity is returned for the
    node's path: what failed is absent from it, and it is tagged [async]
    exactly for a coroutine function. *)
Theorem function_failures_recorded node self :
  let function := ObjectNode.obj node in
  let path := ObjectNode.dotted_path node in
  (forall e, inspect_signature R function = Raise e -> exn_type e = TypeError) ->
  (forall e, inspect_getsourcelines R function = Raise e -> exn_type e = OSError) ->
  exists self',
    errors self'
    = errors self
      ++ match inspect_signature R function with
         | Raise e => ["Couldn't get signature for '" +:+ path +:+ "': " +:+ exn_msg e]
         | Ok _ => []
         end
      ++ match inspect_getsourcelines R function with
         | Raise e => ["Couldn't read source for '" +:+ path +:+ "': " +:+ exn_msg e]
         | Ok _ => []
         end
    /\ match ObjectNode.file_path R node with
       | Raise e => get_function_documentation R node self = (self', Raise e)
       | Ok file =>
           exists entity,
             get_function_documentation R node self = (self', Ok entity)
             /\ Object.signature entity
                = match inspect_signature R function with
                  | Ok s => Some s
                  | Raise _ => None
                  end
             /\ Object.source entity
                = match inspect_getsourcelines R function with
                  | Ok s => Some (source_of_lines s)
                  | Raise _ => None
                  end
             /\ Object.properties entity
                = (if ObjectNode.is_coroutine_function R node then ["async"] else [])
             /\ Object.category entity = Function
             /\ Object.path entity = path
             /\ Object.name entity = ObjectNode.name node
             /\ Object.file_path entity = file
       end.
Proof.
  intros function path Hsig Hsrc. subst function path.
  exists (get_function_documentation R node self).1.
  unfold get_function_documentation, try_except, mbind, M_bind, mret, M_ret, append_error,
    lift, caught_by.
  destruct (inspect_signature R (ObjectNode.obj node)) as [s|e1];
    [|rewrite (Hsig e1 eq_refl)];
    (destruct (inspect_getsourcelines R (ObjectNode.obj node)) as [l|e2];
     [|rewrite (Hsrc e2 eq_refl)]);
    destruct (ObjectNode.file_path R node) as [file|e3]; simpl;
    rewrite ?app_nil_r, <- ?app_assoc; simpl; (split; [reflexivity|]);
    try reflexivity; eexists; repeat split.
Qed.

(** X11.  For a property whose getter makes [inspect.signature] raise nothing
    but [TypeError] or [ValueError] and [inspect.getsourcelines] nothing but
    [OSError] or [TypeError], [get_property_documentation] records one error
    for each of the two that failed and then reads the file path of the root
    module.  If that raises, the exception leaves the method.  Otherwise an
    Attribute entity is returned: its type is the return annotation of the
    getter, or absent; its source likewise; and it is tagged [property], then
    [readonly] when there is no setter and [writable] when there is one. *)
Theorem property_failures_recorded node self :
  let getter := prop_fget R (ObjectNode.obj node) in
  let path := ObjectNode.dotted_path node in
  (forall e, inspect_signature R getter = Raise e ->
             exn_type e = TypeError \/ exn_type e = ValueError) ->
  (forall e, inspect_getsourcelines R getter = Raise e ->
             exn_type e = OSError \/ exn_type e = TypeError) ->
  exists self',
    errors self'
    = errors self
      ++ match inspect_signature R getter with
         | Raise e => ["Couldn't get signature for '" +:+ path +:+ "': " +:+ exn_msg e]
         | Ok _ => []
         end
      ++ match inspect_getsourcelines R getter with
         | Raise e => ["Couldn't get source for '" +:+ path +:+ "': " +:+ exn_msg e]
         | Ok _ => []
         end
    /\ match ObjectNode.file_path R node with
       | Raise e => get_property_documentation R node self = (self', Raise e)
       | Ok file =>
           exists entity,
             get_property_documentation R node self = (self', Ok entity)
             /\ Object.attr_type entity
                = match inspect_signature R getter with
                  | Ok s => Some (return_annotation s)
                  | Raise _ => None
                  end
             /\ Object.source entity
                = match inspect_getsourcelines R getter with
                  | Ok s => Some (source_of_lines s)
                  | Raise _ => None
                  end
             /\ Object.properties entity
                = ["property";
                   if prop_fset_is_None R (ObjectNode.obj node) then "readonly" else "writable"]
             /\ Object.category entity = Attribute
             /\ Object.path entity = path
             /\ Object.signature entity = None
             /\ Object.file_path entity = file
       end.
Proof.
  intros getter path Hsig Hsrc. subst getter path.
  exists (get_property_documentation R node self).1.
  unfold get_property_documentation, try_except, mbind, M_bind, mret, M_ret, append_error,
    lift, caught_by.
  destruct (inspect_signature R _) as [s|e1];
    [|destruct (Hsig e1 eq_refl) as [E1|E1]; rewrite E1];
    (destruct (inspect_getsourcelines R _) as [l|e2];
     [|destruct (Hsrc e2 eq_refl) as [E2|E2]; rewrite E2]);
    destruct (ObjectNode.file_path R node) as [file|e3]; simpl;
    rewrite ?app_nil_r, <- ?app_assoc; simpl; (split; [reflexivity|]);
    try reflexivity; eexists; repeat split.
Qed.

(** X12.  For a method on which [inspect.getsourcelines] raises nothing but
    [OSError] or [TypeError], [get_method_documentation] records an error for
    an [OSError] and none for a [TypeError].  It then raises what reading the
    file path of the root module raised, or else what [inspect.signature]
    raised, or else returns the Method entity with the signature: the error
    about the source stays recorded in all three cases. *)
Theorem method_source_failures node properties self :
  let method := ObjectNode.obj node in
  let path := ObjectNode.dotted_path node in
  (forall e, inspect_getsourcelines R method = Raise e ->
             exn_type e = OSError \/ exn_type e = TypeError) ->
  exists self',
    errors self'
    = errors self
      ++ match inspect_getsourcelines R method with
         | Raise e =>
             if exn_class_eqb (exn_type e) OSError
             then ["Couldn't read source for '" +:+ path +:+ "': " +:+ exn_msg e]
             else []
         | Ok _ => []
         end
    /\ filters self' = filters self
    /\ filter_cache self' = filter_cache self
    /\ match ObjectNode.file_path R node, inspect_signature R method with
       | Raise e, _ => get_method_documentation R node properties self = (self', Raise e)
       | Ok _, Raise e => get_method_documentation R node properties self = (self', Raise e)
       | Ok file, Ok signature =>
           exists entity,
             get_method_documentation R node properties self = (self', Ok entity)
             /\ Object.signature entity = Some signature
             /\ Object.source entity
                = match inspect_getsourcelines R method with
                  | Ok s => Some (source_of_lines s)
                  | Raise _ => None
                  end
             /\ Object.properties entity
                = default [] properties
                  ++ (if ObjectNode.is_coroutine_function R node then ["async"] else [])
             /\ Object.category entity = Method
             /\ Object.path entity = path
             /\ Object.file_path entity = file
       end.
Proof.
  intros method path Hsrc. subst method path.
  assert (Hprops : forall b : bool,
            default [] (if b then match properties with
                                  | Some l => Some (l ++ ["async"])
                                  | None => Some ["async"]
                                  end
                        else properties)
            = default [] properties ++ (if b then ["async"] else [])).
  { intros [|]; destruct properties; simpl; now rewrite ?app_nil_r. }
  exists (get_method_documentation R node properties self).1.
  unfold get_method_documentation, mbind, M_bind, mret, M_ret, append_error, lift, caught_by.
  destruct (inspect_getsourcelines R (ObjectNode.obj node)) as [l|e2];
    [|destruct (Hsrc e2 eq_refl) as [E|E]; rewrite E];
    destruct (ObjectNode.file_path R node) as [file|e3];
    try destruct (inspect_signature R (ObjectNode.obj node)) as [sig|e4]; simpl;
    rewrite ?app_nil_r; repeat (split; [reflexivity|]);
    try reflexivity; eexists; (split; [reflexivity|]); repeat split; apply Hprops.
Qed.

Lemma inherited_docstring_cases parent_classes name method :
  inherited_docstring R parent_classes name method = method
  \/ (inherited_docstring R parent_classes name method = Object.set_docstring (Some "") method
      /\ exists parent_class parent_method,
           parent_class ∈ parent_classes
           /\ getattr R parent_class name = Some parent_method
           /\ Object.docstring method = inspect_getdoc R parent_method).
Proof.
  induction parent_classes as [|c rest IH]; simpl; [now left|].
  destruct (getattr R c name) as [pm|] eqn:E.
  - destruct (decide _) as [Hd|Hd]; [right | now left].
    split; [reflexivity|]. exists c, pm. repeat split; auto. constructor.
  - destruct IH as [IH | (IH & pc & pm & Hin & Hg & Hd)]; [now left | right].
    split; [exact IH|]. exists pc, pm. repeat split; auto. now constructor.
Qed.

(** X13.  [get_regular_method_documentation] returns exactly when
    [get_method_documentation] does, with the same loader, and raises what it
    raises.  The entity is the same, or the same with the docstring [""]; and
    the docstring is only blanked for a name matching [RE_SPECIAL], when a
    class after the method's own in the resolution order has a method of that
    name with the same docstring. *)
Theorem regular_method_only_docstring node self :
  match get_method_documentation R node None self with
  | (self', Raise e) => get_regular_method_documentation R node self = (self', Raise e)
  | (self', Ok method) =>
      exists method',
        get_regular_method_documentation R node self = (self', Ok method')
        /\ (method' = method
            \/ (method' = Object.set_docstring (Some "") method
                /\ RE_SPECIAL_match R (ObjectNode.name node) = true
                /\ exists p parent_class parent_method,
                     ObjectNode.parent node = Some p
                     /\ parent_class ∈ mro_parents R (ObjectNode.obj p)
                     /\ getattr R parent_class (ObjectNode.name node) = Some parent_method
                     /\ Object.docstring method = inspect_getdoc R parent_method))
  end.
Proof.
  unfold get_regular_method_documentation, mbind, M_bind, mret, M_ret.
  destruct (get_method_documentation R node None self) as [self' [method|e]]; [|reflexivity].
  destruct (ObjectNode.parent node) as [p|]; [|eexists; split; [reflexivity | now left]].
  destruct (RE_SPECIAL_match R (ObjectNode.name node)) eqn:Es;
    [|eexists; split; [reflexivity | now left]].
  eexists. split; [reflexivity|].
  destruct (inherited_docstring_cases (mro_parents R (ObjectNode.obj p))
              (ObjectNode.name node) method)
    as [-> | (-> & pc & pm & Hin & Hg & Hd)]; [now left | right].
  split; [reflexivity|]. split; [reflexivity|]. exists p, pc, pm. auto.
Qed.

End LeavesExtras.

(** X10 on the demo interpreter: [helper] has neither signature nor source. *)
Lemma function_failures_recorded_witness :
  let node := ObjectNode.Make Demo.helper "helper"
                (Some (ObjectNode.Make Demo.pkg_mod "pkg.mod" None)) in
  exists self' entity,
    get_function_documentation Demo.runtime node (Loader_init None false) = (self', Ok entity)
    /\ errors self'
       = ["Couldn't get signature for 'pkg.mod.helper': unexpected object in __signature__ attribute";
          "Couldn't read source for 'pkg.mod.helper': could not get source code"]
    /\ Object.signature entity = None
    /\ Object.source entity = None
    /\ Object.file_path entity = "/src/pkg/mod.py".
Proof.
  intros node.
  destruct (function_failures_recorded Demo.runtime node (Loader_init None false))
    as (self' & He & entity & H & Hs & Hsrc & _ & _ & _ & _ & Hf).
  - intros e [= <-]. reflexivity.
  - intros e [= <-]. reflexivity.
  - exists self', entity. auto.
Defined.

(** X11 on the demo interpreter: a property whose getter is [max], below [C]
    in [pkg.mod], and the same property in the chain that [get_object_tree]
    gives for its path, rooted at [builtins], which has no file. *)
Lemma property_failures_recorded_witness :
  let errors_of_max path :=
    ["Couldn't get signature for '" +:+ path +:+ "': no signature found for builtin";
     "Couldn't get source for '" +:+ path +:+ "': not a module, class, method or function"] in
  let below module name :=
    ObjectNode.Make Demo.builtin_max "smallest"
      (Some (ObjectNode.Make Demo.C "C" (Some (ObjectNode.Make module name None)))) in
  (exists self' entity,
     get_property_documentation Demo.runtime (below Demo.pkg_mod "pkg.mod")
       (Loader_init None false) = (self', Ok entity)
     /\ errors self' = errors_of_max "pkg.mod.C.smallest"
     /\ Object.attr_type entity = None
     /\ Object.source entity = None)
  /\ (exists self',
     get_property_documentation Demo.runtime (below Demo.builtins "builtins")
       (Loader_init None false)
     = (self', Raise (Exn TypeError "<module 'builtins' (built-in)> is a built-in module"))
     /\ errors self' = errors_of_max "builtins.C.smallest").
Proof.
  intros errors_of_max below. split.
  - destruct (property_failures_recorded Demo.runtime (below Demo.pkg_mod "pkg.mod")
                (Loader_init None false))
      as (self' & He & entity & H & Hs & Hsrc & _).
    + intros e [= <-]. now right.
    + intros e [= <-]. now right.
    + exists self', entity. auto.
  - destruct (property_failures_recorded Demo.runtime (below Demo.builtins "builtins")
                (Loader_init None false))
      as (self' & He & H).
    + intros e [= <-]. now right.
    + intros e [= <-]. now right.
    + exists self'. auto.
Defined.

(** X12 on the demo interpreter: the source of [Base.__eq__] is missing with
    an [OSError], which is recorded, and the method is documented; and
    [C.smallest], in the chain that [get_object_tree] gives for its path, is
    not documented, for want of a file. *)
Lemma method_source_failures_witness :
  let node := ObjectNode.Make Demo.Base_eq "__eq__"
                (Some (ObjectNode.Make Demo.Base "Base"
                         (Some (ObjectNode.Make Demo.pkg_mod "pkg.mod" None)))) in
  let smallest := ObjectNode.Make Demo.builtin_max "smallest"
                    (Some (ObjectNode.Make Demo.C "C"
                             (Some (ObjectNode.Make Demo.builtins "builtins" None)))) in
  (exists self' entity,
     get_method_documentation Demo.runtime node None (Loader_init None false)
     = (self', Ok entity)
     /\ errors self' = ["Couldn't read source for 'pkg.mod.Base.__eq__': could not get source code"]
     /\ Object.source entity = None)
  /\ get_object_tree Demo.runtime "pkg.mod.C.smallest" = Ok smallest
  /\ (exists self',
     get_method_documentation Demo.runtime smallest (Some ["staticmethod"])
       (Loader_init None false)
     = (self', Raise (Exn TypeError "<module 'builtins' (built-in)> is a built-in module"))
     /\ errors self' = []).
Proof.
  intros node smallest. split; [|split; [reflexivity|]].
  - destruct (method_source_failures Demo.runtime node None (Loader_init None false))
      as (self' & He & _ & _ & entity & H & _ & Hsrc & _).
    + intros e [= <-]. now left.
    + exists self', entity. auto.
  - destruct (method_source_failures Demo.runtime smallest (Some ["staticmethod"])
                (Loader_init None false))
      as (self' & He & _ & _ & H).
    + intros e [= <-]. now right.
    + exists self'. auto.
Defined.

(** ** More on classes *)

Section ClassExtras.
Context (R : Runtime).

(** What every returning turn of a loop keeps of the loader and the
    accumulator together, the whole loop keeps. *)
Lemma foldM_inv_state {A B} (I : Loader -> B -> Prop) (body : B -> A -> M B) items :
  (forall acc x self self' out, I self acc -> body acc x self = (self', Ok out) -> I self' out) ->
  forall acc self self' out,
    I self acc -> foldM body items acc self = (self', Ok out) -> I self' out.
Proof.
  intros Hbody. induction items as [|x items IH]; intros acc self self' out Hacc H; simpl in H.
  - inversion H; now subst.
  - unfold mbind, M_bind in H.
    destruct (body acc x self) as [self1 [acc1|e]] eqn:E; [|discriminate].
    eapply IH; [|exact H]. eapply Hbody; eauto.
Qed.

Lemma dict_set_keys d k v :
  map fst (dict_set d k v) = if bool_decide (k ∈ map fst d) then map fst d else map fst d ++ [k].
Proof.
  induction d as [|[k' v'] d IH]; simpl; [reflexivity|].
  destruct (String.eqb_spec k k') as [->|Hne].
  - rewrite bool_decide_eq_true_2 by constructor. reflexivity.
  - simpl. rewrite IH. destruct (bool_decide (k ∈ map fst d)) eqn:E.
    + apply bool_decide_eq_true in E. rewrite bool_decide_eq_true_2; [reflexivity|].
      now constructor.
    + apply bool_decide_eq_false in E. rewrite bool_decide_eq_false_2; [reflexivity|].
      intros Hin. apply elem_of_cons in Hin as [?|?]; congruence.
Qed.

Lemma dict_set_NoDup d k v : NoDup (map fst d) -> NoDup (map fst (dict_set d k v)).
Proof.
  intros H. rewrite dict_set_keys.
  destruct (bool_decide (k ∈ map fst d)) eqn:E; [exact H|].
  apply bool_decide_eq_false in E. apply NoDup_app. repeat split; [exact H | | apply NoDup_singleton].
  intros x Hx Hk. apply list_elem_of_singleton in Hk. now subst.
Qed.

Lemma dict_set_elem d k v k' v' :
  (k', v') ∈ dict_set d k v -> (k', v') = (k, v) \/ (k', v') ∈ d.
Proof.
  induction d as [|[k0 v0] d IH]; simpl.
  - intros H. apply list_elem_of_singleton in H. now left.
  - destruct (String.eqb k k0).
    + intros H. apply elem_of_cons in H as [H|H]; [now left | right; now constructor].
    + intros H. apply elem_of_cons in H as [H|H]; [right; rewrite H; constructor|].
      destruct (IH H) as [?|?]; [now left | right; now constructor].
Qed.

Lemma dict_set_key_in d k v k' :
  k' ∈ map fst (dict_set d k v) -> k' = k \/ k' ∈ map fst d.
Proof.
  rewrite dict_set_keys. destruct (bool_decide (k ∈ map fst d)); [now right|].
  intros H. apply elem_of_app in H as [H|H]; [now right|].
  apply list_elem_of_singleton in H. now left.
Qed.

Lemma foldM_inv_in {A B} (I : Loader -> B -> Prop) (body : B -> A -> M B) items :
  (forall acc x self self' out,
      x ∈ items -> I self acc -> body acc x self = (self', Ok out) -> I self' out) ->
  forall acc self self' out,
    I self acc -> foldM body items acc self = (self', Ok out) -> I self' out.
Proof.
  induction items as [|x items IH]; intros Hbody acc self self' out Hacc H; simpl in H.
  - inversion H; now subst.
  - unfold mbind, M_bind in H.
    destruct (body acc x self) as [self1 [acc1|e]] eqn:E; [|discriminate].
    eapply IH; [| |exact H].
    + intros acc' x' s s' out' Hin. apply Hbody. now constructor.
    + eapply Hbody; eauto. constructor.
Qed.

Lemma dict_set_key_kept d k v k' : k' ∈ map fst d -> k' ∈ map fst (dict_set d k v).
Proof.
  intros H. rewrite dict_set_keys. destruct (bool_decide (k ∈ map fst d)); [exact H|].
  apply elem_of_app. now left.
Qed.

Lemma dict_set_key_new d k v : k ∈ map fst (dict_set d k v).
Proof.
  rewrite dict_set_keys. destruct (bool_decide (k ∈ map fst d)) eqn:E.
  - now apply bool_decide_eq_true in E.
  - apply elem_of_app. right. constructor.
Qed.

Lemma collected_direct class_ all_members flag self members inherited name member :
  collected R class_ all_members flag self (members, inherited) ->
  (name, member) ∈ all_members ->
  member <> builtin_type R -> member <> builtin_object R ->
  is_Some (obj_dict R class_ !! name) ->
  collected R class_ all_members flag self (dict_set members name member, inherited).
Proof.
  intros (Hf & Hn & He & Hi & Hk) Hin Ht Ho Hd. simpl in *.
  split; [exact Hf|]. split; [now apply dict_set_NoDup|]. split; [|split].
  - intros k v H. apply dict_set_elem in H as [[= -> ->]|H]; auto.
  - simpl. intros k H. destruct (Hi k H) as (H1 & H2 & H3).
    repeat split; auto using dict_set_key_kept.
  - simpl. intros k H. apply dict_set_key_in in H as [->|H]; auto.
Qed.

Lemma collected_inherited class_ all_members self members inherited name member :
  collected R class_ all_members true self (members, inherited) ->
  (name, member) ∈ all_members ->
  member <> builtin_type R -> member <> builtin_object R ->
  obj_dict R class_ !! name = None ->
  collected R class_ all_members true self
    (dict_set members name member, inherited ++ [name]).
Proof.
  intros (Hf & Hn & He & Hi & Hk) Hin Ht Ho Hd. simpl in *.
  split; [exact Hf|]. split; [now apply dict_set_NoDup|]. split; [|split].
  - intros k v H. apply dict_set_elem in H as [[= -> ->]|H]; auto.
  - simpl. intros k H. apply elem_of_app in H as [H|H].
    + destruct (Hi k H) as (H1 & H2 & H3). repeat split; auto using dict_set_key_kept.
    + apply list_elem_of_singleton in H. subst. repeat split; auto using dict_set_key_new.
  - simpl. intros k H. apply dict_set_key_in in H as [->|H].
    + right. apply elem_of_app. right. constructor.
    + destruct (Hk k H); [now left | right]. apply elem_of_app. now left.
Qed.

(** X14.  The members that [collect_members] keeps for a class: each name
    once; each with a value that the class has under that name and that is
    neither [type] nor [object]; each either declared by the class itself or
    listed as inherited.  The names listed as inherited are kept names that
    the class does not declare, and there are none unless the loader selects
    inherited members. *)
Theorem collect_members_sound class_ select_members all_members self self' members inherited :
  collect_members R class_ select_members all_members self = (self', Ok (members, inherited)) ->
  NoDup (map fst members)
  /\ (forall k v, (k, v) ∈ members ->
        (k, v) ∈ all_members /\ v <> builtin_type R /\ v <> builtin_object R)
  /\ (forall k, k ∈ inherited ->
        k ∈ map fst members /\ obj_dict R class_ !! k = None
        /\ select_inherited_members self = true)
  /\ (forall k, k ∈ map fst members ->
        is_Some (obj_dict R class_ !! k) \/ k ∈ inherited)
  /\ (select_inherited_members self = false -> inherited = []).
Proof.
  intros H. unfold collect_members in H.
  apply (foldM_inv_in (collected R class_ all_members (select_inherited_members self))) in H.
  - destruct H as (Hf & Hn & He & Hi & Hk). simpl in *.
    split; [exact Hn|]. split; [exact He|]. split; [exact Hi|]. split; [exact Hk|].
    intros Hflag. destruct inherited as [|k l]; [reflexivity|].
    destruct (Hi k ltac:(constructor)) as (_ & _ & E). congruence.
  - clear H. intros [ms inh] [name member] s s' out Hin HI Hb.
    destruct (bool_decide (member = builtin_type R) || bool_decide (member = builtin_object R))
      eqn:Eb; [inversion Hb; now subst|].
    apply orb_false_elim in Eb as [Et Eo].
    apply bool_decide_eq_false in Et, Eo.
    unfold mbind, M_bind in Hb.
    destruct (select R name select_members s) as [s1 [selected|e]] eqn:Es; [|discriminate].
    destruct (steady_select R _ _ _ _ _ Es) as (_ & Hflag & _).
    assert (HI1 : collected R class_ all_members (select_inherited_members self) s1 (ms, inh)).
    { destruct HI as (Hf & Hrest). split; [congruence | exact Hrest]. }
    destruct selected; [|inversion Hb; now subst].
    destruct (bool_decide (is_Some (obj_dict R class_ !! name))) eqn:Ed.
    + apply bool_decide_eq_true in Ed. inversion Hb; subst.
      now apply collected_direct.
    + apply bool_decide_eq_false in Ed. unfold get_self in Hb. cbv beta iota in Hb.
      destruct (select_inherited_members s1) eqn:Ef; inversion Hb; subst; [|exact HI1].
      assert (Eflag : select_inherited_members self = true).
      { destruct HI1 as (Hf & _). congruence. }
      rewrite Eflag in *. apply collected_inherited; auto.
      destruct (obj_dict R class_ !! name) eqn:E; [|reflexivity].
      exfalso. apply Ed. eauto.
  - split; [reflexivity|]. split; [apply NoDup_nil_2|]. simpl.
    split; [|split].
    + intros k v Hk. inversion Hk.
    + intros k Hk. inversion Hk.
    + intros k Hk. inversion Hk.
Qed.

(** X15.  With [select_members=False] a class is documented without looking
    at its members: the loader is left as it was, and the entity has no child
    and no property, whatever registries the class exposes.  The file path of
    the root module is read first: what it raises leaves the method.  When it
    returns, and the attribute and docstring parsers too, nothing is raised
    for a class without [__init__] of its own. *)
Theorem class_without_members depth node self :
  exists r,
    get_class_documentation R (S depth) node (MBool false) self = (self, r)
    /\ (forall c, r = Ok c -> parser_keeps_shape R ->
          Object.children c = [] /\ Object.properties c = [])
    /\ (forall e, ObjectNode.file_path R node = Raise e -> r = Raise e)
    /\ (forall file, ObjectNode.file_path R node = Ok file ->
          obj_dict R (ObjectNode.obj node) !! "__init__" = None -> exists c, r = Ok c).
Proof.
  cbn [get_class_documentation]. unfold class_attributes_data, mbind, M_bind, lift, mret, M_ret.
  destruct (ObjectNode.file_path R node) as [file|e0].
  2:{ eexists. split; [reflexivity|]. split; [discriminate|]. split; [|discriminate].
      now intros e [= <-]. }
  destruct (obj_dict R (ObjectNode.obj node) !! "__init__") as [own|] eqn:Ei.
  - rewrite bool_decide_eq_true_2 by eauto.
    destruct (getattr R (ObjectNode.obj node) "__init__") as [init|].
    + destruct (inspect_signature R init) as [sig|e].
      * eexists. split; [reflexivity|]. split; [|split; discriminate].
        intros c [= <-] Hp. destruct (Hp (new_object Class (ObjectNode.name node)
          (ObjectNode.dotted_path node) file
          (Some (inspect_cleandoc R (default "" (obj_doc R (ObjectNode.obj node)))))
          None None None []) (get_instance_attributes R init
            ∪ fold_left (fun acc cls => merge R acc (get_class_attributes R cls))
                (rev (mro_but_object R (ObjectNode.obj node))) ∅)) as [-> ->].
        split; reflexivity.
      * eexists. split; [reflexivity|]. repeat split; discriminate.
    + eexists. split; [reflexivity|]. repeat split; discriminate.
  - rewrite bool_decide_eq_false_2 by (intros [? ?]; discriminate).
    eexists. split; [reflexivity|]. split; [|split; [discriminate | eauto]].
    intros c [= <-] Hp. destruct (Hp (new_object Class (ObjectNode.name node)
      (ObjectNode.dotted_path node) file
      (Some (inspect_cleandoc R (default "" (obj_doc R (ObjectNode.obj node)))))
      None None None []) (fold_left (fun acc cls => merge R acc (get_class_attributes R cls))
                (rev (mro_but_object R (ObjectNode.obj node))) ∅)) as [-> ->].
    split; reflexivity.
Qed.

Lemma placed_below node member member_name child o :
  placed (ObjectNode.init R member member_name (Some node)) child ->
  placed node o ->
  Object.path child = Object.path o +:+ "." +:+ Object.name child.
Proof.
  intros [Hp Hn] [Hpo _]. rewrite Hp, Hn, Hpo.
  exact (dotted_path_Make _ member_name node).
Qed.

Lemma placed_inherited node o :
  placed node o -> placed node (Object.append_property "inherited" o).
Proof. intros H. exact H. Qed.

Lemma method_placed node properties self self' method :
  get_method_documentation R node properties self = (self', Ok method) -> placed node method.
Proof.
  unfold get_method_documentation, append_error. intros H. returned H; split; reflexivity.
Qed.

Lemma inherited_docstring_placed parent_classes name node method :
  placed node method -> placed node (inherited_docstring R parent_classes name method).
Proof.
  intros H. induction parent_classes as [|c rest IH]; simpl; [exact H|].
  destruct (getattr R c name); [|exact IH]. destruct (decide _); exact H.
Qed.

Lemma regular_method_placed node self self' method :
  get_regular_method_documentation R node self = (self', Ok method) -> placed node method.
Proof.
  unfold get_regular_method_documentation, mbind, M_bind, mret, M_ret. intros H.
  destruct (get_method_documentation R node None self) as [s1 [m|e]] eqn:Em; [|discriminate].
  apply method_placed in Em.
  destruct (ObjectNode.parent node) as [p|]; [|now inversion H; subst].
  destruct (RE_SPECIAL_match R (ObjectNode.name node)); inversion H; subst; [|exact Em].
  now apply inherited_docstring_placed.
Qed.

Lemma property_placed node self self' attribute :
  get_property_documentation R node self = (self', Ok attribute) -> placed node attribute.
Proof.
  unfold get_property_documentation, try_except, append_error. intros H.
  returned H; split; reflexivity.
Qed.

Lemma function_placed node self self' function :
  get_function_documentation R node self = (self', Ok function) -> placed node function.
Proof.
  unfold get_function_documentation, try_except, append_error. intros H.
  returned H; split; reflexivity.
Qed.

Lemma dataclass_field_placed node data child :
  get_annotated_dataclass_field R node data = Ok child -> placed node child.
Proof.
  unfold get_annotated_dataclass_field, mbind, result_bind. intros H.
  destruct (ObjectNode.file_path R node); [|discriminate].
  destruct (getitem_docstring _); [|discriminate].
  destruct (getitem_annotation _); [|discriminate].
  inversion H; subst. split; reflexivity.
Qed.

Lemma pydantic_field_placed node child :
  get_pydantic_field_documentation R node = Ok child -> placed node child.
Proof.
  unfold get_pydantic_field_documentation, mbind, result_bind. intros H.
  destruct (ObjectNode.file_path R node); [|discriminate].
  inversion H; subst. split; reflexivity.
Qed.

Lemma marshmallow_field_placed node child :
  get_marshmallow_field_documentation R node = Ok child -> placed node child.
Proof.
  unfold get_marshmallow_field_documentation, mbind, result_bind. intros H.
  destruct (ObjectNode.file_path R node); [|discriminate].
  inversion H; subst. split; reflexivity.
Qed.

Lemma attribute_placed node data child :
  get_attribute_documentation R node data = Ok child -> placed node child.
Proof.
  unfold get_attribute_documentation, mbind, result_bind. intros H.
  destruct (ObjectNode.file_path R node); [|discriminate].
  inversion H; subst. split; reflexivity.
Qed.

Lemma below_add_child node o child :
  (placed node o /\ children_below o) ->
  Object.path child = Object.path o +:+ "." +:+ Object.name child ->
  placed node (Object.add_child child o) /\ children_below (Object.add_child child o).
Proof.
  intros [Hp Hc] Hchild. split; [exact Hp|]. unfold children_below. simpl.
  apply Forall_app. split; [exact Hc | now constructor].
Qed.

Lemma document_fields_below node select_members all_members root self self' c :
  (placed node root /\ children_below root) ->
  document_fields R node select_members all_members root self = (self', Ok c) ->
  placed node c /\ children_below c.
Proof.
  intros Hroot H. unfold document_fields in H.
  unfold mbind at 1, M_bind at 1, get_self at 1 in H. cbv beta iota in H.
  destruct (exposes self "__fields__" _ all_members);
    [|destruct (exposes self "_declared_fields" _ all_members);
      [|destruct (exposes self "__dataclass_fields__" _ all_members)]].
  4:{ inversion H; now subst. }
  all: unfold mbind at 1, M_bind at 1, lift at 1 in H;
    match type of H with
    | context [dict_getitem ?d ?k] =>
        destruct (dict_getitem d k) as [registry|e]; [|discriminate]
    end;
    apply (foldM_inv (fun o => placed node o /\ children_below o)) in H;
    [ exact H | | exact Hroot ].
  - intros acc [field_name model_field] s s' out Hacc Hb. revert Hacc.
    returned Hb; intros Hacc; [|exact Hacc]. apply below_add_child; [exact Hacc|].
    eapply placed_below; [eapply pydantic_field_placed; eassumption | apply Hacc].
  - intros acc [field_name model_field] s s' out Hacc Hb. revert Hacc.
    returned Hb; intros Hacc; [|exact Hacc]. apply below_add_child; [exact Hacc|].
    eapply placed_below; [eapply marshmallow_field_placed; eassumption | apply Hacc].
  - intros acc field s s' out Hacc Hb. revert Hacc.
    returned Hb; intros Hacc; [|exact Hacc]. apply below_add_child; [exact Hacc|].
    eapply placed_below; [eapply dataclass_field_placed; eassumption | apply Hacc].
Qed.

(** A class entity is placed at its node, with its children below it. *)
Lemma get_class_documentation_below :
  parser_keeps_paths R ->
  forall depth node select_members self self' c,
    get_class_documentation R depth node select_members self = (self', Ok c) ->
    placed node c /\ children_below c.
Proof.
  intros Hparse.
  induction depth as [|depth IH]; intros node select_members self self' c H; [discriminate|].
  cbn [get_class_documentation] in H.
  unfold mbind at 1, M_bind at 1, lift at 1 in H.
  destruct (ObjectNode.file_path R node) as [file|e]; [|discriminate].
  unfold mbind at 1, M_bind at 1 in H.
  destruct (class_attributes_data R (ObjectNode.obj node) self) as [s1 [attrs|e]];
    [|discriminate].
  assert (Hroot0 : placed node (parse_docstring R
            (new_object Class (ObjectNode.name node) (ObjectNode.dotted_path node)
               file
               (Some (inspect_cleandoc R (default "" (obj_doc R (ObjectNode.obj node)))))
               None None None []) attrs)
          /\ children_below (parse_docstring R
            (new_object Class (ObjectNode.name node) (ObjectNode.dotted_path node)
               file
               (Some (inspect_cleandoc R (default "" (obj_doc R (ObjectNode.obj node)))))
               None None None []) attrs)).
  { unfold placed, children_below.
    destruct (Hparse (new_object Class (ObjectNode.name node) (ObjectNode.dotted_path node)
               file
               (Some (inspect_cleandoc R (default "" (obj_doc R (ObjectNode.obj node)))))
               None None None []) attrs) as (-> & -> & ->).
    repeat split. constructor. }
  assert (Hbody : forall inherited acc x s s' out,
    (placed node acc /\ children_below acc) ->
    (let '(member_name, member) := x in
     let child_node := ObjectNode.init R member member_name (Some node) in
     let add child :=
       let child :=
         if bool_decide (member_name ∈ (inherited : list string))
         then Object.append_property "inherited" child else child in
       mret (Object.add_child child acc) in
     if ObjectNode.is_class R child_node then
       child ← get_class_documentation R depth child_node MNone; add child
     else if ObjectNode.is_classmethod R child_node then
       child ← get_classmethod_documentation R child_node; add child
     else if ObjectNode.is_staticmethod R child_node then
       child ← get_staticmethod_documentation R child_node; add child
     else if ObjectNode.is_method R child_node then
       child ← get_regular_method_documentation R child_node; add child
     else if ObjectNode.is_property R child_node then
       child ← get_property_documentation R child_node; add child
     else
       match (attrs : gmap string AttrDict) !! member_name with
       | Some data =>
           child ← lift (get_attribute_documentation R child_node (Some data)); add child
       | None => mret acc
       end) s = (s', Ok out) ->
    placed node out /\ children_below out).
  { clear H. intros inherited acc [member_name member] s s' out Hacc Hb.
    revert Hacc. returned Hb; intros Hacc; try exact Hacc;
      (apply below_add_child; [exact Hacc|]);
      (eapply placed_below; [|apply Hacc]); try apply placed_inherited;
      match goal with
      | E : get_attribute_documentation R _ _ = Ok ?child |- placed _ ?child =>
          exact (attribute_placed _ _ _ E)
      | E : get_class_documentation R depth ?n MNone ?s = (_, Ok ?child) |- placed _ ?child =>
          exact (proj1 (IH _ _ _ _ _ E))
      | E : get_classmethod_documentation R _ _ = (_, Ok ?child) |- placed _ ?child =>
          exact (method_placed _ _ _ _ _ E)
      | E : get_staticmethod_documentation R _ _ = (_, Ok ?child) |- placed _ ?child =>
          exact (method_placed _ _ _ _ _ E)
      | E : get_regular_method_documentation R _ _ = (_, Ok ?child) |- placed _ ?child =>
          exact (regular_method_placed _ _ _ _ E)
      | E : get_property_documentation R _ _ = (_, Ok ?child) |- placed _ ?child =>
          exact (property_placed _ _ _ _ E)
      end. }
  destruct select_members as [|[|]|names];
    try (inversion H; subst; exact Hroot0);
    unfold mbind at 1, M_bind at 1 in H;
    destruct (collect_members R _ _ _ s1) as [s2 [[members inherited]|e]]; try discriminate;
    unfold mbind at 1, M_bind at 1 in H;
    match type of H with
    | context [foldM ?body members ?acc s2] =>
        destruct (foldM body members acc s2) as [s3 [root|e]] eqn:Ef; [|discriminate];
        apply (foldM_inv (fun o => placed node o /\ children_below o)) in Ef;
        [ | intros ? ? ? ? ? Hacc Hb; exact (Hbody inherited _ _ _ _ _ Hacc Hb)
          | exact Hroot0 ]
    end;
    exact (document_fields_below _ _ _ _ _ _ _ Ef H).
Qed.

(** X16.  A class entity has the dotted path and the name of its node, and
    each of its children (nested classes, methods, properties, attributes
    and the fields of its registries) has for path the path of the class, a
    dot, and the child's own name. *)
Theorem class_children_paths :
  parser_keeps_paths R ->
  forall depth node select_members self self' c,
    get_class_documentation R depth node select_members self = (self', Ok c) ->
    Object.path c = ObjectNode.dotted_path node
    /\ Object.name c = ObjectNode.name node
    /\ Forall (fun child => Object.path child = Object.path c +:+ "." +:+ Object.name child)
              (Object.children c).
Proof.
  intros Hparse depth node select_members self self' c H.
  destruct (get_class_documentation_below Hparse _ _ _ _ _ _ H) as [[Hp Hn] Hc]. auto.
Qed.

End ClassExtras.

(** ** The fields of a registry *)

Section Fields.
Context (R : Runtime).

Lemma select_true_explicit name (names : gset string) self self' :
  names <> ∅ -> select R name (MSet names) self = (self', Ok true) -> name ∈ names.
Proof.
  intros Hne H. unfold select, truthy in H.
  rewrite (bool_decide_eq_false_2 _ Hne) in H. simpl in H.
  injection H as _ Hb. now apply bool_decide_eq_true in Hb.
Qed.

Lemma field_selected_true class_ registry field_name select_members self self' :
  field_selected R class_ registry field_name select_members self = (self', Ok true) ->
  select_inherited_members self' = select_inherited_members self
  /\ (select_inherited_members self = false ->
      field_name ∉ registry_keys R registry (mro_strict_parents R class_))
  /\ (forall names : gset string,
        select_members = MSet names -> names <> ∅ -> field_name ∈ names).
Proof.
  intros H.
  destruct (steady_field_selected R _ _ _ _ _ _ _ H) as (_ & Hflag & _).
  split; [exact Hflag|].
  unfold field_selected, mbind, M_bind, get_self, mret, M_ret in H.
  destruct (select R field_name select_members self) as [s1 [[|]|e]] eqn:Es;
    try discriminate.
  injection H as Hs Hb. subst s1. split.
  - intros Hf. rewrite Hflag, Hf in Hb. simpl in Hb.
    apply negb_true_iff, bool_decide_eq_false in Hb. exact Hb.
  - intros names -> Hne. eapply select_true_explicit; eauto.
Qed.

Lemma field_selected_flag class_ registry field_name select_members self self' r :
  field_selected R class_ registry field_name select_members self = (self', r) ->
  select_inherited_members self' = select_inherited_members self.
Proof. intros H. now destruct (steady_field_selected R _ _ _ _ _ _ _ H) as (_ & Hflag & _). Qed.

(** X18.  The fields that the detection step adds to a class all passed the
    selection: when inherited members are left out, none has the name of a
    key of the same registry in an ancestor of the class; and with explicit
    names, each is one of them. *)
Theorem fields_pass_selection node select_members all_members root self self' c
    registry model field :
  document_fields R node select_members all_members root self = (self', Ok c) ->
  convention R self (ObjectNode.obj node) all_members = Some (model, field) ->
  (registry, (model, field)) ∈ registries ->
  exists fields,
    Object.children c = Object.children root ++ fields
    /\ Forall (field_passes R self (ObjectNode.obj node) registry select_members) fields.
Proof.
  intros H Hconv Hreg. unfold document_fields in H.
  unfold mbind at 1, M_bind at 1, get_self at 1 in H. cbv beta iota in H.
  unfold convention in Hconv.
  set (I := fun (s : Loader) (o : Object.t) =>
              select_inherited_members s = select_inherited_members self
              /\ exists fields,
                   Object.children o = Object.children root ++ fields
                   /\ Forall (field_passes R self (ObjectNode.obj node) registry select_members)
                             fields).
  assert (Hstart : forall tags, I self (Object.set_properties tags root)).
  { intros tags. split; [reflexivity|]. exists []. split; [now rewrite app_nil_r | constructor]. }
  assert (Hadd : forall s s1 o child field_name,
            I s o ->
            field_selected R (ObjectNode.obj node) registry field_name select_members s
            = (s1, Ok true) ->
            Object.name child = field_name ->
            I s1 (Object.add_child child o)).
  { intros s s1 o child field_name [Hf (fields & Hc & Hall)] Hsel Hname.
    destruct (field_selected_true _ _ _ _ _ _ Hsel) as (Hf1 & Hinh & Hexp).
    split; [congruence|]. exists (fields ++ [child]). split.
    - simpl. rewrite Hc. now rewrite <- app_assoc.
    - apply Forall_app. split; [exact Hall|]. constructor; [|constructor].
      split; rewrite Hname; [|exact Hexp]. intros Hself. apply Hinh. congruence. }
  assert (Hskip : forall s s1 o field_name r,
            I s o ->
            field_selected R (ObjectNode.obj node) registry field_name select_members s
            = (s1, r) ->
            I s1 o).
  { intros s s1 o field_name r [Hf Hrest] Hsel. split; [|exact Hrest].
    apply field_selected_flag in Hsel. congruence. }
  assert (Hregistry : registry = match model with
                                 | "pydantic-model" => "__fields__"
                                 | "marshmallow-model" => "_declared_fields"
                                 | _ => "__dataclass_fields__"
                                 end).
  { unfold registries in Hreg.
    repeat (apply elem_of_cons in Hreg as [Hreg|Hreg]; [now inversion Hreg|]).
    inversion Hreg. }
  destruct (exposes self "__fields__" _ all_members);
    [|destruct (exposes self "_declared_fields" _ all_members);
      [|destruct (exposes self "__dataclass_fields__" _ all_members)]];
    try discriminate; inversion Hconv; subst model field; simpl in Hregistry; subst registry;
    unfold mbind at 1, M_bind at 1, lift at 1 in H;
    match type of H with
    | context [dict_getitem ?d ?k] =>
        destruct (dict_getitem d k) as [registry|e]; [|discriminate]
    end;
    (apply (foldM_inv_state I) in H; [exact (proj2 H) | | apply Hstart]).
  - intros acc [field_name model_field] s s' out Hacc Hb.
    unfold mbind, M_bind, mret, M_ret, lift in Hb.
    destruct (field_selected R _ _ field_name select_members s) as [s1 [[|]|e]] eqn:Es;
      try discriminate; [|inversion Hb; subst; eauto].
    destruct (get_pydantic_field_documentation R _) as [child|e] eqn:Ec; [|discriminate].
    inversion Hb; subst. eapply Hadd; eauto.
    now destruct (pydantic_field_placed R _ _ Ec).
  - intros acc [field_name model_field] s s' out Hacc Hb.
    unfold mbind, M_bind, mret, M_ret, lift in Hb.
    destruct (field_selected R _ _ field_name select_members s) as [s1 [[|]|e]] eqn:Es;
      try discriminate; [|inversion Hb; subst; eauto].
    destruct (get_marshmallow_field_documentation R _) as [child|e] eqn:Ec; [|discriminate].
    inversion Hb; subst. eapply Hadd; eauto.
    now destruct (marshmallow_field_placed R _ _ Ec).
  - intros acc fld s s' out Hacc Hb.
    unfold mbind, M_bind, mret, M_ret, lift in Hb.
    destruct (field_selected R _ _ (field_name R fld) select_members s) as [s1 [[|]|e]] eqn:Es;
      try discriminate; [|inversion Hb; subst; eauto].
    destruct (get_annotated_dataclass_field R _ None) as [child|e] eqn:Ec; [|discriminate].
    inversion Hb; subst. eapply Hadd; eauto.
    now destruct (dataclass_field_placed R _ _ _ Ec).
Qed.

End Fields.

(** ** The children of a module *)

Section ModuleChildren.
Context (R : Runtime).

Lemma module_add_child node name o child :
  (Object.path o = ObjectNode.dotted_path node /\ Object.name o = name
   /\ Forall (module_child R node) (Object.children o)) ->
  module_child R node child ->
  Object.path (Object.add_child child o) = ObjectNode.dotted_path node
  /\ Object.name (Object.add_child child o) = name
  /\ Forall (module_child R node) (Object.children (Object.add_child child o)).
Proof.
  intros (Hp & Hn & Hc) Hchild. split; [exact Hp|]. split; [exact Hn|]. simpl.
  apply Forall_app. split; [exact Hc | now constructor].
Qed.

(** The module entity, whatever its members. *)
Lemma get_module_documentation_placed :
  parser_keeps_paths R ->
  forall depth node select_members self self' m,
    get_module_documentation R depth node select_members self = (self', Ok m) ->
    Object.path m = ObjectNode.dotted_path node
    /\ Object.name m = default "" (last (PyStr.split PyStr.dot (ObjectNode.dotted_path node)))
    /\ Forall (module_child R node) (Object.children m).
Proof.
  intros Hparse. induction depth as [|depth IH];
    intros node select_members self self' m H; [discriminate|].
  cbn [get_module_documentation] in H.
  unfold mbind at 1, M_bind at 1 in H.
  destruct (module_source R node self) as [s1 [source|e]]; [|discriminate].
  unfold mbind at 1, M_bind at 1, lift at 1 in H.
  destruct (ObjectNode.file_path R node) as [file|e]; [|discriminate].
  set (name := default "" (last (PyStr.split PyStr.dot (ObjectNode.dotted_path node)))) in *.
  set (K := fun o : Object.t =>
              Object.path o = ObjectNode.dotted_path node /\ Object.name o = name
              /\ Forall (module_child R node) (Object.children o)).
  assert (Hroot : K (parse_docstring R
            (new_object Module name (ObjectNode.dotted_path node) file
               (inspect_getdoc R (ObjectNode.obj node)) None source None [])
            (get_module_attributes R (ObjectNode.obj node)))).
  { unfold K. destruct (Hparse (new_object Module name (ObjectNode.dotted_path node)
               file (inspect_getdoc R (ObjectNode.obj node))
               None source None []) (get_module_attributes R (ObjectNode.obj node)))
      as (-> & -> & ->). repeat split. constructor. }
  assert (Hmember : forall member_name member child,
            (member_name, member) ∈ inspect_getmembers R (ObjectNode.obj node) ->
            placed (ObjectNode.init R member member_name (Some node)) child ->
            (inspect_getmodule R member = Some (ObjectNode.obj (ObjectNode.root node))
             \/ is_Some (get_module_attributes R (ObjectNode.obj node) !! member_name)) ->
            module_child R node child).
  { intros member_name member child Hin [Hp Hn] Hwhy. left. exists member_name, member.
    split; [exact Hin|]. split; [exact Hn|]. split; [|exact Hwhy].
    rewrite Hp. exact (dotted_path_Make _ member_name node). }
  assert (Hbody1 : forall names acc x s s' out,
    x ∈ inspect_getmembers R (ObjectNode.obj node) -> K acc ->
    (let '(member_name, member) := x in
     selected ← select R member_name names;
     if selected : bool then
       let child_node := ObjectNode.init R member member_name (Some node) in
       let defined_here :=
         bool_decide (inspect_getmodule R member
                      = Some (ObjectNode.obj (ObjectNode.root node))) in
       if ObjectNode.is_class R child_node && defined_here then
         child ← get_class_documentation R depth child_node MNone;
         mret (Object.add_child child acc)
       else if ObjectNode.is_function R child_node && defined_here then
         child ← get_function_documentation R child_node;
         mret (Object.add_child child acc)
       else
         match get_module_attributes R (ObjectNode.obj node) !! member_name with
         | Some data =>
             child ← lift (get_attribute_documentation R child_node (Some data));
             mret (Object.add_child child acc)
         | None => mret acc
         end
     else mret acc) s = (s', Ok out) ->
    K out).
  { clear H. intros names acc [member_name member] s s' out Hin Hacc Hb.
    unfold mbind, M_bind, mret, M_ret, lift in Hb.
    destruct (select R member_name names s) as [s1' [[|]|e]]; try discriminate;
      [|inversion Hb; now subst].
    destruct (bool_decide (inspect_getmodule R member
                           = Some (ObjectNode.obj (ObjectNode.root node)))) eqn:Ed.
    - apply bool_decide_eq_true in Ed. rewrite !andb_true_r in Hb.
      destruct (ObjectNode.is_class R _).
      + destruct (get_class_documentation R depth _ MNone s1') as [s2 [child|e]] eqn:Ec;
          [|discriminate].
        inversion Hb; subst. apply module_add_child; [exact Hacc|].
        eapply Hmember; [exact Hin | | now left].
        exact (proj1 (get_class_documentation_below R Hparse _ _ _ _ _ _ Ec)).
      + destruct (ObjectNode.is_function R _).
        * destruct (get_function_documentation R _ s1') as [s2 [child|e]] eqn:Ec;
            [|discriminate].
          inversion Hb; subst. apply module_add_child; [exact Hacc|].
          eapply Hmember; [exact Hin | | now left].
          exact (function_placed R _ _ _ _ Ec).
        * destruct (get_module_attributes R (ObjectNode.obj node) !! member_name) eqn:Ea;
            [|inversion Hb; subst; exact Hacc].
          destruct (get_attribute_documentation R _ _) as [child|e] eqn:Ec; [|discriminate].
          inversion Hb; subst. apply module_add_child; [exact Hacc|].
          eapply Hmember; [exact Hin | | right; rewrite Ea; eauto].
          exact (attribute_placed R _ _ _ Ec).
    - rewrite !andb_false_r in Hb.
      destruct (get_module_attributes R (ObjectNode.obj node) !! member_name) eqn:Ea;
        [|inversion Hb; subst; exact Hacc].
      destruct (get_attribute_documentation R _ _) as [child|e] eqn:Ec; [|discriminate].
      inversion Hb; subst. apply module_add_child; [exact Hacc|].
      eapply Hmember; [exact Hin | | right; rewrite Ea; eauto].
      exact (attribute_placed R _ _ _ Ec). }
  assert (Hbody2 : forall package_path names acc modname s s' out,
    module_path R (ObjectNode.obj node) = Some package_path ->
    modname ∈ pkgutil_iter_modules R package_path -> K acc ->
    (selected ← select R modname names;
     if selected : bool then
       leaf ← lift (get_object_tree R (ObjectNode.dotted_path node +:+ "." +:+ modname));
       child ← get_module_documentation R depth leaf MNone;
       mret (Object.add_child child acc)
     else mret acc) s = (s', Ok out) ->
    K out).
  { clear H. intros package_path names acc modname s s' out Hpkg Hin Hacc Hb.
    unfold mbind, M_bind, mret, M_ret, lift in Hb.
    destruct (select R modname names s) as [s1' [[|]|e]]; try discriminate;
      [|inversion Hb; now subst].
    destruct (get_object_tree R _) as [leaf|e] eqn:El; [|discriminate].
    destruct (get_module_documentation R depth leaf MNone s1') as [s2 [child|e]] eqn:Ec;
      [|discriminate].
    inversion Hb; subst. apply module_add_child; [exact Hacc|].
    right. exists package_path, modname, leaf. repeat split; auto.
    exact (proj1 (IH _ _ _ _ _ Ec)). }
  destruct select_members as [|[|]|names];
    try (inversion H; subst; repeat split; constructor);
    unfold mbind at 1, M_bind at 1 in H;
    match type of H with
    | context [foldM ?body ?items ?acc s1] =>
        destruct (foldM body items acc s1) as [s2 [root2|e]] eqn:Ef; [|discriminate];
        apply (foldM_inv_in (fun _ => K)) in Ef;
        [ | intros ? ? ? ? ? Hin Hacc Hb; exact (Hbody1 _ _ _ _ _ _ Hin Hacc Hb) | exact Hroot ]
    end;
    (destruct (module_path R (ObjectNode.obj node)) as [package_path|] eqn:Hpkg;
     [ apply (foldM_inv_in (fun _ => K)) in H;
       [ exact H
       | intros ? ? ? ? ? Hin Hacc Hb; exact (Hbody2 _ _ _ _ _ _ _ eq_refl Hin Hacc Hb)
       | exact Ef ]
     | inversion H; subst; exact Ef ]).
Qed.

(** X19.  A module entity has the dotted path of its node and is named by the
    last segment of that path.  Each of its children is either a member of
    the module, documented under its name and below the module's path, that
    is defined in the root module of the node or is a declared attribute of
    the module; or a submodule listed by [pkgutil] for the package.  A class
    or a function that the module merely imports is not documented, unless
    its name is a declared attribute. *)
Theorem module_children :
  parser_keeps_paths R ->
  forall depth node select_members self self' m,
    get_module_documentation R depth node select_members self = (self', Ok m) ->
    Object.path m = ObjectNode.dotted_path node
    /\ Object.name m = default "" (last (PyStr.split PyStr.dot (ObjectNode.dotted_path node)))
    /\ Forall (module_child R node) (Object.children m).
Proof. exact get_module_documentation_placed. Qed.

End ModuleChildren.

(** ** The extras on the demo interpreter *)

Lemma demo_parser_keeps_paths : parser_keeps_paths Demo.runtime.
Proof. intros o attributes. repeat split. Qed.

(** X14 on the demo interpreter: the members kept for [C]. *)
Lemma collect_members_sound_witness :
  let self := Loader_init None false in
  let all_members := py_dict (inspect_getmembers Demo.runtime Demo.C) in
  let members := [("__eq__", Demo.C_eq); ("__repr__", Demo.C_repr);
                  ("smallest", Demo.builtin_max)] in
  (collect_members Demo.runtime Demo.C (MSet ∅) all_members self).2 = Ok (members, [])
  /\ NoDup (map fst members)
  /\ (forall k v, (k, v) ∈ members ->
        (k, v) ∈ all_members /\ v <> builtin_type Demo.runtime
        /\ v <> builtin_object Demo.runtime)
  /\ (forall k, k ∈ map fst members -> is_Some (obj_dict Demo.runtime Demo.C !! k) \/ k ∈ []).
Proof.
  intros self all_members members. split; [vm_compute; reflexivity|].
  destruct (collect_members_sound Demo.runtime Demo.C (MSet ∅) all_members self
              (collect_members Demo.runtime Demo.C (MSet ∅) all_members self).1 members [])
    as (Hn & He & _ & Hk & _); [|auto].
  rewrite (surjective_pairing (collect_members _ _ _ _ _)) at 1. now f_equal.
Defined.

(** X16 on the demo interpreter: the class [Both] and its one field. *)
Lemma class_children_paths_witness :
  let node := ObjectNode.Make Demo.Both "Both"
                (Some (ObjectNode.Make Demo.pkg_mod "pkg.mod" None)) in
  exists self' c,
    get_class_documentation Demo.runtime 2 node MNone (Loader_init None false) = (self', Ok c)
    /\ Object.path c = "pkg.mod.Both"
    /\ Object.name c = "Both"
    /\ Forall (fun child => Object.path child = Object.path c +:+ "." +:+ Object.name child)
              (Object.children c).
Proof.
  intros node. eexists _, _. split; [vm_compute; reflexivity|].
  exact (class_children_paths Demo.runtime demo_parser_keeps_paths 2 node MNone
           (Loader_init None false) _ _ eq_refl).
Defined.

(** X18 on the demo interpreter: the pydantic field of [Both]. *)
Lemma fields_pass_selection_witness :
  let self := Loader_init None false in
  let node := ObjectNode.Make Demo.Both "Both"
                (Some (ObjectNode.Make Demo.pkg_mod "pkg.mod" None)) in
  let all_members := py_dict (inspect_getmembers Demo.runtime Demo.Both) in
  let root := new_object Class "Both" "pkg.mod.Both" "/src/pkg/mod.py" (Some "") None None None [] in
  exists self' c fields,
    document_fields Demo.runtime node (MSet ∅) all_members root self = (self', Ok c)
    /\ Object.children c = Object.children root ++ fields
    /\ Forall (field_passes Demo.runtime self Demo.Both "__fields__" (MSet ∅)) fields.
Proof.
  intros self node all_members root.
  destruct (document_fields Demo.runtime node (MSet ∅) all_members root self)
    as [self' [c|e]] eqn:Hrun.
  - destruct (fields_pass_selection Demo.runtime node (MSet ∅) all_members root self self' c
                "__fields__" "pydantic-model" "pydantic-field" Hrun)
      as (fields & Hc & Hf).
    + reflexivity.
    + constructor.
    + exists self', c, fields. auto.
  - vm_compute in Hrun. discriminate Hrun.
Defined.

(** X19 on the demo interpreter: [pkg.mod] with the members [Base] and
    [helper]. *)
Lemma module_children_witness :
  let node := ObjectNode.Make Demo.pkg_mod "pkg.mod" None in
  exists self' m,
    get_module_documentation Demo.runtime 3 node (MSet {["Base"; "helper"]})
      (Loader_init None false) = (self', Ok m)
    /\ Object.path m = "pkg.mod"
    /\ Object.name m = "mod"
    /\ map Object.name (Object.children m) = ["Base"; "helper"]
    /\ Forall (module_child Demo.runtime node) (Object.children m).
Proof.
  intros node.
  destruct (get_module_documentation Demo.runtime 3 node (MSet {["Base"; "helper"]})
              (Loader_init None false)) as [self' [m|e]] eqn:Hrun.
  - exists self', m. split; [reflexivity|].
    destruct (module_children Demo.runtime demo_parser_keeps_paths 3 node _ _ _ _ Hrun)
      as (Hp & Hn & Hc).
    split; [exact Hp|]. split; [exact Hn|]. split; [|exact Hc].
    vm_compute in Hrun. injection Hrun as _ <-. reflexivity.
  - vm_compute in Hrun. discriminate Hrun.
Defined.
